(** * Customer API: the Odoo controllers of [controllers/api_controller.py]

    A shallow embedding of the request handlers (customer signup and login,
    product listing, cart add and view) over an explicit record store.

    - Python values that travel in JSON payloads are the inductive [PyVal];
      dictionaries are [gmap string PyVal]; Python [float] is the primitive
      binary64 [float]; Python [int] is [Z].
    - The database behind the ORM is the record [Store]: one table (a list of
      records, in insertion order) per model the controllers touch, plus the
      log of ORM calls issued so far.
    - Handlers run in the monad [M]: they thread the store and may raise a
      Python exception; every handler catches exceptions at its boundary the
      way the source does.
    - What the Python runtime and the framework compute outside this
      repository (text parsing, collation, the pricing and tax engine) is the
      interface of the classes [PyRuntime] and [Orm].
    - The ORM calls act on the tables alone: [search] filters a table by the
      domain the source writes, [create] always adds the record under the
      next id, a write reaches the records of the id and, on an order,
      stamps [write_date] with the time of the request. Constraints and
      access rules of the framework are outside the model.
    - The script [test_api.py] is the module [TestApi]: its [main] over the
      methods of the tester, which talk to a server and are its interface. *)

From Stdlib Require Import ZArith Ascii Floats.PrimFloat Floats.FloatOps Floats.SpecFloat.
From stdpp Require Import gmap strings list pretty.
Open Scope Z_scope.

(** ** Python values *)

#[warnings="-register-all"]
Inductive PyVal :=
| PyNone
| PyBool (b : bool)
| PyInt (z : Z)
| PyFloat (f : float)
| PyStr (s : string)
| PyList (l : list PyVal)
| PyDict (d : gmap string PyVal).

Inductive PyExc :=
| ValueError
| TypeError
| OverflowError
| AttributeError
| KeyError
| MissingError
| ValidationError (msg : string)
| AccessDenied
| OtherException.

Inductive outcome (A : Type) :=
| Return (a : A)
| Raise (e : PyExc).
Arguments Return {A} a.
Arguments Raise {A} e.

#[global] Instance outcome_ret : MRet outcome := λ A a, Return a.

#[global] Instance outcome_bind : MBind outcome := λ A B k o,
  match o with
  | Return a => k a
  | Raise e => Raise e
  end.

(** [bool(v)]: the truth value Python gives [v] in [if not v]. *)
Definition truthy (v : PyVal) : bool :=
  match v with
  | PyNone => false
  | PyBool b => b
  | PyInt z => negb (z =? 0)
  | PyFloat f => negb (PrimFloat.eqb f 0%float)
  | PyStr s => negb (String.eqb s "")
  | PyList l => match l with [] => false | _ :: _ => true end
  | PyDict d => negb (bool_decide (size d = 0%nat))
  end.

(** [d.get(k)] and [d.get(k, dflt)] on a Python object: only a dict has the
    method, any other value raises AttributeError. *)
Definition py_get_default (data : PyVal) (k : string) (dflt : PyVal) : outcome PyVal :=
  match data with
  | PyDict d => Return (default dflt (d !! k))
  | _ => Raise AttributeError
  end.

Definition py_get (data : PyVal) (k : string) : outcome PyVal :=
  py_get_default data k PyNone.

(** [d[k]] *)
Definition py_item (data : PyVal) (k : string) : outcome PyVal :=
  match data with
  | PyDict d => match d !! k with Some v => Return v | None => Raise KeyError end
  | _ => Raise TypeError
  end.

(** [int(f)] on a float truncates toward zero; NaN is a ValueError and an
    infinity an OverflowError. *)
Definition float_trunc (f : float) : outcome Z :=
  match Prim2SF f with
  | S754_zero _ => Return 0
  | S754_infinity _ => Raise OverflowError
  | S754_nan => Raise ValueError
  | S754_finite s m e =>
      let a := Z.shiftl (Z.pos m) e in
      Return (if s then - a else a)
  end.

(** [float(z)] on an int rounds to the nearest binary64 (ties to even) and
    raises OverflowError when the int is too large. *)
Definition float_of_int (z : Z) : outcome float :=
  match binary_normalize prec emax z 0 false with
  | S754_infinity _ => Raise OverflowError
  | sf => Return (SF2Prim sf)
  end.

(** What the Python runtime provides. [int_of_str] and [float_of_str] are
    [int(s)] and [float(s)] on text ([None] is ValueError); [json_loads] is
    [json.loads(raw.decode('utf-8'))]. *)
Class PyRuntime := {
  str_strip : string → string;
  str_lower : string → string;
  int_of_str : string → option Z;
  float_of_str : string → option float;
  json_loads : string → outcome PyVal;
}.

Section Builtins.
Context `{PyRuntime}.

(** [int(v)] *)
Definition py_int (v : PyVal) : outcome Z :=
  match v with
  | PyNone => Raise TypeError
  | PyBool b => Return (if b then 1 else 0)
  | PyInt z => Return z
  | PyFloat f => float_trunc f
  | PyStr s => match int_of_str s with Some z => Return z | None => Raise ValueError end
  | PyList _ => Raise TypeError
  | PyDict _ => Raise TypeError
  end.

(** [float(v)] *)
Definition py_float (v : PyVal) : outcome float :=
  match v with
  | PyNone => Raise TypeError
  | PyBool b => Return (if b then 1%float else 0%float)
  | PyInt z => float_of_int z
  | PyFloat f => Return f
  | PyStr s => match float_of_str s with Some f => Return f | None => Raise ValueError end
  | PyList _ => Raise TypeError
  | PyDict _ => Raise TypeError
  end.

(** [v.strip()]: a method of [str] only. *)
Definition py_strip (v : PyVal) : outcome string :=
  match v with
  | PyStr s => Return (str_strip s)
  | _ => Raise AttributeError
  end.
End Builtins.

(** ['@' in s] and the like. *)
Fixpoint str_contains (c : Ascii.ascii) (s : string) : bool :=
  match s with
  | EmptyString => false
  | String a s' => Ascii.eqb a c || str_contains c s'
  end.

(** [s.rstrip('/')] and the like. *)
Fixpoint str_rstrip (c : Ascii.ascii) (s : string) : string :=
  match s with
  | EmptyString => EmptyString
  | String a s' =>
      let r := str_rstrip c s' in
      if String.eqb r "" && Ascii.eqb a c then EmptyString else String a r
  end.

(** [x or dflt] on a nullable text field. *)
Definition or_str (x : option string) (dflt : string) : string :=
  match x with
  | Some s => if String.eqb s "" then dflt else s
  | None => dflt
  end.

Definition py_opt_str (x : option string) : PyVal :=
  match x with Some s => PyStr s | None => PyBool false end.

Definition py_opt_int (x : option Z) : PyVal :=
  match x with Some z => PyInt z | None => PyNone end.

Abbreviation pydict := (gmap string PyVal).

(** A dict literal, keys in the order the source writes them. *)
Definition dict_of (l : list (string * PyVal)) : pydict := list_to_map l.

(** ** The record store behind the ORM *)

(** res.partner *)
Record Partner := {
  partner_id : Z;
  partner_name : string;
  partner_email : option string;
  partner_phone : option string;
  is_company : bool;
  customer_rank : Z;
  supplier_rank : Z;
}.

(** res.users *)
Record User := {
  user_id : Z;
  user_name : string;
  user_login : string;
  user_email : string;
  user_partner : Z;
  user_password : PyVal;
  user_groups : list Z;
  user_active : bool;
}.

(** product.product. [categ_id], [uom_id] and [product_currency] are the
    many2one fields with the name of the record they point to;
    [qty_available] is [None] when the stock module is not installed and the
    attribute access raises. *)
Record Product := {
  product_id : Z;
  product_name : string;
  description_sale : option string;
  description : option string;
  list_price : float;
  product_currency : option string;
  categ_id : option (Z * string);
  qty_available : option float;
  image_1920 : bool;
  uom_id : option string;
  default_code : option string;
  sale_ok : bool;
  active : bool;
}.

(** sale.order *)
Record Order := {
  order_id : Z;
  order_name : string;
  order_partner : Z;
  state : string;
  write_date : Z;
  amount_untaxed : float;
  amount_tax : float;
  amount_total : float;
  order_currency : string;
}.

(** sale.order.line *)
Record Line := {
  line_id : Z;
  line_order : Z;
  line_product : Z;
  product_uom_qty : float;
  price_unit : float;
  price_subtotal : float;
  price_total : float;
}.

(** One ORM or session call: the model and the method. *)
Definition OrmCall : Type := string * string.

Record Store := {
  partners : list Partner;
  users : list User;
  products : list Product;
  orders : list Order;
  lines : list Line;
  company_currency : string;
  public_user : Z;
  group_portal : Z;
  group_user : Z;
  orm_log : list OrmCall;
}.

Definition set_partners (f : list Partner → list Partner) (st : Store) : Store :=
  {| partners := f (partners st); users := users st; products := products st;
     orders := orders st; lines := lines st;
     company_currency := company_currency st; public_user := public_user st;
     group_portal := group_portal st; group_user := group_user st;
     orm_log := orm_log st |}.

Definition set_users (f : list User → list User) (st : Store) : Store :=
  {| partners := partners st; users := f (users st); products := products st;
     orders := orders st; lines := lines st;
     company_currency := company_currency st; public_user := public_user st;
     group_portal := group_portal st; group_user := group_user st;
     orm_log := orm_log st |}.

Definition set_orders (f : list Order → list Order) (st : Store) : Store :=
  {| partners := partners st; users := users st; products := products st;
     orders := f (orders st); lines := lines st;
     company_currency := company_currency st; public_user := public_user st;
     group_portal := group_portal st; group_user := group_user st;
     orm_log := orm_log st |}.

Definition set_lines (f : list Line → list Line) (st : Store) : Store :=
  {| partners := partners st; users := users st; products := products st;
     orders := orders st; lines := f (lines st);
     company_currency := company_currency st; public_user := public_user st;
     group_portal := group_portal st; group_user := group_user st;
     orm_log := orm_log st |}.

Definition set_orm_log (f : list OrmCall → list OrmCall) (st : Store) : Store :=
  {| partners := partners st; users := users st; products := products st;
     orders := orders st; lines := lines st;
     company_currency := company_currency st; public_user := public_user st;
     group_portal := group_portal st; group_user := group_user st;
     orm_log := f (orm_log st) |}.

(** The id the table's sequence gives the next record. *)
Definition next_id (ids : list Z) : Z := 1 + foldr Z.max 0 ids.

(** ** The handler monad: store passing with Python exceptions *)

Definition M (A : Type) : Type := Store → outcome A * Store.

#[global] Instance M_ret : MRet M := λ A a st, (Return a, st).

#[global] Instance M_bind : MBind M := λ A B k m st,
  match m st with
  | (Return a, st') => k a st'
  | (Raise e, st') => (Raise e, st')
  end.

Definition get_store : M Store := λ st, (Return st, st).

Definition modify_store (f : Store → Store) : M unit := λ st, (Return tt, f st).

Definition lift {A} (o : outcome A) : M A := λ st, (o, st).

(** [try: m except <classes>: h]; an exception outside the classes goes on. *)
Definition try_except {A} (m : M A) (caught : PyExc → bool) (h : PyExc → M A) : M A :=
  λ st,
    match m st with
    | (Return a, st') => (Return a, st')
    | (Raise e, st') => if caught e then h e st' else (Raise e, st')
    end.

(** [except Exception] *)
Definition any_exception (e : PyExc) : bool := true.

(** [except (ValueError, TypeError)] *)
Definition value_or_type_error (e : PyExc) : bool :=
  match e with ValueError | TypeError => true | _ => false end.

(** A handler body under its outermost [try], whose [except] clauses all
    return a response: [h] gives the response for the exception raised. The
    store keeps what was written before the exception. *)
Definition handle {A} (m : M A) (h : PyExc → A) (st : Store) : A * Store :=
  match m st with
  | (Return a, st') => (a, st')
  | (Raise e, st') => (h e, st')
  end.

(** The store once a call is added to its log. *)
Definition logged (model method : string) (st : Store) : Store :=
  set_orm_log (λ l, l ++ [(model, method)]) st.

Definition log_call (model method : string) : M unit :=
  modify_store (logged model method).

(** ** The request object *)

(** [request.httprequest]: the calls may raise. *)
Record HttpRequest := {
  is_json : bool;
  get_json : outcome PyVal;
  get_data : outcome string;
  host_url : string;
}.

(** [request.session]. [authenticate st db login password] is the outcome of
    the framework's authenticator: it raises, or returns a uid ([None] is a
    false result). *)
Record Session := {
  sid : string;
  authenticate : Store → string → string → PyVal → outcome (option Z);
}.

(** [request], with the keyword arguments of the route call. An attribute
    that the running framework version lacks is [None] ([hasattr] is false).
    [now] is the time stamp of the transaction and [token_hex] the value
    [secrets.token_hex(32)] draws in it. *)
Record Request := {
  get_json_data : option (outcome PyVal);
  jsonrequest : option PyVal;
  httprequest : HttpRequest;
  kw : pydict;
  uid : option Z;
  db : string;
  session : Session;
  now : Z;
  token_hex : string;
}.

(** What the ORM computes outside this repository: [ilike value term] is the
    case-insensitive pattern match of a search domain; [search_window limit
    offset l] applies [order='name asc'] and the LIMIT/OFFSET window to the
    matching records (the database may reject the window);
    [order_sequence_name] names a new order; [compute_line_amount qty price]
    gives a line's subtotal and total, [compute_order_amounts] an order's
    untaxed amount, tax and total. *)
Class Orm := {
  ilike : string → string → bool;
  search_window : Z → Z → list Product → outcome (list Product);
  order_sequence_name : Z → string;
  compute_line_amount : float → float → float * float;
  compute_order_amounts : list Line → float * float * float;
}.

Section Framework.
Context `{PyRuntime} `{Orm}.

Definition or_empty (o : outcome PyVal) : PyVal :=
  match o with
  | Return v => v
  | Raise _ => PyDict ∅
  end.

(** The helper each controller class repeats: the request body by the first
    way that applies, and the empty dict when anything raises. *)
Definition _get_json_data (req : Request) : PyVal :=
  match get_json_data req with
  | Some r => or_empty r
  | None =>
      match jsonrequest req with
      | Some v => v
      | None =>
          if is_json (httprequest req) then or_empty (get_json (httprequest req))
          else
            match get_data (httprequest req) with
            | Return raw =>
                if String.eqb raw "" then PyDict ∅ else or_empty (json_loads raw)
            | Raise _ => PyDict ∅
            end
      end
  end.

(** [data = self._get_json_data()] followed by [if not data: data = kw]. *)
Definition request_data (req : Request) : PyVal :=
  let data := _get_json_data req in
  if truthy data then data else PyDict (kw req).

Definition error_response (message : string) : pydict :=
  dict_of [("status", PyStr "error"); ("message", PyStr message)].

(** *** ORM calls *)

(** [env.ref(xmlid).id] for the two records of the base module the
    controllers look up. *)
Definition env_ref (xmlid : string) (id_of : Store → Z) : M Z :=
  log_call "ir.model.data" xmlid;;
  st ← get_store;
  mret (id_of st).

(** [env['res.partner'].sudo().search([('email','=',email),
    ('is_company','=',False)], limit=1)] *)
Definition res_partner_search (email : string) : M (list Partner) :=
  log_call "res.partner" "search";;
  st ← get_store;
  mret (take 1 (filter (λ p, partner_email p = Some email ∧ is_company p = false)
                  (partners st))).

(** [env['res.users'].sudo().search([('login','=',email)], limit=1)] *)
Definition res_users_search (email : string) : M (list User) :=
  log_call "res.users" "search";;
  st ← get_store;
  mret (take 1 (filter (λ u, user_login u = email) (users st))).

(** [env['res.partner'].sudo().create(vals)]: [vals] become a record under the
    next id. *)
Definition res_partner_create (vals : Z → Partner) : M Partner :=
  log_call "res.partner" "create";;
  st ← get_store;
  let p := vals (next_id (partner_id <$> partners st)) in
  modify_store (set_partners (λ l, l ++ [p]));;
  mret p.

Definition res_users_create (vals : Z → User) : M User :=
  log_call "res.users" "create";;
  st ← get_store;
  let u := vals (next_id (user_id <$> users st)) in
  modify_store (set_users (λ l, l ++ [u]));;
  mret u.

(** Reading a field of [env['res.users'].browse(uid)]; a record that is not
    in the table raises. *)
Definition res_users_read (uid : Z) : M User :=
  log_call "res.users" "read";;
  st ← get_store;
  match filter (λ u, user_id u = uid) (users st) with
  | u :: _ => mret u
  | [] => lift (Raise MissingError)
  end.

Definition res_partner_read (pid : Z) : M Partner :=
  log_call "res.partner" "read";;
  st ← get_store;
  match filter (λ p, partner_id p = pid) (partners st) with
  | p :: _ => mret p
  | [] => lift (Raise MissingError)
  end.

(** [env['product.product'].sudo().browse(product_id)] with [exists()]:
    [None] when no record has the id. *)
Definition product_browse (pid : Z) : M (option Product) :=
  log_call "product.product" "exists";;
  st ← get_store;
  mret (head (filter (λ p, product_id p = pid) (products st))).

(** The first record of [order='write_date desc']: the latest write date,
    and among equal dates the earlier record of the table. *)
Fixpoint most_recent (l : list Order) : option Order :=
  match l with
  | [] => None
  | o :: l' =>
      match most_recent l' with
      | None => Some o
      | Some b => Some (if write_date o <? write_date b then b else o)
      end
  end.

(** [env['sale.order'].sudo().search([('partner_id','=',partner_id),
    ('state','=','draft')], limit=1, order='write_date desc')] *)
Definition draft_orders (partner_id : Z) (st : Store) : list Order :=
  filter (λ o, order_partner o = partner_id ∧ state o = "draft") (orders st).

Definition sale_order_search (partner_id : Z) : M (option Order) :=
  log_call "sale.order" "search";;
  st ← get_store;
  mret (most_recent (draft_orders partner_id st)).

(** [env['sale.order'].sudo().create({'partner_id': .., 'state': ..})]: the
    other fields take the ORM's defaults. *)
Definition sale_order_create (now partner_id : Z) (st_value : string) : M Order :=
  log_call "sale.order" "create";;
  st ← get_store;
  let id := next_id (order_id <$> orders st) in
  let o := {| order_id := id; order_name := order_sequence_name id;
              order_partner := partner_id; state := st_value;
              write_date := now;
              amount_untaxed := 0%float; amount_tax := 0%float;
              amount_total := 0%float;
              order_currency := company_currency st |} in
  modify_store (set_orders (λ l, l ++ [o]));;
  mret o.

(** The current record of an order id. *)
Definition sale_order_read (id : Z) : M Order :=
  log_call "sale.order" "read";;
  st ← get_store;
  match filter (λ o, order_id o = id) (orders st) with
  | o :: _ => mret o
  | [] => lift (Raise MissingError)
  end.

(** [cart.order_line] *)
Definition lines_of (cart_id : Z) (st : Store) : list Line :=
  filter (λ l, line_order l = cart_id) (lines st).

Definition order_line (cart_id : Z) : M (list Line) :=
  log_call "sale.order.line" "read";;
  st ← get_store;
  mret (lines_of cart_id st).

(** Modelled from the spec: the unit price the framework's sale.order.line
    model gives a line created without [price_unit]. That computation is code
    of the sale module, not of this repository; the spec says the line gets
    the product's current price looked up at insertion time. *)
Definition line_price_unit (product_id_value : Z) (st : Store) : option float :=
  list_price <$> head (filter (λ p, product_id p = product_id_value) (products st)).

(** [env['sale.order.line'].sudo().create({'order_id': .., 'product_id': ..,
    'product_uom_qty': ..})] *)
Definition sale_order_line_create (order product : Z) (qty : float) : M Line :=
  log_call "sale.order.line" "create";;
  st ← get_store;
  match line_price_unit product st with
  | None => lift (Raise MissingError)
  | Some price =>
      let l := {| line_id := next_id (line_id <$> lines st);
                  line_order := order; line_product := product;
                  product_uom_qty := qty; price_unit := price;
                  price_subtotal := fst (compute_line_amount qty price);
                  price_total := snd (compute_line_amount qty price) |} in
      modify_store (set_lines (λ ls, ls ++ [l]));;
      mret l
  end.

Definition with_qty (qty : float) (l : Line) : Line :=
  {| line_id := line_id l; line_order := line_order l;
     line_product := line_product l;
     product_uom_qty := qty; price_unit := price_unit l;
     price_subtotal := fst (compute_line_amount qty (price_unit l));
     price_total := snd (compute_line_amount qty (price_unit l)) |}.

(** A write of the quantity reaches the record with id [id]. *)
Definition write_qty (id : Z) (qty : float) (l : Line) : Line :=
  if decide (line_id l = id) then with_qty qty l else l.

(** [line.product_uom_qty = qty] on the record with id [id]. *)
Definition sale_order_line_write_qty (id : Z) (qty : float) : M unit :=
  log_call "sale.order.line" "write";;
  modify_store (set_lines (fmap (write_qty id qty))).

Definition with_amounts (now : Z) (a : float * float * float) (o : Order) : Order :=
  {| order_id := order_id o; order_name := order_name o;
     order_partner := order_partner o; state := state o;
     write_date := now;
     amount_untaxed := fst (fst a); amount_tax := snd (fst a);
     amount_total := snd a;
     order_currency := order_currency o |}.

(** A write of the totals reaches the record with id [id]. *)
Definition write_amounts (now id : Z) (a : float * float * float) (o : Order) : Order :=
  if decide (order_id o = id) then with_amounts now a o else o.

(** [cart._amount_all()]: the order's totals are recomputed from its lines
    and written to the order, which stamps its write date. *)
Definition _amount_all (now cart_id : Z) : M unit :=
  log_call "sale.order" "_amount_all";;
  st ← get_store;
  let a := compute_order_amounts (lines_of cart_id st) in
  modify_store (set_orders (fmap (write_amounts now cart_id a))).

(** [request.session.authenticate(request.db, email, password)] *)
Definition session_authenticate (req : Request) (email : string) (password : PyVal)
  : M (option Z) :=
  st ← get_store;
  log_call "session" "authenticate";;
  lift (authenticate (session req) st (db req) email password).

(** [user.has_group(xmlid)] for a group of the store. *)
Definition has_group (u : User) (group : Z) : bool :=
  bool_decide (group ∈ user_groups u).

End Framework.

(** ** class CustomerAPIController *)

Module CustomerAPIController.
Section Handlers.
Context `{PyRuntime} `{Orm}.

(** The loop over [required_fields]: the first field whose value is false
    ends it. *)
Fixpoint first_missing (data : PyVal) (fields : list string) : outcome (option string) :=
  match fields with
  | [] => Return None
  | field :: rest =>
      v ← py_get data field;
      if truthy v then first_missing data rest else Return (Some field)
  end.

Definition required_fields : list string := ["name"; "email"; "password"].

Definition create_customer_body (req : Request) : M pydict :=
  let data := request_data req in
  missing ← lift (first_missing data required_fields);
  match missing with
  | Some field => mret (error_response ("Missing required field: " +:+ field))
  | None =>
      stripped ← lift (py_item data "email" ≫= py_strip);
      let email := str_lower stripped in
      if String.eqb email "" || negb (str_contains "@"%char email)
      then mret (error_response "Invalid email format")
      else
        existing_partner ← res_partner_search email;
        match existing_partner with
        | _ :: _ => mret (error_response "Email already exists")
        | [] =>
            existing_user ← res_users_search email;
            match existing_user with
            | _ :: _ => mret (error_response "User with this email already exists")
            | [] =>
                name ← lift (py_item data "name" ≫= py_strip);
                phone ← lift (py_get_default data "phone" (PyStr "") ≫= py_strip);
                partner ← res_partner_create (λ id,
                  {| partner_id := id; partner_name := name;
                     partner_email := Some email; partner_phone := Some phone;
                     is_company := false; customer_rank := 1;
                     supplier_rank := 0 |});
                name' ← lift (py_item data "name" ≫= py_strip);
                password ← lift (py_item data "password");
                portal ← env_ref "base.group_portal" group_portal;
                user ← res_users_create (λ id,
                  {| user_id := id; user_name := name'; user_login := email;
                     user_email := email; user_partner := partner_id partner;
                     user_password := password; user_groups := [portal];
                     user_active := true |});
                mret (dict_of [("status", PyStr "success");
                               ("message", PyStr "Customer created successfully");
                               ("customer_id", PyInt (partner_id partner));
                               ("user_id", PyInt (user_id user));
                               ("email", PyStr email)])
            end
        end
  end.

(** [except ValidationError as e] answers with [str(e)], [except Exception]
    with a fixed message. *)
Definition create_customer_except (e : PyExc) : pydict :=
  match e with
  | ValidationError msg => error_response msg
  | _ => error_response "Internal server error"
  end.

Definition create_customer (req : Request) (st : Store) : pydict * Store :=
  handle (create_customer_body req) create_customer_except st.

Definition customer_login_body (req : Request) : M pydict :=
  let data := request_data req in
  e ← lift (py_get data "email");
  p ← (if truthy e then lift (py_get data "password") else mret PyNone);
  if negb (truthy e) || negb (truthy p)
  then mret (error_response "Email and password are required")
  else
    stripped ← lift (py_item data "email" ≫= py_strip);
    let email := str_lower stripped in
    password ← lift (py_item data "password");
    auth ← try_except (uid_value ← session_authenticate req email password;
                       mret (Some uid_value))
                      any_exception (λ _, mret None);
    match auth with
    | None => mret (error_response "Invalid email or password")
    | Some uid_value =>
        match uid_value with
        | None => mret (error_response "Invalid email or password")
        | Some u =>
            if u =? 0 then mret (error_response "Invalid email or password")
            else
              user ← res_users_read u;
              st ← get_store;
              if negb (has_group user (group_portal st))
                 && negb (has_group user (group_user st))
              then mret (error_response "Access denied")
              else
                let session_token := token_hex req in
                partner ← res_partner_read (user_partner user);
                mret (dict_of [("status", PyStr "success");
                               ("message", PyStr "Login successful");
                               ("user_id", PyInt u);
                               ("customer_id", PyInt (partner_id partner));
                               ("customer_name", PyStr (partner_name partner));
                               ("customer_email", py_opt_str (partner_email partner));
                               ("session_token", PyStr session_token);
                               ("session_id", PyStr (sid (session req)))])
        end
    end.

Definition customer_login (req : Request) (st : Store) : pydict * Store :=
  handle (customer_login_body req) (λ _, error_response "Login failed") st.

End Handlers.
End CustomerAPIController.

(** ** class ProductAPIController *)

Module ProductAPIController.

(** The terms of the search domain the handler builds; [OrNext] is the
    prefix operator ['|'] over the next two terms. *)
Inductive DomainItem :=
| SaleOkIs (b : bool)
| ActiveIs (b : bool)
| CategIdIs (c : Z)
| OrNext
| NameIlike (term : string)
| DefaultCodeIlike (term : string).

Section Handlers.
Context `{PyRuntime} `{Orm}.

Definition leaf_holds (p : Product) (item : DomainItem) : bool :=
  match item with
  | SaleOkIs b => bool_decide (sale_ok p = b)
  | ActiveIs b => bool_decide (active p = b)
  | CategIdIs c => bool_decide (fst <$> categ_id p = Some c)
  | NameIlike term => ilike (product_name p) term
  | DefaultCodeIlike term =>
      match default_code p with
      | Some code => ilike code term
      | None => false
      end
  | OrNext => true
  end.

(** A domain is read from its end with a stack: a term pushes its truth
    value, ['|'] replaces the two values on top by their disjunction; what
    is left on the stack is a conjunction. *)
Definition domain_step (p : Product) (item : DomainItem) (stack : list bool) : list bool :=
  match item with
  | OrNext =>
      match stack with
      | a :: b :: rest => (a || b) :: rest
      | _ => stack
      end
  | _ => leaf_holds p item :: stack
  end.

Definition domain_holds (domain : list DomainItem) (p : Product) : bool :=
  forallb id (foldr (domain_step p) [] domain).

Definition matching (domain : list DomainItem) (st : Store) : list Product :=
  List.filter (domain_holds domain) (products st).

(** [env['product.product'].sudo().search(domain, limit=limit,
    offset=offset, order='name asc')] *)
Definition product_search (domain : list DomainItem) (limit offset : Z) : M (list Product) :=
  log_call "product.product" "search";;
  st ← get_store;
  lift (search_window limit offset (matching domain st)).

(** [env['product.product'].sudo().search_count(domain)] *)
Definition product_search_count (domain : list DomainItem) : M Z :=
  log_call "product.product" "search_count";;
  st ← get_store;
  mret (Z.of_nat (length (matching domain st))).

Definition product_data (base_url company : string) (product : Product) : PyVal :=
  let image_url :=
    if image_1920 product
    then PyStr (base_url +:+ "/web/image/product.product/"
                +:+ pretty (product_id product) +:+ "/image_1920")
    else PyNone in
  let stock_qty :=
    match qty_available product with
    | Some q => PyFloat q
    | None => PyInt 0
    end in
  PyDict (dict_of
    [("id", PyInt (product_id product));
     ("name", PyStr (product_name product));
     ("description",
       PyStr (or_str (description_sale product) (or_str (description product) "")));
     ("price", PyFloat (list_price product));
     ("currency", PyStr (default company (product_currency product)));
     ("category", PyStr (default "" (snd <$> categ_id product)));
     ("category_id", py_opt_int (fst <$> categ_id product));
     ("available_qty", stock_qty);
     ("image_url", image_url);
     ("uom", PyStr (default "" (uom_id product)));
     ("sku", PyStr (or_str (default_code product) ""));
     ("is_available", PyBool (sale_ok product && active product))]).

Definition list_products_body (req : Request) : M pydict :=
  let data := request_data req in
  let domain := [SaleOkIs true; ActiveIs true] in
  c ← lift (py_get data "category_id");
  with_categ ←
    (if truthy c
     then try_except
            (category_id ← lift (py_item data "category_id" ≫= py_int);
             mret (inr (domain ++ [CategIdIs category_id])))
            value_or_type_error
            (λ _, mret (inl (error_response "Invalid category_id format")))
     else mret (inr domain));
  match with_categ with
  | inl response => mret response
  | inr domain =>
      s ← lift (py_get data "search");
      domain ←
        (if truthy s
         then search_term ← lift (py_item data "search" ≫= py_strip);
              mret (if String.eqb search_term "" then domain
                    else domain ++ [OrNext; NameIlike search_term;
                                    DefaultCodeIlike search_term])
         else mret domain);
      window ←
        try_except
          (limit ← lift (py_get_default data "limit" (PyInt 20) ≫= py_int);
           offset ← lift (py_get_default data "offset" (PyInt 0) ≫= py_int);
           mret (Some (Z.min limit 100, Z.max offset 0)))
          value_or_type_error
          (λ _, mret None);
      match window with
      | None => mret (error_response "Invalid limit or offset format")
      | Some (limit, offset) =>
          products ← product_search domain limit offset;
          let base_url := str_rstrip "/" (host_url (httprequest req)) in
          st ← get_store;
          let product_list := product_data base_url (company_currency st) <$> products in
          total_count ← product_search_count domain;
          mret (dict_of [("status", PyStr "success");
                         ("products", PyList product_list);
                         ("total_count", PyInt total_count);
                         ("limit", PyInt limit);
                         ("offset", PyInt offset);
                         ("has_more", PyBool (offset + limit <? total_count))])
      end
  end.

Definition list_products (req : Request) (st : Store) : pydict * Store :=
  handle (list_products_body req) (λ _, error_response "Failed to retrieve products") st.

End Handlers.
End ProductAPIController.

(** ** class CartAPIController *)

Module CartAPIController.
Section Handlers.
Context `{PyRuntime} `{Orm}.

(** [not request.uid or request.uid == env.ref('base.public_user').id] *)
Definition _authenticate_session (req : Request) : M bool :=
  match uid req with
  | None => mret false
  | Some u =>
      if u =? 0 then mret false
      else
        public ← env_ref "base.public_user" public_user;
        mret (negb (u =? public))
  end.

Definition _get_or_create_cart (req : Request) (partner_id : Z) : M Order :=
  cart ← sale_order_search partner_id;
  match cart with
  | Some c => mret c
  | None => sale_order_create (now req) partner_id "draft"
  end.

(** [request.env.user] *)
Definition env_user (req : Request) : M User :=
  match uid req with
  | Some u => res_users_read u
  | None => lift (Raise MissingError)
  end.

Definition add_to_cart_body (req : Request) : M pydict :=
  let data := request_data req in
  authenticated ← _authenticate_session req;
  if negb authenticated then mret (error_response "Authentication required")
  else
    pid ← lift (py_get data "product_id");
    if negb (truthy pid) then mret (error_response "Product ID is required")
    else
      parsed ←
        try_except
          (product_id ← lift (py_item data "product_id" ≫= py_int);
           quantity ← lift (py_get_default data "quantity" (PyInt 1) ≫= py_float);
           mret (Some (product_id, quantity)))
          value_or_type_error
          (λ _, mret None);
      match parsed with
      | None => mret (error_response "Invalid product_id or quantity format")
      | Some (product_id, quantity) =>
          if PrimFloat.leb quantity 0%float
          then mret (error_response "Quantity must be greater than 0")
          else
            user ← env_user req;
            let partner := user_partner user in
            product ← product_browse product_id;
            match product with
            | None => mret (error_response "Product not found or not available for sale")
            | Some product =>
                if negb (sale_ok product) || negb (active product)
                then mret (error_response "Product not found or not available for sale")
                else
                  cart ← _get_or_create_cart req partner;
                  cart_lines ← order_line (order_id cart);
                  let existing_line :=
                    filter (λ l, line_product l = product_id) cart_lines in
                  match existing_line with
                  | l0 :: _ =>
                      sale_order_line_write_qty (line_id l0)
                        (PrimFloat.add (product_uom_qty l0) quantity)
                  | [] =>
                      sale_order_line_create (order_id cart) product_id quantity;;
                      mret tt
                  end;;
                  _amount_all (now req) (order_id cart);;
                  cart' ← sale_order_read (order_id cart);
                  cart_lines' ← order_line (order_id cart);
                  mret (dict_of [("status", PyStr "success");
                                 ("message", PyStr "Product added to cart successfully");
                                 ("cart_id", PyInt (order_id cart));
                                 ("cart_total", PyFloat (amount_total cart'));
                                 ("cart_items_count", PyInt (Z.of_nat (length cart_lines')));
                                 ("product_name", PyStr (product_name product))])
            end
      end.

Definition add_to_cart (req : Request) (st : Store) : pydict * Store :=
  handle (add_to_cart_body req) (λ _, error_response "Failed to add product to cart") st.

(** A record of [line.product_id]. *)
Definition product_read (pid : Z) : M Product :=
  log_call "product.product" "read";;
  st ← get_store;
  match filter (λ p, product_id p = pid) (products st) with
  | p :: _ => mret p
  | [] => lift (Raise MissingError)
  end.

Definition line_data (base_url : string) (line : Line) : M PyVal :=
  product ← product_read (line_product line);
  mret (PyDict (dict_of
    [("id", PyInt (line_id line));
     ("product_id", PyInt (product_id product));
     ("product_name", PyStr (product_name product));
     ("product_sku", PyStr (or_str (default_code product) ""));
     ("quantity", PyFloat (product_uom_qty line));
     ("price_unit", PyFloat (price_unit line));
     ("price_subtotal", PyFloat (price_subtotal line));
     ("price_total", PyFloat (price_total line));
     ("image_url",
       if image_1920 product
       then PyStr (base_url +:+ "/web/image/product.product/"
                   +:+ pretty (product_id product) +:+ "/image_1920")
       else PyNone)])).

(** [for line in cart.order_line: ... cart_lines.append(line_data)] *)
Fixpoint cart_lines_data (base_url : string) (ls : list Line) : M (list PyVal) :=
  match ls with
  | [] => mret []
  | line :: rest =>
      d ← line_data base_url line;
      ds ← cart_lines_data base_url rest;
      mret (d :: ds)
  end.

Definition view_cart_body (req : Request) : M pydict :=
  authenticated ← _authenticate_session req;
  if negb authenticated then mret (error_response "Authentication required")
  else
    user ← env_user req;
    let partner := user_partner user in
    cart ← sale_order_search partner;
    match cart with
    | None =>
        mret (dict_of [("status", PyStr "success");
                       ("cart", PyNone);
                       ("message", PyStr "Cart is empty")])
    | Some cart =>
        let base_url := str_rstrip "/" (host_url (httprequest req)) in
        ls ← order_line (order_id cart);
        cart_lines ← cart_lines_data base_url ls;
        partner_record ← res_partner_read partner;
        let cart_data := dict_of
          [("id", PyInt (order_id cart));
           ("name", PyStr (order_name cart));
           ("lines", PyList cart_lines);
           ("subtotal", PyFloat (amount_untaxed cart));
           ("tax_amount", PyFloat (amount_tax cart));
           ("total", PyFloat (amount_total cart));
           ("currency", PyStr (order_currency cart));
           ("items_count", PyInt (Z.of_nat (length ls)));
           ("partner_name", PyStr (partner_name partner_record))] in
        mret (dict_of [("status", PyStr "success"); ("cart", PyDict cart_data)])
    end.

Definition view_cart (req : Request) (st : Store) : pydict * Store :=
  handle (view_cart_body req) (λ _, error_response "Failed to retrieve cart") st.

End Handlers.
End CartAPIController.

(** ** A concrete runtime and ORM for the examples

    ASCII text, decimal integer literals, byte-wise collation, and a pricing
    engine without taxes. The theorems below hold for every instance of
    [PyRuntime] and [Orm]; the examples evaluate the handlers under this
    one. *)

Module Example.

Definition is_space (a : ascii) : bool :=
  let n := N_of_ascii a in
  ((n =? 32) || ((9 <=? n) && (n <=? 13)))%N.

Fixpoint lstrip (s : string) : string :=
  match s with
  | EmptyString => EmptyString
  | String a s' => if is_space a then lstrip s' else s
  end.

Fixpoint rstrip (s : string) : string :=
  match s with
  | EmptyString => EmptyString
  | String a s' =>
      let r := rstrip s' in
      if String.eqb r "" && is_space a then EmptyString else String a r
  end.

Definition strip (s : string) : string := rstrip (lstrip s).

Definition lower_char (a : ascii) : ascii :=
  let n := N_of_ascii a in
  if ((65 <=? n) && (n <=? 90))%N then ascii_of_N (n + 32) else a.

Fixpoint lower (s : string) : string :=
  match s with
  | EmptyString => EmptyString
  | String a s' => String (lower_char a) (lower s')
  end.

Definition digit_of (a : ascii) : option Z :=
  let n := N_of_ascii a in
  if ((48 <=? n) && (n <=? 57))%N then Some (Z.of_N (n - 48)) else None.

Fixpoint digits (acc : Z) (s : string) : option Z :=
  match s with
  | EmptyString => Some acc
  | String a s' =>
      match digit_of a with
      | Some d => digits (10 * acc + d) s'
      | None => None
      end
  end.

Definition parse_int (s : string) : option Z :=
  match strip s with
  | EmptyString => None
  | String "-" (String a r) => Z.opp <$> digits 0 (String a r)
  | String "+" (String a r) => digits 0 (String a r)
  | t => digits 0 t
  end.

Definition parse_float (s : string) : option float :=
  match parse_int s with
  | Some z =>
      match float_of_int z with
      | Return f => Some f
      | Raise _ => None
      end
  | None => None
  end.

#[export] Instance runtime : PyRuntime := {|
  str_strip := strip;
  str_lower := lower;
  int_of_str := parse_int;
  float_of_str := parse_float;
  json_loads := λ _, Raise ValueError;
|}.

Fixpoint is_prefix (t s : string) : bool :=
  match t, s with
  | EmptyString, _ => true
  | String a t', String b s' => Ascii.eqb a b && is_prefix t' s'
  | String _ _, EmptyString => false
  end.

Fixpoint contains (s t : string) : bool :=
  is_prefix t s ||
  match s with
  | EmptyString => false
  | String _ s' => contains s' t
  end.

Fixpoint insert_by_name (p : Product) (l : list Product) : list Product :=
  match l with
  | [] => [p]
  | q :: l' =>
      if String.leb (product_name p) (product_name q) then p :: l
      else q :: insert_by_name p l'
  end.

Definition window (limit offset : Z) (l : list Product) : outcome (list Product) :=
  if limit <? 0 then Raise OtherException
  else
    let sorted := foldr insert_by_name [] l in
    let rest := drop (Z.to_nat offset) sorted in
    Return (if limit =? 0 then rest else take (Z.to_nat limit) rest).

Definition line_amount (qty price : float) : float * float :=
  (PrimFloat.mul qty price, PrimFloat.mul qty price).

Definition order_amounts (ls : list Line) : float * float * float :=
  let total := foldr (λ l acc, PrimFloat.add (price_subtotal l) acc) 0%float ls in
  (total, 0%float, total).

#[export] Instance orm : Orm := {|
  ilike := λ value term, contains (lower value) (lower term);
  search_window := window;
  order_sequence_name := λ id, "S" +:+ pretty id;
  compute_line_amount := line_amount;
  compute_order_amounts := order_amounts;
|}.

Definition no_session : Session :=
  {| sid := "sid-0"; authenticate := λ _ _ _ _, Raise AccessDenied |}.

(** A request of the running framework version: the body comes from
    [request.get_json_data()]. *)
Definition request (body : list (string * PyVal)) (user : option Z) (time : Z) : Request :=
  {| get_json_data := Some (Return (PyDict (dict_of body)));
     jsonrequest := None;
     httprequest := {| is_json := true; get_json := Return (PyDict (dict_of body));
                       get_data := Return ""; host_url := "http://localhost:8097/" |};
     kw := ∅; uid := user; db := "odoo"; session := no_session;
     now := time; token_hex := "00" |}.

Definition widget (id : Z) (name : string) (price : float) : Product :=
  {| product_id := id; product_name := name; description_sale := None;
     description := None; list_price := price; product_currency := Some "USD";
     categ_id := Some (1, "All"); qty_available := None; image_1920 := false;
     uom_id := Some "Units"; default_code := None; sale_ok := true;
     active := true |}.

Definition alice : Partner :=
  {| partner_id := 7; partner_name := "Alice"; partner_email := Some "alice@example.com";
     partner_phone := Some ""; is_company := false; customer_rank := 1;
     supplier_rank := 0 |}.

Definition alice_user : User :=
  {| user_id := 5; user_name := "Alice"; user_login := "alice@example.com";
     user_email := "alice@example.com"; user_partner := 7;
     user_password := PyStr "secret"; user_groups := [10]; user_active := true |}.

(** A shop with three products, one portal customer and no order. *)
Definition shop : Store :=
  {| partners := [alice]; users := [alice_user];
     products := [widget 1 "Anvil" 10%float; widget 2 "Bolt" 0.5%float;
                  widget 3 "Crate" 4%float];
     orders := []; lines := [];
     company_currency := "USD"; public_user := 4; group_portal := 10;
     group_user := 1; orm_log := [] |}.

End Example.

(** ** The vocabulary of the statements *)

(** A session that is not logged in: no uid, or the uid of the public user. *)
Definition anonymous (req : Request) (st : Store) : Prop :=
  uid req = None ∨ uid req = Some 0 ∨ uid req = Some (public_user st).

(** A session of the user with id [u]. *)
Definition logged_in (req : Request) (st : Store) (u : Z) : Prop :=
  uid req = Some u ∧ u ≠ 0 ∧ u ≠ public_user st.

(** The tables of the store. *)
Definition records (st : Store)
  : list Partner * list User * list Product * list Order * list Line :=
  (partners st, users st, products st, orders st, lines st).

(** From [st] to [st'] no record was read or written: the tables are the
    same and the only calls logged are lookups of external ids. *)
Definition touches_no_record (st st' : Store) : Prop :=
  records st' = records st ∧
  ∃ log, orm_log st' = orm_log st ++ log ∧ ∀ c, c ∈ log → c.1 = "ir.model.data".

(** The record [request.env.user] of a logged-in session. *)
Definition user_of (st : Store) (u : Z) : option User :=
  head (filter (λ x, user_id x = u) (users st)).

(** The record [browse(p)] finds. *)
Definition product_of (st : Store) (p : Z) : option Product :=
  head (filter (λ x, product_id x = p) (products st)).

(** A computation that writes no record: it leaves the tables as they are
    (it may log calls). *)
Definition read_only {A} (m : M A) : Prop :=
  ∀ st, records (m st).2 = records st.

(** The record [create] adds to sale.order at time [time]. *)
Definition new_order `{Orm} (time partner : Z) (s : string) (st : Store) : Order :=
  {| order_id := next_id (order_id <$> orders st);
     order_name := order_sequence_name (next_id (order_id <$> orders st));
     order_partner := partner; state := s; write_date := time;
     amount_untaxed := 0%float; amount_tax := 0%float; amount_total := 0%float;
     order_currency := company_currency st |}.

(** The cart a request of the customer works on: the id of their most recent
    draft order, or the id the order created for them will get. *)
Definition cart_id_for (partner : Z) (st : Store) : Z :=
  match most_recent (draft_orders partner st) with
  | Some c => order_id c
  | None => next_id (order_id <$> orders st)
  end.

(** The line [create] adds to sale.order.line. *)
Definition new_line `{Orm} (cart product : Z) (qty price : float) (st : Store) : Line :=
  {| line_id := next_id (line_id <$> lines st);
     line_order := cart; line_product := product;
     product_uom_qty := qty; price_unit := price;
     price_subtotal := (compute_line_amount qty price).1;
     price_total := (compute_line_amount qty price).2 |}.

(** The payload of [req] asks for quantity [q] of product [p]: it is a dict
    whose [product_id] is true and converts to [p], and whose [quantity], or 1
    when the key is absent, converts to [q], above zero. *)
Definition asks_for `{PyRuntime} (req : Request) (p : Z) (q : float) : Prop :=
  ∃ (d : pydict) (v : PyVal),
    request_data req = PyDict d ∧
    d !! "product_id" = Some v ∧ truthy v = true ∧ py_int v = Return p ∧
    py_float (default (PyInt 1) (d !! "quantity")) = Return q ∧
    PrimFloat.leb q 0%float = false.

(** [product] is the record of id [p], and it can be sold. *)
Definition sellable (st : Store) (p : Z) (product : Product) : Prop :=
  product_of st p = Some product ∧ sale_ok product = true ∧ active product = true.

(** The invariant of the cart lines: a cart has at most one line of a
    product. *)
Definition one_line_per_product (st : Store) : Prop :=
  ∀ c p : Z,
    (length (filter (λ l, line_order l = c ∧ line_product l = p) (lines st)) ≤ 1)%nat.

(** A computation that keeps the invariant. *)
Definition keeps_invariant {A} (m : M A) : Prop :=
  ∀ st, one_line_per_product st → one_line_per_product (m st).2.

Section Runs.
Context `{PyRuntime} `{Orm}.

(** The store after a sequence of add-to-cart requests. *)
Definition add_all (reqs : list Request) (st : Store) : Store :=
  foldl (λ s req, (CartAPIController.add_to_cart req s).2) st reqs.

End Runs.

(** The field is in the payload with a true value. *)
Definition present (d : pydict) (field : string) : Prop :=
  truthy (default PyNone (d !! field)) = true.

(** A payload the signup accepts: the name and the email are non-empty text
    and the email, once trimmed and lower-cased, has an "@"; the password is
    a true value; the phone, when given, is text. *)
Definition valid_registration `{PyRuntime} (d : pydict) (name email : string)
    (password : PyVal) : Prop :=
  d !! "name" = Some (PyStr name) ∧ name ≠ "" ∧
  d !! "email" = Some (PyStr email) ∧ email ≠ "" ∧
  str_contains "@" (str_lower (str_strip email)) = true ∧
  d !! "password" = Some password ∧ truthy password = true ∧
  (d !! "phone" = None ∨ ∃ phone, d !! "phone" = Some (PyStr phone)).

(** The customers (partners that are not companies) with the email, and the
    users with the login. *)
Definition customers_with (st : Store) (email : string) : list Partner :=
  filter (λ p, partner_email p = Some email ∧ is_company p = false) (partners st).

Definition users_with (st : Store) (login : string) : list User :=
  filter (λ u, user_login u = login) (users st).

(** ** Example requests on the shop *)

Module Scenario.
Import Example.

(** Alice (user 5) adds one and a half Bolt, then one more. *)
Definition add_bolt : Request :=
  request [("product_id", PyInt 2); ("quantity", PyFloat 1.5)] (Some 5) 100.

Definition add_bolt_again : Request :=
  request [("product_id", PyInt 2); ("quantity", PyInt 1)] (Some 5) 101.

Definition add_bolt_default : Request :=
  request [("product_id", PyInt 2)] (Some 5) 101.

Definition bolt : Product := widget 2 "Bolt" 0.5%float.

(** The public user (4) asks for the cart. *)
Definition public_view : Request := request [] (Some 4) 100.

Definition alice_view : Request := request [] (Some 5) 100.

Definition first_page : Request := request [("limit", PyInt 2)] None 100.

Definition signup_body : list (string * PyVal) :=
  [("name", PyStr "Bob"); ("email", PyStr " Bob@Example.com ");
   ("password", PyStr "x")].

Definition signup : Request := request signup_body None 100.

Definition signup_without_email : Request :=
  request [("name", PyStr "Bob"); ("email", PyStr ""); ("password", PyStr "x")] None 100.

(** The email is empty and the name is absent. *)
Definition signup_without_name : Request :=
  request [("email", PyStr ""); ("password", PyStr "x")] None 100.

Definition login_body : list (string * PyVal) :=
  [("email", PyStr "alice@example.com"); ("password", PyStr "wrong")].

(** The same login request under an authenticator that raises and under one
    that returns a false result. *)
Definition login_raising : Request := request login_body None 100.

Definition login_refusing : Request :=
  {| get_json_data := get_json_data login_raising;
     jsonrequest := jsonrequest login_raising;
     httprequest := httprequest login_raising;
     kw := kw login_raising; uid := uid login_raising; db := db login_raising;
     session := {| sid := "sid-0"; authenticate := λ _ _ _ _, Return None |};
     now := now login_raising; token_hex := token_hex login_raising |}.

End Scenario.

(** ** More vocabulary *)

(** The record of a partner id. *)
Definition partner_of (st : Store) (pid : Z) : option Partner :=
  head (filter (λ x, partner_id x = pid) (partners st)).

(** The dict a cart view shows for line [l]: it carries the line's id,
    product, quantity and prices. *)
Definition shows_line (l : Line) (v : PyVal) : Prop :=
  ∃ dl : pydict,
    v = PyDict dl ∧
    dl !! "id" = Some (PyInt (line_id l)) ∧
    dl !! "product_id" = Some (PyInt (line_product l)) ∧
    dl !! "quantity" = Some (PyFloat (product_uom_qty l)) ∧
    dl !! "price_unit" = Some (PyFloat (price_unit l)) ∧
    dl !! "price_subtotal" = Some (PyFloat (price_subtotal l)) ∧
    dl !! "price_total" = Some (PyFloat (price_total l)).


(** The payload [d] asks for category [categ]: a true [category_id] that
    converts to it, or none when the entry is absent or false. *)
Definition category_filter `{PyRuntime} (d : pydict) (categ : option Z) : Prop :=
  match categ with
  | Some c => ∃ v, d !! "category_id" = Some v ∧ truthy v = true ∧ py_int v = Return c
  | None => ¬ present d "category_id"
  end.

(** The payload [d] asks for the search term [term]: the [search] text once
    trimmed, or none when the entry is absent, false or blank. *)
Definition search_filter `{PyRuntime} (d : pydict) (term : option string) : Prop :=
  match term with
  | Some t => ∃ s, d !! "search" = Some (PyStr s) ∧ s ≠ "" ∧ str_strip s = t ∧ t ≠ ""
  | None => ¬ present d "search" ∨ ∃ s, d !! "search" = Some (PyStr s) ∧ str_strip s = ""
  end.

(** What a listing with these filters is about: the products on sale and
    active, of the category when one is asked for, whose name or internal
    reference matches the term when one is given. *)
Definition listed `{Orm} (categ : option Z) (term : option string) (p : Product) : bool :=
  sale_ok p && active p
  && match categ with
     | Some c => bool_decide (fst <$> categ_id p = Some c)
     | None => true
     end
  && match term with
     | Some t =>
         ilike (product_name p) t
         || match default_code p with Some code => ilike code t | None => false end
     | None => true
     end.

(** The search domain of these filters. *)
Definition domain_of (categ : option Z) (term : option string)
  : list ProductAPIController.DomainItem :=
  [ProductAPIController.SaleOkIs true; ProductAPIController.ActiveIs true]
  ++ match categ with Some c => [ProductAPIController.CategIdIs c] | None => [] end
  ++ match term with
     | Some t => [ProductAPIController.OrNext; ProductAPIController.NameIlike t;
                  ProductAPIController.DefaultCodeIlike t]
     | None => []
     end.

(** The records signup creates in [st]. *)
Definition new_partner (st : Store) (name email phone : string) : Partner :=
  {| partner_id := next_id (partner_id <$> partners st);
     partner_name := name; partner_email := Some email;
     partner_phone := Some phone; is_company := false;
     customer_rank := 1; supplier_rank := 0 |}.

Definition new_user (st : Store) (name email : string) (password : PyVal) : User :=
  {| user_id := next_id (user_id <$> users st);
     user_name := name; user_login := email; user_email := email;
     user_partner := next_id (partner_id <$> partners st);
     user_password := password; user_groups := [group_portal st];
     user_active := true |}.

(** The payload's phone: the text given, or the empty text when there is
    none. *)
Definition phone_of (d : pydict) (phone : string) : Prop :=
  d !! "phone" = Some (PyStr phone) ∨ (d !! "phone" = None ∧ phone = "").

(** Reading the body of [req] raises, at the accessor the helper uses. *)
Definition body_unreadable `{PyRuntime} (req : Request) : Prop :=
  match get_json_data req with
  | Some r => ∃ e, r = Raise e
  | None =>
      jsonrequest req = None ∧
      if is_json (httprequest req)
      then ∃ e, get_json (httprequest req) = Raise e
      else (∃ e, get_data (httprequest req) = Raise e)
           ∨ ∃ raw e, get_data (httprequest req) = Return raw ∧ raw ≠ ""
                      ∧ json_loads raw = Raise e
  end.

(** The listing [req] asks of [st]: its payload has readable filters and a
    readable window, [L] is the limit asked for (20 by default) capped at
    100, [O] the offset asked for (0 by default) raised to 0, [N] the number
    of all products matching the filters, and the search of that window
    returns. *)
Definition listing_of `{PyRuntime} `{Orm} (req : Request) (st : Store) (L O N : Z) : Prop :=
  ∃ (d : pydict) (categ : option Z) (term : option string) (l o : Z)
    (ps : list Product),
    request_data req = PyDict d ∧
    category_filter d categ ∧
    search_filter d term ∧
    py_int (default (PyInt 20) (d !! "limit")) = Return l ∧
    py_int (default (PyInt 0) (d !! "offset")) = Return o ∧
    L = Z.min l 100 ∧
    O = Z.max o 0 ∧
    N = Z.of_nat (length (List.filter (listed categ term) (products st))) ∧
    search_window L O (List.filter (listed categ term) (products st)) = Return ps.

(** The login [req] makes the handler call the authenticator with [login]
    and [password]: the payload has a non-empty text email, of which [login]
    is the trimmed, lower-cased form, and the true password [password]. *)
Definition login_attempt `{PyRuntime} (req : Request) (login : string)
    (password : PyVal) : Prop :=
  ∃ (d : pydict) (email : string),
    request_data req = PyDict d ∧
    d !! "email" = Some (PyStr email) ∧ email ≠ "" ∧
    d !! "password" = Some password ∧ truthy password = true ∧
    login = str_lower (str_strip email).

(** * The test script (test_api.py) *)

Module TestApi.

(** A run of the script over a tester of type [T]: the tester is threaded
    through, an exception ends the run. *)
Definition Script (T A : Type) : Type := T → outcome A * T.

#[export] Instance Script_ret {T} : MRet (Script T) := λ A a ts, (Return a, ts).

#[export] Instance Script_bind {T} : MBind (Script T) := λ A B k m ts,
  match m ts with
  | (Return a, ts') => k a ts'
  | (Raise e, ts') => (Raise e, ts')
  end.

Definition script_lift {T A} (o : outcome A) : Script T A := λ ts, (o, ts).

(** The methods of [APITester] talk to a server; here they are the interface
    of the script: a method takes the tester from one state to the next and
    returns its result ([None] as [PyNone]) or raises. What the script prints
    is left out. *)
Class APITester := {
  tester : Type;
  test_health_check : Script tester bool;
  test_create_customer : PyVal → Script tester PyVal;
  test_login : PyVal → Script tester PyVal;
  test_list_categories : Script tester PyVal;
  test_list_products : PyVal → Script tester PyVal;
  test_add_to_cart : PyVal → PyVal → Script tester PyVal;
  test_view_cart : Script tester PyVal;
}.

Section Script.
Context `{APITester}.

(** [v[0]]: the first element of a list or the first character of a text;
    an empty one raises IndexError ([OtherException] here), a dict of text
    keys KeyError, and any other value is not subscriptable. *)
Definition py_first (v : PyVal) : outcome PyVal :=
  match v with
  | PyList (x :: _) => Return x
  | PyList [] => Raise OtherException
  | PyStr (String a _) => Return (PyStr (String a ""))
  | PyStr "" => Raise OtherException
  | PyDict _ => Raise KeyError
  | _ => Raise TypeError
  end.

(** [customer_data] of a run started at [timestamp]. *)
Definition customer_data (timestamp : Z) : PyVal :=
  PyDict (dict_of [("name", PyStr "Test User");
                   ("email", PyStr ("test.user." +:+ pretty timestamp +:+ "@example.com"));
                   ("phone", PyStr "1234567890");
                   ("password", PyStr "password123")]).

Definition login_credentials (timestamp : Z) : Script tester PyVal :=
  email ← script_lift (py_item (customer_data timestamp) "email");
  password ← script_lift (py_item (customer_data timestamp) "password");
  mret (PyDict (dict_of [("email", email); ("password", password)])).

(** [main()], for [int(time.time())] equal to [timestamp]. *)
Definition main (timestamp : Z) : Script tester bool :=
  let customer_data := customer_data timestamp in
  let tests_passed := 0 in
  let total_tests := 0 in
  let total_tests := total_tests + 1 in
  health ← test_health_check;
  let tests_passed := if health : bool then tests_passed + 1 else tests_passed in
  let total_tests := total_tests + 1 in
  create_result ← test_create_customer customer_data;
  let tests_passed := if truthy create_result then tests_passed + 1 else tests_passed in
  let total_tests := total_tests + 1 in
  login_credentials ← login_credentials timestamp;
  login_result ← test_login login_credentials;
  let tests_passed := if truthy login_result then tests_passed + 1 else tests_passed in
  if negb (truthy login_result) then mret false
  else
    let total_tests := total_tests + 1 in
    categories ← test_list_categories;
    let tests_passed := if truthy categories then tests_passed + 1 else tests_passed in
    let total_tests := total_tests + 1 in
    products_result ← test_list_products (PyDict (dict_of [("limit", PyInt 10)]));
    let tests_passed := if truthy products_result then tests_passed + 1 else tests_passed in
    has_products ←
      (if truthy products_result
       then products ← script_lift (py_get products_result "products");
            mret (truthy products)
       else mret false);
    counters ←
      (if has_products : bool
       then
         first_product ← script_lift (py_item products_result "products" ≫= py_first);
         product_id ← script_lift (py_item first_product "id");
         let total_tests := total_tests + 1 in
         added ← test_add_to_cart product_id (PyInt 2);
         mret (if truthy added then tests_passed + 1 else tests_passed, total_tests)
       else mret (tests_passed, total_tests));
    let tests_passed := counters.1 in
    let total_tests := counters.2 in
    let total_tests := total_tests + 1 in
    cart ← test_view_cart;
    let tests_passed := if truthy cart then tests_passed + 1 else tests_passed in
    if tests_passed =? total_tests then mret true
    else if 3 <=? tests_passed then mret true
    else mret false.

(** [sys.exit(0 if success else 1)]; a run that raises ends with status 1. *)
Definition exit_status (timestamp : Z) (ts : tester) : Z :=
  match (main timestamp ts).1 with
  | Return true => 0
  | _ => 1
  end.

End Script.
End TestApi.

(** The credentials the script logs in with. *)
Definition credentials_of (timestamp : Z) : PyVal :=
  PyDict (dict_of
    [("email", PyStr ("test.user." +:+ pretty timestamp +:+ "@example.com"));
     ("password", PyStr "password123")]).

(** What the script needs of a product listing to go on: nothing when the
    result is false or lists no product; otherwise the listing is a dict
    whose products are a list, the first of them a dict with an id. *)
Definition usable_listing (v : PyVal) : Prop :=
  truthy v = false ∨
  ∃ d : pydict, v = PyDict d ∧
    (¬ present d "products" ∨
     ∃ (first : pydict) (rest : list PyVal),
       d !! "products" = Some (PyList (PyDict first :: rest)) ∧
       is_Some (first !! "id")).

(** A server on which the three first tests pass and every later request
    fails: the tester counts its requests. *)
Module CoreOnly.

#[export] Instance core_only : TestApi.APITester := {|
  TestApi.tester := nat;
  TestApi.test_health_check := λ n, (Return true, S n);
  TestApi.test_create_customer := λ _ n,
    (Return (PyDict (dict_of [("status", PyStr "success")])), S n);
  TestApi.test_login := λ _ n,
    (Return (PyDict (dict_of [("status", PyStr "success")])), S n);
  TestApi.test_list_categories := λ n, (Return PyNone, S n);
  TestApi.test_list_products := λ _ n, (Return PyNone, S n);
  TestApi.test_add_to_cart := λ _ _ n, (Return PyNone, S n);
  TestApi.test_view_cart := λ n, (Return PyNone, S n);
|}.

End CoreOnly.

(** A server that refuses the login. *)
Module NoLogin.

#[export] Instance no_login : TestApi.APITester := {|
  TestApi.tester := nat;
  TestApi.test_health_check := λ n, (Return true, S n);
  TestApi.test_create_customer := λ _ n,
    (Return (PyDict (dict_of [("status", PyStr "success")])), S n);
  TestApi.test_login := λ _ n, (Return PyNone, S n);
  TestApi.test_list_categories := λ n,
    (Return (PyDict (dict_of [("status", PyStr "success")])), S n);
  TestApi.test_list_products := λ _ n,
    (Return (PyDict (dict_of [("status", PyStr "success")])), S n);
  TestApi.test_add_to_cart := λ _ _ n,
    (Return (PyDict (dict_of [("status", PyStr "success")])), S n);
  TestApi.test_view_cart := λ n,
    (Return (PyDict (dict_of [("status", PyStr "success")])), S n);
|}.

End NoLogin.

(** ** More example requests *)

Module Cases.
Import Example.

(** Requests of Alice (user 5) the cart refuses. *)
Definition add_unparsable : Request :=
  request [("product_id", PyStr "abc")] (Some 5) 100.

Definition add_nothing : Request :=
  request [("product_id", PyInt 2); ("quantity", PyInt 0)] (Some 5) 100.

Definition add_unknown : Request :=
  request [("product_id", PyInt 99)] (Some 5) 100.

(** A quantity that is not a number. *)
Definition add_nan : Request :=
  request [("product_id", PyInt 2); ("quantity", PyFloat nan)] (Some 5) 100.

(** Listings. *)
Definition bolts_body : list (string * PyVal) :=
  [("category_id", PyInt 1); ("search", PyStr " bolt "); ("limit", PyInt 2)].

Definition bolts : Request := request bolts_body None 100.

Definition many : Request := request [("limit", PyStr "many")] None 100.

Definition tools : Request := request [("category_id", PyStr "tools")] None 100.

Definition search_five : Request := request [("search", PyInt 5)] None 100.

(** Signups. *)
Definition signup_no_at : Request :=
  request [("name", PyStr "Bob"); ("email", PyStr "bob.example.com");
           ("password", PyStr "x")] None 100.

Definition signup_email_number : Request :=
  request [("name", PyStr "Bob"); ("email", PyInt 5); ("password", PyStr "x")] None 100.

Definition signup_name_number : Request :=
  request [("name", PyInt 5); ("email", PyStr "bob@example.com");
           ("password", PyStr "x")] None 100.

(** A session whose authenticator accepts any password for a login of the
    users table. *)
Definition trusting : Session :=
  {| sid := "sid-1";
     authenticate := λ st _ login _,
       Return (user_id <$> head (filter (λ u, user_login u = login) (users st))) |}.

Definition login_as (email : string) : Request :=
  {| get_json_data :=
       Some (Return (PyDict (dict_of [("email", PyStr email); ("password", PyStr "x")])));
     jsonrequest := None;
     httprequest := {| is_json := true; get_json := Raise ValueError;
                       get_data := Return ""; host_url := "http://localhost:8097/" |};
     kw := ∅; uid := None; db := "odoo"; session := trusting;
     now := 101; token_hex := "ab" |}.

(** Two sessions that know Alice's password: for other credentials the
    first raises and the second returns no user. *)
Definition knows_alice (login : string) (password : PyVal) : bool :=
  String.eqb login "alice@example.com"
  && match password with PyStr s => String.eqb s "secret" | _ => false end.

Definition strict_raising : Session :=
  {| sid := "sid-0";
     authenticate := λ _ _ login password,
       if knows_alice login password then Return (Some 5) else Raise AccessDenied |}.

Definition strict_refusing : Session :=
  {| sid := "sid-0";
     authenticate := λ _ _ login password,
       if knows_alice login password then Return (Some 5) else Return None |}.

(** Alice's login with a wrong password, under each of them. *)
Definition wrong_password (s : Session) : Request :=
  {| get_json_data := Some (Return (PyDict (dict_of Scenario.login_body)));
     jsonrequest := None;
     httprequest := {| is_json := true;
                       get_json := Return (PyDict (dict_of Scenario.login_body));
                       get_data := Return ""; host_url := "http://localhost:8097/" |};
     kw := ∅; uid := None; db := "odoo"; session := s;
     now := 100; token_hex := "00" |}.

(** A request of Alice whose body cannot be read, and one whose body is a
    list. *)
Definition garbled : Request :=
  {| get_json_data := Some (Raise ValueError);
     jsonrequest := None;
     httprequest := {| is_json := true; get_json := Raise ValueError;
                       get_data := Return "{"; host_url := "http://localhost:8097/" |};
     kw := ∅; uid := Some 5; db := "odoo"; session := no_session;
     now := 100; token_hex := "00" |}.

Definition list_body : Request :=
  {| get_json_data := Some (Return (PyList [PyInt 1]));
     jsonrequest := None;
     httprequest := {| is_json := true; get_json := Return (PyList [PyInt 1]);
                       get_data := Return "[1]"; host_url := "http://localhost:8097/" |};
     kw := ∅; uid := Some 5; db := "odoo"; session := no_session;
     now := 100; token_hex := "00" |}.

(** The shop once Alice has one and a half Bolt in her cart. *)
Definition shop_with_cart : Store :=
  Eval vm_compute in (CartAPIController.add_to_cart Scenario.add_bolt shop).2.

End Cases.
(** * Properties *)

Section Properties.
Context `{PyRuntime} `{Orm}.

(** ** Running the monad *)

Lemma bind_run {A B} (m : M A) (k : A → M B) (st st' : Store) (a : A) :
  m st = (Return a, st') → (m ≫= k) st = k a st'.
Proof. intros Hm. unfold mbind, M_bind. by rewrite Hm. Qed.

Lemma bind_raise {A B} (m : M A) (k : A → M B) (st st' : Store) (e : PyExc) :
  m st = (Raise e, st') → (m ≫= k) st = (Raise e, st').
Proof. intros Hm. unfold mbind, M_bind. by rewrite Hm. Qed.

Lemma ret_run {A} (a : A) (st : Store) : (mret a : M A) st = (Return a, st).
Proof. reflexivity. Qed.

Lemma lift_run {A} (o : outcome A) (st : Store) : lift o st = (o, st).
Proof. reflexivity. Qed.

Lemma log_call_run (model method : string) (st : Store) :
  log_call model method st = (Return (), logged model method st).
Proof. reflexivity. Qed.

Lemma get_store_run (st : Store) : get_store st = (Return st, st).
Proof. reflexivity. Qed.

(** ** The store under a logged call *)

Lemma draft_orders_logged (p : Z) (model method : string) (st : Store) :
  draft_orders p (logged model method st) = draft_orders p st.
Proof. reflexivity. Qed.

Lemma draft_orders_set_lines (p : Z) (f : list Line → list Line) (st : Store) :
  draft_orders p (set_lines f st) = draft_orders p st.
Proof. reflexivity. Qed.

Lemma lines_of_logged (c : Z) (model method : string) (st : Store) :
  lines_of c (logged model method st) = lines_of c st.
Proof. reflexivity. Qed.

Lemma lines_of_set_orders (c : Z) (f : list Order → list Order) (st : Store) :
  lines_of c (set_orders f st) = lines_of c st.
Proof. reflexivity. Qed.

Lemma records_logged (model method : string) (st : Store) :
  records (logged model method st) = records st.
Proof. reflexivity. Qed.

Create Rewrite HintDb store.

#[local] Hint Rewrite draft_orders_logged draft_orders_set_lines
  lines_of_logged lines_of_set_orders records_logged : store.

Lemma error_response_status (message : string) :
  error_response message !! "status" = Some (PyStr "error").
Proof. reflexivity. Qed.

Lemma error_response_message (message : string) :
  error_response message !! "message" = Some (PyStr message).
Proof. reflexivity. Qed.

Lemma touches_no_record_refl (st : Store) : touches_no_record st st.
Proof.
  split; [done |]. exists []. rewrite app_nil_r. split; [done |].
  intros c Hc. by apply elem_of_nil in Hc.
Qed.

Lemma touches_no_record_ref (st : Store) (xmlid : string) :
  touches_no_record st (logged "ir.model.data" xmlid st).
Proof.
  split; [done |]. exists [("ir.model.data", xmlid)]. split; [done |].
  by intros c ->%list_elem_of_singleton.
Qed.

(** ** The authentication gate *)

Lemma authenticate_session_anonymous (req : Request) (st : Store) :
  anonymous req st →
  ∃ st', CartAPIController._authenticate_session req st = (Return false, st') ∧
         touches_no_record st st'.
Proof.
  unfold CartAPIController._authenticate_session.
  intros [Hu | [Hu | Hu]]; rewrite Hu.
  - eauto using touches_no_record_refl.
  - eauto using touches_no_record_refl.
  - destruct (public_user st =? 0) eqn:H0'.
    + eauto using touches_no_record_refl.
    + exists (logged "ir.model.data" "base.public_user" st).
      split; [| apply touches_no_record_ref].
      unfold env_ref.
      erewrite bind_run; [| erewrite bind_run by apply log_call_run;
                            erewrite bind_run by apply get_store_run;
                            apply ret_run].
      change (public_user (logged _ _ st)) with (public_user st).
      by rewrite Z.eqb_refl.
Qed.

Lemma authenticate_session_logged_in (req : Request) (st : Store) (u : Z) :
  logged_in req st u →
  CartAPIController._authenticate_session req st
  = (Return true, logged "ir.model.data" "base.public_user" st).
Proof.
  intros (Hu & Hu0 & Hpub).
  unfold CartAPIController._authenticate_session. rewrite Hu.
  apply Z.eqb_neq in Hu0, Hpub. rewrite Hu0.
  unfold env_ref.
  erewrite bind_run; [| erewrite bind_run by apply log_call_run;
                        erewrite bind_run by apply get_store_run;
                        apply ret_run].
  change (public_user (logged _ _ st)) with (public_user st).
  by rewrite Hpub.
Qed.

(** C3: a cart operation of a session that is not logged in answers
    "Authentication required", whatever the payload, and reads or writes no
    record on the way. *)
Theorem cart_requires_authentication (req : Request) (st : Store) :
  anonymous req st →
  (CartAPIController.add_to_cart req st).1 = error_response "Authentication required" ∧
  touches_no_record st (CartAPIController.add_to_cart req st).2 ∧
  (CartAPIController.view_cart req st).1 = error_response "Authentication required" ∧
  touches_no_record st (CartAPIController.view_cart req st).2.
Proof.
  intros Hanon.
  destruct (authenticate_session_anonymous req st Hanon) as (st' & Hrun & Hst').
  unfold CartAPIController.add_to_cart, CartAPIController.view_cart, handle,
    CartAPIController.add_to_cart_body, CartAPIController.view_cart_body.
  rewrite !(bind_run _ _ _ _ _ Hrun). simpl.
  by split_and!.
Qed.

(** ** Computations that write no record *)

Lemma read_only_ret {A} (a : A) : read_only (mret a).
Proof. by intros st. Qed.

Lemma read_only_lift {A} (o : outcome A) : read_only (lift o).
Proof. by intros st. Qed.

Lemma read_only_get_store : read_only get_store.
Proof. by intros st. Qed.

Lemma read_only_log_call (model method : string) : read_only (log_call model method).
Proof. by intros st. Qed.

Lemma read_only_bind {A B} (m : M A) (k : A → M B) :
  read_only m → (∀ a, read_only (k a)) → read_only (m ≫= k).
Proof.
  intros Hm Hk st. unfold mbind, M_bind.
  specialize (Hm st). destruct (m st) as [[a | e] st1]; simpl in *.
  - by rewrite Hk.
  - done.
Qed.

Lemma read_only_handle {A} (m : M A) (h : PyExc → A) (st : Store) :
  read_only m → records (handle m h st).2 = records st.
Proof.
  intros Hm. unfold handle. specialize (Hm st).
  by destruct (m st) as [[a | e] st1].
Qed.

Ltac read_only_step :=
  first
    [ apply read_only_ret
    | apply read_only_lift
    | apply read_only_get_store
    | apply read_only_log_call
    | apply read_only_bind; [| intros ? ]
    | case_match ].

Ltac read_only := repeat read_only_step.

Lemma read_only_env_ref (xmlid : string) (id_of : Store → Z) :
  read_only (env_ref xmlid id_of).
Proof. unfold env_ref. read_only. Qed.

Lemma read_only_authenticate_session (req : Request) :
  read_only (CartAPIController._authenticate_session req).
Proof.
  unfold CartAPIController._authenticate_session.
  read_only; apply read_only_env_ref.
Qed.

Lemma read_only_res_users_read (u : Z) : read_only (res_users_read u).
Proof. unfold res_users_read. read_only. Qed.

Lemma read_only_res_partner_read (p : Z) : read_only (res_partner_read p).
Proof. unfold res_partner_read. read_only. Qed.

Lemma read_only_sale_order_search (p : Z) : read_only (sale_order_search p).
Proof. unfold sale_order_search. read_only. Qed.

Lemma read_only_order_line (c : Z) : read_only (order_line c).
Proof. unfold order_line. read_only. Qed.

Lemma read_only_cart_lines_data (base_url : string) (ls : list Line) :
  read_only (CartAPIController.cart_lines_data base_url ls).
Proof.
  induction ls as [| l ls IH]; simpl.
  - apply read_only_ret.
  - unfold CartAPIController.line_data, CartAPIController.product_read.
    read_only. apply IH.
Qed.

Lemma read_only_view_cart_body (req : Request) :
  read_only (CartAPIController.view_cart_body req).
Proof.
  unfold CartAPIController.view_cart_body, CartAPIController.env_user.
  read_only;
    auto using read_only_authenticate_session, read_only_res_users_read,
      read_only_sale_order_search, read_only_order_line,
      read_only_cart_lines_data, read_only_res_partner_read.
Qed.

(** ** ORM calls as equations *)

Lemma sale_order_search_run (partner : Z) (st : Store) :
  sale_order_search partner st
  = (Return (most_recent (draft_orders partner st)), logged "sale.order" "search" st).
Proof. reflexivity. Qed.

Lemma res_users_read_run (u : Z) (user : User) (st : Store) :
  user_of st u = Some user →
  res_users_read u st = (Return user, logged "res.users" "read" st).
Proof.
  unfold user_of, res_users_read. intros Hu.
  erewrite bind_run by apply log_call_run.
  erewrite bind_run by apply get_store_run.
  change (users (logged _ _ st)) with (users st).
  by destruct (filter _ (users st)); simplify_eq/=.
Qed.

Lemma env_user_run (req : Request) (u : Z) (user : User) (st st' : Store) :
  logged_in req st u →
  user_of st' u = Some user →
  CartAPIController.env_user req st' = (Return user, logged "res.users" "read" st').
Proof.
  intros (Hu & _) Huser. unfold CartAPIController.env_user. rewrite Hu.
  by apply res_users_read_run.
Qed.

(** ** Cart view *)

(** C4: a cart view writes no record, so it never creates a cart; for a
    logged-in customer without a draft order it answers with success and a
    null cart. *)
Theorem view_cart_never_creates (req : Request) (st : Store) :
  records (CartAPIController.view_cart req st).2 = records st ∧
  ∀ (u : Z) (user : User),
    logged_in req st u →
    user_of st u = Some user →
    draft_orders (user_partner user) st = [] →
    (CartAPIController.view_cart req st).1 !! "status" = Some (PyStr "success") ∧
    (CartAPIController.view_cart req st).1 !! "cart" = Some PyNone.
Proof.
  split.
  - apply read_only_handle, read_only_view_cart_body.
  - intros u user Hin Huser Hnone.
    unfold CartAPIController.view_cart, handle,
      CartAPIController.view_cart_body.
    erewrite bind_run by (by eapply authenticate_session_logged_in). simpl.
    erewrite bind_run by (by eapply env_user_run).
    erewrite bind_run by apply sale_order_search_run.
    autorewrite with store. rewrite Hnone. done.
Qed.

(** ** Cart resolution *)

Lemma most_recent_None (l : list Order) : most_recent l = None → l = [].
Proof.
  destruct l as [| o l]; [done |]. simpl. by destruct (most_recent l).
Qed.

Lemma most_recent_in (l : list Order) (c : Order) :
  most_recent l = Some c → c ∈ l.
Proof.
  revert c. induction l as [| o l IH]; intros c; simpl; [done |].
  destruct (most_recent l) as [b |]; intros Hc; simplify_eq.
  - destruct (write_date o <? write_date b).
    + apply list_elem_of_further. by apply IH.
    + apply list_elem_of_here.
  - apply list_elem_of_here.
Qed.

Lemma most_recent_max (l : list Order) (c : Order) :
  most_recent l = Some c → ∀ o, o ∈ l → write_date o ≤ write_date c.
Proof.
  revert c. induction l as [| x l IH]; intros c; simpl; [done |].
  destruct (most_recent l) as [b |] eqn:Hb; intros Hc o Ho; simplify_eq.
  - specialize (IH b eq_refl).
    destruct (Z.ltb_spec (write_date x) (write_date b));
      apply elem_of_cons in Ho as [-> | Ho]; try lia.
    + by apply IH.
    + specialize (IH o Ho). lia.
  - apply most_recent_None in Hb as ->.
    apply elem_of_cons in Ho as [-> | Ho]; [lia |].
    by apply elem_of_nil in Ho.
Qed.

Lemma sale_order_create_run (time partner : Z) (s : string) (st : Store) :
  sale_order_create time partner s st
  = (Return (new_order time partner s st),
     set_orders (λ l, l ++ [new_order time partner s st])
       (logged "sale.order" "create" st)).
Proof. reflexivity. Qed.

Lemma draft_orders_created_draft (time partner : Z) (st st' : Store) :
  draft_orders partner
    (set_orders (λ l, l ++ [new_order time partner "draft" st]) st')
  = draft_orders partner st' ++ [new_order time partner "draft" st].
Proof.
  unfold draft_orders. cbn [orders set_orders]. rewrite filter_app.
  f_equal. by rewrite filter_cons_True.
Qed.

(** C2: cart resolution returns the most recently modified draft order of
    the customer when there is one and creates a draft order only when there
    is none; a second resolution returns the same cart and creates nothing. *)
Theorem get_or_create_cart_idempotent (req1 req2 : Request) (partner : Z) (st : Store) :
  ∃ (c : Order) (st1 st2 : Store),
    CartAPIController._get_or_create_cart req1 partner st = (Return c, st1) ∧
    CartAPIController._get_or_create_cart req2 partner st1 = (Return c, st2) ∧
    records st2 = records st1 ∧
    c ∈ draft_orders partner st1 ∧
    (∀ o, o ∈ draft_orders partner st1 → write_date o ≤ write_date c) ∧
    (draft_orders partner st ≠ [] →
       c ∈ draft_orders partner st ∧ records st1 = records st) ∧
    (draft_orders partner st = [] →
       orders st1 = orders st ++ [c] ∧ lines st1 = lines st).
Proof.
  unfold CartAPIController._get_or_create_cart.
  destruct (most_recent (draft_orders partner st)) as [c |] eqn:Hc.
  - exists c, (logged "sale.order" "search" st),
      (logged "sale.order" "search" (logged "sale.order" "search" st)).
    erewrite !bind_run by apply sale_order_search_run.
    autorewrite with store. rewrite Hc.
    split_and!; try done.
    + by apply most_recent_in.
    + by apply most_recent_max.
    + intros _. split; [by apply most_recent_in | done].
    + intros Hnil. by rewrite Hnil in Hc.
  - apply most_recent_None in Hc.
    erewrite bind_run by apply sale_order_search_run. rewrite Hc.
    cbn [most_recent]. rewrite sale_order_create_run.
    eexists _, _, _. split; [reflexivity |].
    erewrite bind_run by apply sale_order_search_run.
    rewrite draft_orders_created_draft, !draft_orders_logged, Hc.
    cbn [app most_recent].
    split; [reflexivity |].
    split_and!; try done.
    + apply list_elem_of_here.
    + by intros o ->%list_elem_of_singleton.
Qed.

(** ** Adding to the cart *)

Lemma try_except_run {A} (m : M A) (caught : PyExc → bool) (h : PyExc → M A)
    (st st' : Store) (a : A) :
  m st = (Return a, st') → try_except m caught h st = (Return a, st').
Proof. intros Hm. unfold try_except. by rewrite Hm. Qed.

Lemma product_browse_run (p : Z) (st : Store) :
  product_browse p st = (Return (product_of st p), logged "product.product" "exists" st).
Proof. reflexivity. Qed.

Lemma order_line_run (c : Z) (st : Store) :
  order_line c st = (Return (lines_of c st), logged "sale.order.line" "read" st).
Proof. reflexivity. Qed.

Lemma get_or_create_cart_run (req : Request) (partner : Z) (st : Store) :
  CartAPIController._get_or_create_cart req partner st
  = match most_recent (draft_orders partner st) with
    | Some c => (Return c, logged "sale.order" "search" st)
    | None =>
        (Return (new_order (now req) partner "draft" st),
         set_orders (λ l, l ++ [new_order (now req) partner "draft" st])
           (logged "sale.order" "create" (logged "sale.order" "search" st)))
    end.
Proof.
  unfold CartAPIController._get_or_create_cart.
  erewrite bind_run by apply sale_order_search_run.
  by destruct (most_recent (draft_orders partner st)).
Qed.

Lemma get_or_create_cart_id (req : Request) (partner : Z) (st : Store) :
  ∃ c st',
    CartAPIController._get_or_create_cart req partner st = (Return c, st') ∧
    order_id c = cart_id_for partner st ∧
    partners st' = partners st ∧ users st' = users st ∧
    products st' = products st ∧ public_user st' = public_user st ∧
    lines st' = lines st ∧
    orders st'
    = orders st ++ match most_recent (draft_orders partner st) with
                   | Some _ => []
                   | None => [new_order (now req) partner "draft" st]
                   end ∧
    c ∈ orders st'.
Proof.
  rewrite get_or_create_cart_run. unfold cart_id_for.
  destruct (most_recent (draft_orders partner st)) as [c |] eqn:Hc.
  - eexists _, _. split; [reflexivity |]. split_and!; try done.
    + cbn. by rewrite app_nil_r.
    + apply most_recent_in in Hc. by apply list_elem_of_filter in Hc as [_ ?].
  - eexists _, _. split; [reflexivity |]. split_and!; try done.
    cbn [orders set_orders]. apply elem_of_app. right. apply list_elem_of_here.
Qed.

Lemma sale_order_line_write_qty_run (id : Z) (qty : float) (st : Store) :
  sale_order_line_write_qty id qty st
  = (Return (),
     set_lines (fmap (write_qty id qty)) (logged "sale.order.line" "write" st)).
Proof. reflexivity. Qed.

Lemma sale_order_line_create_run (cart p : Z) (qty : float) (product : Product) (st : Store) :
  product_of st p = Some product →
  sale_order_line_create cart p qty st
  = (Return (new_line cart p qty (list_price product) st),
     set_lines (λ ls, ls ++ [new_line cart p qty (list_price product) st])
       (logged "sale.order.line" "create" st)).
Proof.
  intros Hp. unfold sale_order_line_create.
  erewrite bind_run by apply log_call_run.
  erewrite bind_run by apply get_store_run.
  unfold line_price_unit.
  change (products (logged _ _ st)) with (products st).
  unfold product_of in Hp. rewrite Hp. reflexivity.
Qed.

Lemma amount_all_run (time cart : Z) (st : Store) :
  _amount_all time cart st
  = (Return (),
     set_orders
       (fmap (write_amounts time cart (compute_order_amounts (lines_of cart st))))
       (logged "sale.order" "_amount_all" st)).
Proof. reflexivity. Qed.

Lemma sale_order_read_run (id : Z) (o : Order) (st : Store) :
  o ∈ orders st → order_id o = id →
  ∃ o', sale_order_read id st = (Return o', logged "sale.order" "read" st).
Proof.
  intros Hin Hid. unfold sale_order_read.
  erewrite bind_run by apply log_call_run.
  erewrite bind_run by apply get_store_run.
  change (orders (logged _ _ st)) with (orders st).
  destruct (filter (λ o0, order_id o0 = id) (orders st)) as [| o' os] eqn:Hf.
  - assert (o ∈ filter (λ o0, order_id o0 = id) (orders st)) as Ho
      by by apply list_elem_of_filter.
    rewrite Hf in Ho. by apply elem_of_nil in Ho.
  - by exists o'.
Qed.

Lemma parse_product_id (d : pydict) (v : PyVal) (p : Z) :
  d !! "product_id" = Some v → py_int v = Return p →
  py_item (PyDict d) "product_id" ≫= py_int = Return p.
Proof. intros Hd Hv. unfold py_item. by rewrite Hd. Qed.

(** The end of an accepted request: totals, then the response from the
    current cart and its lines. *)
Lemma cart_totals_run (time cid : Z) (k : Order → list Line → pydict)
    (st : Store) (c : Order) :
  c ∈ orders st → order_id c = cid →
  ∃ cart',
    (_amount_all time cid ≫= λ _,
       sale_order_read cid ≫= λ cart',
         order_line cid ≫= λ cart_lines', mret (k cart' cart_lines')) st
    = (Return (k cart' (lines_of cid st)),
       logged "sale.order.line" "read"
         (logged "sale.order" "read"
            (set_orders
               (fmap (write_amounts time cid (compute_order_amounts (lines_of cid st))))
               (logged "sale.order" "_amount_all" st)))).
Proof.
  intros Hc Hid.
  erewrite bind_run by apply amount_all_run.
  set (a := compute_order_amounts (lines_of cid st)).
  destruct (sale_order_read_run cid (write_amounts time cid a c)
              (set_orders (fmap (write_amounts time cid a))
                 (logged "sale.order" "_amount_all" st)))
    as (cart' & Hread).
  { cbn [orders set_orders]. by apply list_elem_of_fmap_2. }
  { unfold write_amounts. by destruct (decide (order_id c = cid)). }
  exists cart'.
  erewrite bind_run by apply Hread.
  erewrite bind_run by apply order_line_run.
  reflexivity.
Qed.

(** What an accepted request does to the store. *)
Lemma add_to_cart_accepts (req : Request) (st : Store) (u : Z) (user : User)
    (p : Z) (q : float) (product : Product) :
  logged_in req st u →
  user_of st u = Some user →
  asks_for req p q →
  sellable st p product →
  ∃ (r : pydict) (st' : Store) (a : float * float * float),
    CartAPIController.add_to_cart req st = (r, st') ∧
    r !! "status" = Some (PyStr "success") ∧
    r !! "cart_id" = Some (PyInt (cart_id_for (user_partner user) st)) ∧
    r !! "cart_items_count"
    = Some (PyInt (Z.of_nat (length (lines_of (cart_id_for (user_partner user) st) st')))) ∧
    partners st' = partners st ∧ users st' = users st ∧
    products st' = products st ∧ public_user st' = public_user st ∧
    orders st'
    = write_amounts (now req) (cart_id_for (user_partner user) st) a
      <$> (orders st
           ++ match most_recent (draft_orders (user_partner user) st) with
              | Some _ => []
              | None => [new_order (now req) (user_partner user) "draft" st]
              end) ∧
    lines st'
    = match filter (λ l, line_product l = p)
              (lines_of (cart_id_for (user_partner user) st) st) with
      | l0 :: _ =>
          write_qty (line_id l0) (PrimFloat.add (product_uom_qty l0) q) <$> lines st
      | [] =>
          lines st
          ++ [new_line (cart_id_for (user_partner user) st) p q (list_price product) st]
      end.
Proof.
  intros Hin Huser (d & v & Hdata & Hpid & Htrue & Hint & Hfloat & Hpos)
    (Hprod & Hsale & Hactive).
  unfold CartAPIController.add_to_cart, handle,
    CartAPIController.add_to_cart_body.
  erewrite bind_run by (by eapply authenticate_session_logged_in).
  cbn [negb]. rewrite Hdata.
  erewrite bind_run by apply lift_run.
  rewrite Hpid. change (default PyNone (Some v)) with v. rewrite Htrue. cbn [negb].
  erewrite bind_run;
    [| apply try_except_run;
       erewrite bind_run
         by (rewrite (parse_product_id d v p Hpid Hint); apply lift_run);
       erewrite bind_run
         by (unfold py_get_default; cbn [mbind outcome_bind];
             rewrite Hfloat; apply lift_run);
       apply ret_run ].
  cbn beta iota. rewrite Hpos.
  erewrite bind_run by (by eapply env_user_run).
  erewrite bind_run by apply product_browse_run.
  change (product_of (logged _ _ (logged _ _ st)) p) with (product_of st p).
  rewrite Hprod, Hsale, Hactive. cbn [negb orb].
  set (st3 := logged "product.product" "exists" _).
  destruct (get_or_create_cart_id req (user_partner user) st3)
    as (c & st4 & Hcart & Hcid & Hpa & Hus & Hpr & Hpu & Hli & Hor & Hc).
  change (draft_orders (user_partner user) st3)
    with (draft_orders (user_partner user) st) in *.
  change (cart_id_for (user_partner user) st3)
    with (cart_id_for (user_partner user) st) in *.
  change (orders st3) with (orders st) in *.
  change (new_order (now req) (user_partner user) "draft" st3)
    with (new_order (now req) (user_partner user) "draft" st) in *.
  erewrite bind_run by apply Hcart.
  erewrite bind_run by apply order_line_run.
  rewrite Hcid.
  set (cid := cart_id_for (user_partner user) st) in *.
  assert (lines_of cid st4 = lines_of cid st) as Hlines4
    by (unfold lines_of; by rewrite Hli).
  rewrite Hlines4.
  destruct (filter (λ l, line_product l = p) (lines_of cid st))
    as [| l0 ls0] eqn:Hexisting.
  - assert (product_of (logged "sale.order.line" "read" st4) p = Some product)
      as Hprod4 by (unfold product_of in *; cbn; by rewrite Hpr).
    erewrite bind_run
      by (erewrite bind_run by (by apply sale_order_line_create_run);
          apply ret_run).
    set (st5 := set_lines _ _).
    destruct (cart_totals_run (now req) cid
                (λ cart' cart_lines',
                   dict_of [("status", PyStr "success");
                            ("message", PyStr "Product added to cart successfully");
                            ("cart_id", PyInt cid);
                            ("cart_total", PyFloat (amount_total cart'));
                            ("cart_items_count", PyInt (Z.of_nat (length cart_lines')));
                            ("product_name", PyStr (product_name product))])
                st5 c) as (cart' & Htail); [done | done |].
    rewrite Htail.
    eexists _, _, _. split; [reflexivity |].
    split_and!; try done.
    + cbn. by rewrite Hor.
    + cbn. unfold new_line. cbn. by rewrite Hli.
  - erewrite bind_run by apply sale_order_line_write_qty_run.
    set (st5 := set_lines _ _).
    destruct (cart_totals_run (now req) cid
                (λ cart' cart_lines',
                   dict_of [("status", PyStr "success");
                            ("message", PyStr "Product added to cart successfully");
                            ("cart_id", PyInt cid);
                            ("cart_total", PyFloat (amount_total cart'));
                            ("cart_items_count", PyInt (Z.of_nat (length cart_lines')));
                            ("product_name", PyStr (product_name product))])
                st5 c) as (cart' & Htail); [done | done |].
    rewrite Htail.
    eexists _, _, _. split; [reflexivity |].
    split_and!; try done.
    + cbn. by rewrite Hor.
    + cbn. by rewrite Hli.
Qed.

(** ** The invariant of the cart lines *)

Lemma filter_fmap_commute {A} (P : A → Prop) `{∀ x, Decision (P x)}
    (f : A → A) (l : list A) :
  (∀ x, P (f x) ↔ P x) → filter P (f <$> l) = f <$> filter P l.
Proof.
  intros Hf. induction l as [| x l IH]; [done |].
  rewrite fmap_cons, !filter_cons.
  destruct (decide (P (f x))) as [Hp | Hp], (decide (P x)) as [Hq | Hq].
  - by rewrite fmap_cons, IH.
  - exfalso. apply Hq. by apply Hf.
  - exfalso. apply Hp. by apply Hf.
  - done.
Qed.

Lemma keeps_invariant_lines {A} (m : M A) :
  (∀ st, lines (m st).2 = lines st) → keeps_invariant m.
Proof.
  intros Hm st Hinv c p. unfold one_line_per_product in *.
  rewrite Hm. apply Hinv.
Qed.

Lemma keeps_invariant_read_only {A} (m : M A) : read_only m → keeps_invariant m.
Proof.
  intros Hm. apply keeps_invariant_lines. intros st.
  specialize (Hm st). unfold records in Hm. by injection Hm.
Qed.

Lemma keeps_invariant_bind {A B} (m : M A) (k : A → M B) :
  keeps_invariant m → (∀ a, keeps_invariant (k a)) → keeps_invariant (m ≫= k).
Proof.
  intros Hm Hk st Hinv. unfold mbind, M_bind.
  specialize (Hm st Hinv). destruct (m st) as [[a | e] st1]; cbn [snd] in *.
  - by apply Hk.
  - done.
Qed.

Lemma keeps_invariant_try_except {A} (m : M A) (caught : PyExc → bool)
    (h : PyExc → M A) :
  keeps_invariant m → (∀ e, keeps_invariant (h e)) →
  keeps_invariant (try_except m caught h).
Proof.
  intros Hm Hh st Hinv. unfold try_except.
  specialize (Hm st Hinv). destruct (m st) as [[a | e] st1]; cbn [snd] in *.
  - done.
  - destruct (caught e); [by apply Hh | done].
Qed.

Lemma keeps_invariant_handle {A} (m : M A) (h : PyExc → A) (st : Store) :
  keeps_invariant m → one_line_per_product st →
  one_line_per_product (handle m h st).2.
Proof.
  intros Hm Hinv. unfold handle. specialize (Hm st Hinv).
  by destruct (m st) as [[a | e] st1].
Qed.

Lemma keeps_invariant_get_or_create_cart (req : Request) (partner : Z) :
  keeps_invariant (CartAPIController._get_or_create_cart req partner).
Proof.
  apply keeps_invariant_lines. intros st.
  rewrite get_or_create_cart_run.
  by destruct (most_recent (draft_orders partner st)).
Qed.

Lemma keeps_invariant_amount_all (time cart : Z) :
  keeps_invariant (_amount_all time cart).
Proof. by apply keeps_invariant_lines. Qed.

Lemma keeps_invariant_sale_order_read (id : Z) :
  keeps_invariant (sale_order_read id).
Proof.
  apply keeps_invariant_read_only. unfold sale_order_read. read_only.
Qed.

(** Writing a quantity changes no line's cart or product. *)
Lemma filter_write_qty (P : Line → Prop) `{∀ l, Decision (P l)}
    (id : Z) (qty : float) (ls : list Line) :
  (∀ l, P (with_qty qty l) ↔ P l) →
  filter P (write_qty id qty <$> ls) = write_qty id qty <$> filter P ls.
Proof.
  intros HP. apply filter_fmap_commute. intros l.
  unfold write_qty. by destruct (decide (line_id l = id)).
Qed.

Lemma keeps_invariant_write_qty (id : Z) (qty : float) :
  keeps_invariant (sale_order_line_write_qty id qty).
Proof.
  intros st Hinv c p. rewrite sale_order_line_write_qty_run.
  cbn [snd lines set_lines logged set_orm_log].
  rewrite filter_write_qty by done. rewrite length_fmap. apply Hinv.
Qed.

Lemma sale_order_line_create_cases (cart p : Z) (q : float) (st : Store) :
  sale_order_line_create cart p q st
  = (Raise MissingError, logged "sale.order.line" "create" st)
  ∨ ∃ l, sale_order_line_create cart p q st
         = (Return l, set_lines (λ ls, ls ++ [l]) (logged "sale.order.line" "create" st))
         ∧ line_order l = cart ∧ line_product l = p.
Proof.
  destruct (product_of st p) as [product |] eqn:Hp.
  - right. eexists. split; [by apply sale_order_line_create_run | done].
  - left. unfold sale_order_line_create.
    erewrite bind_run by apply log_call_run.
    erewrite bind_run by apply get_store_run.
    unfold line_price_unit.
    change (products (logged _ _ st)) with (products st).
    unfold product_of in Hp. by rewrite Hp.
Qed.

(** A line of a product the cart has no line of keeps the invariant. *)
Lemma one_line_per_product_add (l : Line) (st st' : Store) :
  one_line_per_product st →
  filter (λ x, line_product x = line_product l) (lines_of (line_order l) st) = [] →
  lines st' = lines st ++ [l] →
  one_line_per_product st'.
Proof.
  intros Hinv Hnone Hlines c p. rewrite Hlines, filter_app, length_app.
  destruct (decide (line_order l = c ∧ line_product l = p)) as [[<- <-] | Hne].
  - unfold lines_of in Hnone. rewrite list_filter_filter in Hnone.
    erewrite (list_filter_iff _ (λ a, line_product a = line_product l ∧ line_order a = line_order l)),
      Hnone by (intros a; split; intros [? ?]; by split).
    rewrite filter_cons_True by done. simpl. lia.
  - rewrite filter_cons_False by done. specialize (Hinv c p). simpl. lia.
Qed.

(** The upsert: the lines of the cart are read, and a line is created only
    when none of them is of the product. *)
Lemma keeps_invariant_upsert {A} (cart p : Z) (q : float) (k : () → M A) :
  (∀ x, keeps_invariant (k x)) →
  keeps_invariant
    (order_line cart ≫= λ cart_lines,
       match filter (λ l, line_product l = p) cart_lines with
       | l0 :: _ =>
           sale_order_line_write_qty (line_id l0)
             (PrimFloat.add (product_uom_qty l0) q)
       | [] => sale_order_line_create cart p q ≫= λ _, mret ()
       end ≫= k).
Proof.
  intros Hk st Hinv.
  erewrite bind_run by apply order_line_run.
  destruct (filter (λ l, line_product l = p) (lines_of cart st)) as [| l0 ls0] eqn:Hf.
  - destruct (sale_order_line_create_cases cart p q
                (logged "sale.order.line" "read" st))
      as [Hraise | (l & Hrun & Hcart & Hp)].
    + erewrite bind_raise by (erewrite bind_raise by apply Hraise; reflexivity).
      exact Hinv.
    + erewrite bind_run
        by (erewrite bind_run by apply Hrun; apply ret_run).
      apply Hk. apply (one_line_per_product_add l st); [done | | done].
      by rewrite Hcart, Hp.
  - apply keeps_invariant_bind; auto using keeps_invariant_write_qty.
Qed.

Lemma keeps_invariant_add_to_cart_body (req : Request) :
  keeps_invariant (CartAPIController.add_to_cart_body req).
Proof.
  unfold CartAPIController.add_to_cart_body, CartAPIController.env_user.
  repeat first
    [ apply keeps_invariant_upsert; intros ?
    | apply keeps_invariant_get_or_create_cart
    | apply keeps_invariant_amount_all
    | apply keeps_invariant_sale_order_read
    | apply keeps_invariant_read_only; first
        [ apply read_only_authenticate_session
        | apply read_only_res_users_read
        | apply read_only_order_line
        | apply read_only_ret
        | apply read_only_lift
        | by (unfold product_browse; read_only) ]
    | apply keeps_invariant_bind; [| intros ? ]
    | apply keeps_invariant_try_except; [| intros ? ]
    | case_match ].
Qed.

Lemma keeps_invariant_add_to_cart (req : Request) (st : Store) :
  one_line_per_product st →
  one_line_per_product (CartAPIController.add_to_cart req st).2.
Proof.
  apply keeps_invariant_handle, keeps_invariant_add_to_cart_body.
Qed.

Lemma keeps_invariant_add_all (reqs : list Request) (st : Store) :
  one_line_per_product st → one_line_per_product (add_all reqs st).
Proof.
  revert st. induction reqs as [| req reqs IH]; intros st Hinv; [done |].
  apply IH. by apply keeps_invariant_add_to_cart.
Qed.

(** ** The cart after an accepted request *)

Lemma write_amounts_id (time cid : Z) (a : float * float * float) (o : Order) :
  order_id (write_amounts time cid a o) = order_id o.
Proof. unfold write_amounts. by destruct (decide (order_id o = cid)). Qed.

Lemma write_amounts_hit (time cid : Z) (a : float * float * float) (o : Order) :
  order_id o = cid → write_date (write_amounts time cid a o) = time.
Proof. intros Hid. unfold write_amounts. by rewrite decide_True. Qed.

Lemma write_amounts_miss (time cid : Z) (a : float * float * float) (o : Order) :
  order_id o ≠ cid → write_amounts time cid a o = o.
Proof. intros Hid. unfold write_amounts. by rewrite decide_False. Qed.

(** Stamping the orders of the resolved cart's id keeps that id resolved,
    provided the stamp is not older than the cart. *)
Lemma most_recent_stamped (time cid : Z) (a : float * float * float)
    (l : list Order) (c : Order) :
  most_recent l = Some c →
  order_id c = cid →
  write_date c ≤ time →
  ∃ c',
    most_recent (write_amounts time cid a <$> l) = Some c'
    ∧ order_id c' = cid ∧ write_date c' = time.
Proof.
  revert c. induction l as [| o l IH]; intros c Hc Hid Htime; [done |].
  rewrite fmap_cons. cbn [most_recent] in *.
  destruct (most_recent l) as [b |] eqn:Hb.
  - destruct (Z.ltb_spec (write_date o) (write_date b)) as [Hlt | Hge];
      simplify_eq.
    + destruct (IH c eq_refl eq_refl Htime) as (c' & -> & Hid & Hdate).
      destruct (decide (order_id o = order_id c)) as [Ho | Ho].
      * rewrite (write_amounts_hit _ _ _ o Ho), Hdate, Z.ltb_irrefl.
        eexists. split; [done |].
        by rewrite write_amounts_id, write_amounts_hit.
      * rewrite (write_amounts_miss _ _ _ o Ho).
        destruct (Z.ltb_spec (write_date o) (write_date c')); [| lia].
        by exists c'.
    + destruct (most_recent (write_amounts time (order_id c) a <$> l))
        as [b' |] eqn:Hb'.
      * assert (write_date b' ≤ time) as Hle.
        { apply most_recent_in, list_elem_of_fmap in Hb' as (x & -> & Hx).
          pose proof (most_recent_max l b Hb x Hx).
          destruct (decide (order_id x = order_id c)) as [Hx' | Hx'].
          - rewrite write_amounts_hit by done. lia.
          - rewrite write_amounts_miss by done. lia. }
        rewrite (write_amounts_hit _ _ _ c eq_refl).
        destruct (Z.ltb_spec time (write_date b')); [lia |].
        eexists. split; [done |].
        by rewrite write_amounts_id, write_amounts_hit.
      * eexists. split; [done |].
        by rewrite write_amounts_id, write_amounts_hit.
  - simplify_eq. apply most_recent_None in Hb as ->. cbn.
    eexists. split; [done |].
    by rewrite write_amounts_id, write_amounts_hit.
Qed.

(** After an accepted request the customer's cart is the same cart. *)
Lemma cart_id_for_stamped (time partner : Z) (a : float * float * float)
    (st st' : Store) :
  (∀ c, most_recent (draft_orders partner st) = Some c → write_date c ≤ time) →
  orders st'
  = write_amounts time (cart_id_for partner st) a
    <$> (orders st
         ++ match most_recent (draft_orders partner st) with
            | Some _ => []
            | None => [new_order time partner "draft" st]
            end) →
  cart_id_for partner st' = cart_id_for partner st.
Proof.
  intros Htime Horders.
  assert (draft_orders partner st'
          = write_amounts time (cart_id_for partner st) a
            <$> (draft_orders partner st
                 ++ match most_recent (draft_orders partner st) with
                    | Some _ => []
                    | None => [new_order time partner "draft" st]
                    end)) as Hdraft.
  { unfold draft_orders at 1. rewrite Horders.
    rewrite filter_fmap_commute.
    - f_equal. rewrite filter_app. f_equal.
      destruct (most_recent (draft_orders partner st)); [done |].
      by rewrite filter_cons_True.
    - intros o. unfold write_amounts.
      by destruct (decide (order_id o = cart_id_for partner st)). }
  unfold cart_id_for at 1. rewrite Hdraft. unfold cart_id_for.
  destruct (most_recent (draft_orders partner st)) as [c |] eqn:Hc.
  - rewrite app_nil_r.
    destruct (most_recent_stamped time (order_id c) a _ c Hc eq_refl (Htime c eq_refl))
      as (c' & -> & Hid & _).
    done.
  - apply most_recent_None in Hc as ->. cbn.
    by rewrite write_amounts_id.
Qed.

(** ** One line per product *)

(** C1: add-to-cart keeps the invariant that a cart has at most one line of
    a product, over any sequence of requests, so the invariant holds after
    any sequence that starts without lines; and two accepted requests for
    quantities q1 and q2 of one product, on a cart without lines, leave the
    cart with exactly one line, of quantity q1 + q2. *)
Theorem one_line_per_product_kept :
  (∀ (reqs : list Request) (st : Store),
     one_line_per_product st → one_line_per_product (add_all reqs st)) ∧
  (∀ (reqs : list Request) (st : Store),
     lines st = [] → one_line_per_product (add_all reqs st)) ∧
  (∀ (req1 req2 : Request) (st : Store) (u : Z) (user : User) (p : Z)
     (q1 q2 : float) (product : Product),
     logged_in req1 st u → logged_in req2 st u →
     user_of st u = Some user →
     asks_for req1 p q1 → asks_for req2 p q2 →
     sellable st p product →
     lines_of (cart_id_for (user_partner user) st) st = [] →
     (∀ c, most_recent (draft_orders (user_partner user) st) = Some c →
           write_date c ≤ now req1) →
     ∃ l : Line,
       lines_of (cart_id_for (user_partner user) st) (add_all [req1; req2] st) = [l] ∧
       line_product l = p ∧
       product_uom_qty l = PrimFloat.add q1 q2 ∧
       cart_id_for (user_partner user) (add_all [req1] st)
       = cart_id_for (user_partner user) st).
Proof.
  split; [apply keeps_invariant_add_all |].
  split.
  { intros reqs st Hnil. apply keeps_invariant_add_all.
    intros c p. rewrite Hnil. cbn. lia. }
  intros req1 req2 st u user p q1 q2 product Hin1 Hin2 Huser Hask1 Hask2
    Hsell Hempty Htime.
  unfold add_all. cbn [foldl].
  destruct (add_to_cart_accepts req1 st u user p q1 product Hin1 Huser Hask1 Hsell)
    as (r1 & st1 & a1 & Hrun1 & _ & _ & _ & Hpa1 & Hus1 & Hpr1 & Hpu1 & Hor1 & Hli1).
  rewrite Hrun1. cbn [snd].
  rewrite Hempty in Hli1. cbn [filter list_filter] in Hli1.
  set (cid := cart_id_for (user_partner user) st) in *.
  set (l1 := new_line cid p q1 (list_price product) st) in *.
  assert (cart_id_for (user_partner user) st1 = cid) as Hcid
    by (by eapply cart_id_for_stamped).
  assert (logged_in req2 st1 u) as Hin2'.
  { destruct Hin2 as (? & ? & ?). split_and!; try done. by rewrite Hpu1. }
  assert (user_of st1 u = Some user) as Huser'
    by (unfold user_of in *; by rewrite Hus1).
  assert (sellable st1 p product) as Hsell'.
  { destruct Hsell as (? & ? & ?). split_and!; try done.
    unfold product_of in *. by rewrite Hpr1. }
  assert (lines_of cid st1 = [l1]) as Hlines1.
  { unfold lines_of in *. rewrite Hli1, filter_app, Hempty.
    by rewrite filter_cons_True. }
  destruct (add_to_cart_accepts req2 st1 u user p q2 product Hin2' Huser' Hask2 Hsell')
    as (r2 & st2 & a2 & Hrun2 & _ & _ & _ & _ & _ & _ & _ & _ & Hli2).
  rewrite Hrun2. cbn [snd].
  rewrite Hcid, Hlines1 in Hli2.
  rewrite filter_cons_True in Hli2 by done.
  exists (with_qty (PrimFloat.add q1 q2) l1). split_and!; try done.
  unfold lines_of. rewrite Hli2, filter_write_qty by done.
  fold (lines_of cid st1). rewrite Hlines1. cbn.
  unfold write_qty. by rewrite decide_True.
Qed.

(** ** A new line *)

(** C5: when the cart has no line of the product, an accepted request adds
    exactly one line to the table: of that cart and product, with the
    requested quantity, and with the unit price the product has in the store
    at that time. *)
Theorem add_to_cart_new_line (req : Request) (st : Store) (u : Z) (user : User)
    (p : Z) (q : float) (product : Product) :
  logged_in req st u →
  user_of st u = Some user →
  asks_for req p q →
  sellable st p product →
  filter (λ l, line_product l = p) (lines_of (cart_id_for (user_partner user) st) st) = [] →
  ∃ l : Line,
    lines (CartAPIController.add_to_cart req st).2 = lines st ++ [l] ∧
    line_order l = cart_id_for (user_partner user) st ∧
    line_product l = p ∧
    product_uom_qty l = q ∧
    price_unit l = list_price product.
Proof.
  intros Hin Huser Hask Hsell Hnone.
  destruct (add_to_cart_accepts req st u user p q product Hin Huser Hask Hsell)
    as (r & st' & a & Hrun & _ & _ & _ & _ & _ & _ & _ & _ & Hlines).
  rewrite Hrun. cbn [snd]. rewrite Hnone in Hlines.
  by eexists.
Qed.

(** ** The default quantity *)

(** C9: a request whose payload has no [quantity] is answered, and changes
    the store, exactly as the request with [quantity] 1 added to the payload;
    when it is accepted, the line of the product in the cart gets 1 more, or
    a line of quantity 1 is created. *)
Theorem add_to_cart_default_quantity (req : Request) (st : Store) (d : pydict) :
  request_data req = PyDict d →
  d !! "quantity" = None →
  (∀ req' : Request,
     request_data req' = PyDict (<["quantity" := PyInt 1]> d) →
     uid req' = uid req → now req' = now req →
     CartAPIController.add_to_cart req st = CartAPIController.add_to_cart req' st) ∧
  (∀ (u : Z) (user : User) (v : PyVal) (p : Z) (product : Product),
     logged_in req st u →
     user_of st u = Some user →
     d !! "product_id" = Some v → truthy v = true → py_int v = Return p →
     sellable st p product →
     lines (CartAPIController.add_to_cart req st).2
     = match filter (λ l, line_product l = p)
               (lines_of (cart_id_for (user_partner user) st) st) with
       | l0 :: _ =>
           write_qty (line_id l0) (PrimFloat.add (product_uom_qty l0) 1%float)
           <$> lines st
       | [] =>
           lines st
           ++ [new_line (cart_id_for (user_partner user) st) p 1%float
                 (list_price product) st]
       end).
Proof.
  intros Hdata Hnone. split.
  - intros req' Hdata' Huid Hnow.
    unfold CartAPIController.add_to_cart,
      CartAPIController.add_to_cart_body,
      CartAPIController._authenticate_session,
      CartAPIController.env_user,
      CartAPIController._get_or_create_cart.
    rewrite Hdata, Hdata', Huid, Hnow.
    unfold py_get, py_item, py_get_default.
    rewrite !(lookup_insert_ne _ "quantity" "product_id") by done.
    rewrite lookup_insert_eq, Hnone.
    reflexivity.
  - intros u user v p product Hin Huser Hpid Htrue Hint Hsell.
    assert (asks_for req p 1%float) as Hask.
    { exists d, v. split_and!; try done. by rewrite Hnone. }
    destruct (add_to_cart_accepts req st u user p _ product Hin Huser Hask Hsell)
      as (r & st' & a & Hrun & _ & _ & _ & _ & _ & _ & _ & _ & Hlines).
    by rewrite Hrun.
Qed.

(** ** Login *)

Lemma bind_cong {A B} (m : M A) (k1 k2 : A → M B) (st : Store) :
  (∀ a st', m st = (Return a, st') → k1 a st' = k2 a st') →
  (m ≫= k1) st = (m ≫= k2) st.
Proof.
  intros Hk. unfold mbind, M_bind.
  destruct (m st) as [[a | e] st'] eqn:Hm; [by apply Hk | done].
Qed.

(** An authenticator that raises: the handler catches the exception. *)
Lemma authenticate_raises (req : Request) (login : string) (password : PyVal)
    (st : Store) (e : PyExc) :
  authenticate (session req) st (db req) login password = Raise e →
  try_except (uid_value ← session_authenticate req login password;
              mret (Some uid_value))
             any_exception (λ _, mret None) st
  = (Return None, logged "session" "authenticate" st).
Proof.
  intros He. unfold try_except, session_authenticate.
  erewrite bind_raise; [reflexivity |].
  erewrite bind_run by apply get_store_run.
  erewrite bind_run by apply log_call_run.
  unfold lift. by rewrite He.
Qed.

Lemma authenticate_returns (req : Request) (login : string) (password : PyVal)
    (st : Store) (o : option Z) :
  authenticate (session req) st (db req) login password = Return o →
  try_except (uid_value ← session_authenticate req login password;
              mret (Some uid_value))
             any_exception (λ _, mret None) st
  = (Return (Some o), logged "session" "authenticate" st).
Proof.
  intros He. unfold try_except, session_authenticate.
  erewrite bind_run; [reflexivity |].
  erewrite bind_run by apply get_store_run.
  erewrite bind_run by apply log_call_run.
  unfold lift. by rewrite He.
Qed.

(** C8: for one and the same login request, an authenticator that raises
    on the call the handler makes and an authenticator that returns a false
    result on it (no user, or the id 0) give the same response and leave the
    same store; that response is "Invalid email or password". Nothing is
    asked of the authenticators on other credentials or stores. *)
Theorem login_failure_indistinguishable (req1 req2 : Request) (st : Store) :
  request_data req1 = request_data req2 →
  (∀ login password,
     login_attempt req1 login password →
     ∃ e, authenticate (session req1) st (db req1) login password = Raise e) →
  (∀ login password,
     login_attempt req2 login password →
     authenticate (session req2) st (db req2) login password = Return None ∨
     authenticate (session req2) st (db req2) login password = Return (Some 0)) →
  CustomerAPIController.customer_login req1 st
  = CustomerAPIController.customer_login req2 st ∧
  (∀ login password,
     login_attempt req1 login password →
     (CustomerAPIController.customer_login req1 st).1
     = error_response "Invalid email or password").
Proof.
  intros Hdata Hraise Hfalse.
  split.
  - unfold CustomerAPIController.customer_login, handle.
    enough (CustomerAPIController.customer_login_body req1 st
            = CustomerAPIController.customer_login_body req2 st) as -> by done.
    unfold CustomerAPIController.customer_login_body.
    rewrite Hdata.
    apply bind_cong. intros e st1 He.
    apply bind_cong. intros p st2 Hp.
    destruct (negb (truthy e) || negb (truthy p)) eqn:Htp; [done |].
    apply orb_false_elim in Htp as [Hte%negb_false_iff Htpw%negb_false_iff].
    apply bind_cong. intros stripped st3 Hs.
    apply bind_cong. intros password st4 Hpw.
    assert (st4 = st ∧ login_attempt req2 (str_lower stripped) password)
      as [-> Hattempt].
    { unfold login_attempt.
      destruct (request_data req2) as [| | | | | | d]; try discriminate He.
      unfold lift, py_get, py_get_default in He, Hp. rewrite Hte in Hp.
      injection He as <- <-. injection Hp as <- <-.
      unfold lift, py_item in Hs, Hpw.
      destruct (d !! "email") as [v |] eqn:Hv; [| discriminate Hs].
      destruct v as [| | | | email | |]; try discriminate Hs.
      injection Hs as <- <-.
      destruct (d !! "password") as [pw |] eqn:Hpwd; [| discriminate Hpw].
      injection Hpw as <- <-.
      split; [done |]. exists d, email. split_and!; try done.
      intros ->. discriminate Hte. }
    assert (login_attempt req1 (str_lower stripped) password) as Hattempt1.
    { destruct Hattempt as (d & email & Hd & Hrest).
      exists d, email. by rewrite Hdata. }
    destruct (Hraise (str_lower stripped) password Hattempt1) as [exc Hexc].
    erewrite (bind_run _ _ _ _ _ (authenticate_raises _ _ _ _ _ Hexc)).
    destruct (Hfalse (str_lower stripped) password Hattempt) as [Hret | Hret];
      by erewrite (bind_run _ _ _ _ _ (authenticate_returns _ _ _ _ _ Hret)).
  - intros login password Hattempt.
    destruct (Hraise login password Hattempt) as [exc Hexc].
    destruct Hattempt as (d & email & Hd & Hemail & Hne & Hpw & Htrue & ->).
    unfold CustomerAPIController.customer_login, handle,
      CustomerAPIController.customer_login_body.
    rewrite Hd.
    erewrite bind_run by apply lift_run.
    rewrite Hemail. change (default PyNone (Some (PyStr email))) with (PyStr email).
    assert (truthy (PyStr email) = true) as ->.
    { cbn. by destruct (String.eqb_spec email ""). }
    erewrite bind_run by apply lift_run.
    rewrite Hpw. change (default PyNone (Some password)) with password.
    rewrite Htrue. cbn [negb orb].
    erewrite bind_run by (unfold py_item; rewrite Hemail; apply lift_run).
    erewrite bind_run by (unfold py_item; rewrite Hpw; apply lift_run).
    by erewrite (bind_run _ _ _ _ _ (authenticate_raises _ _ _ _ _ Hexc)).
Qed.

(** ** Required fields *)

Lemma first_missing_here (d : pydict) (field : string) (rest : list string) :
  ¬ present d field →
  CustomerAPIController.first_missing (PyDict d) (field :: rest) = Return (Some field).
Proof.
  unfold present. intros Hf. cbn.
  by destruct (truthy (default PyNone (d !! field))).
Qed.

Lemma first_missing_next (d : pydict) (field : string) (rest : list string) :
  present d field →
  CustomerAPIController.first_missing (PyDict d) (field :: rest)
  = CustomerAPIController.first_missing (PyDict d) rest.
Proof. unfold present. intros Hf. cbn. by rewrite Hf. Qed.

Lemma not_present_empty (d : pydict) (field : string) :
  d !! field = Some (PyStr "") → ¬ present d field.
Proof. unfold present. by intros ->. Qed.

Lemma create_customer_missing (req : Request) (st : Store) (d : pydict) (field : string) :
  request_data req = PyDict d →
  CustomerAPIController.first_missing (PyDict d) CustomerAPIController.required_fields
  = Return (Some field) →
  CustomerAPIController.create_customer req st
  = (error_response ("Missing required field: " +:+ field), st).
Proof.
  intros Hd Hmiss.
  unfold CustomerAPIController.create_customer, handle,
    CustomerAPIController.create_customer_body.
  rewrite Hd. erewrite bind_run by (rewrite Hmiss; apply lift_run).
  reflexivity.
Qed.

Lemma first_missing_first (d : pydict) (pre : list string) (field : string)
    (post : list string) :
  (∀ f, f ∈ pre → present d f) →
  ¬ present d field →
  CustomerAPIController.first_missing (PyDict d) (pre ++ field :: post)
  = Return (Some field).
Proof.
  intros Hpre Hfield. induction pre as [| f pre IH]; [by apply first_missing_here |].
  cbn [app]. rewrite first_missing_next by (apply Hpre, list_elem_of_here).
  apply IH. intros g Hg. apply Hpre. by apply list_elem_of_further.
Qed.

(** Among the required fields one of which is missing, there is a first
    missing one. *)
Lemma first_missing_exists (d : pydict) (fields : list string) (field : string) :
  field ∈ fields → ¬ present d field →
  ∃ pre missing post,
    fields = pre ++ missing :: post ∧
    (∀ f, f ∈ pre → present d f) ∧ ¬ present d missing.
Proof.
  induction fields as [| g fields IH]; [by intros ?%elem_of_nil |].
  intros Hin Hfield.
  assert (¬ present d g ∨ present d g) as [Hg | Hg].
  { unfold present. destruct (truthy (default PyNone (d !! g))); auto. }
  - exists [], g, fields. split_and!; [done | | done].
    by intros f ?%elem_of_nil.
  - apply elem_of_cons in Hin as [-> | Hin]; [done |].
    destruct (IH Hin Hfield) as (pre & missing & post & -> & Hpre & Hmissing).
    exists (g :: pre), missing, post. split_and!; [done | | done].
    intros f [-> | Hf]%elem_of_cons; [done | by apply Hpre].
Qed.

(** C10, as the code has it: a required field whose value is absent or
    false (the empty string, but also null, 0, false, an empty list or
    object) counts as missing. Signup answers with the first such field in
    the order name, email, password, and with no other: it names an empty
    field exactly when the required fields before it are present. Login
    answers that email and password are required when one of them is missing.
    Neither touches the store: no record is created and the authenticator is
    not called. *)
Theorem empty_required_field (req : Request) (st : Store) (d : pydict) :
  request_data req = PyDict d →
  (d !! "name" = Some (PyStr "") →
     CustomerAPIController.create_customer req st
     = (error_response "Missing required field: name", st)) ∧
  (d !! "email" = Some (PyStr "") → present d "name" →
     CustomerAPIController.create_customer req st
     = (error_response "Missing required field: email", st)) ∧
  (d !! "password" = Some (PyStr "") → present d "name" → present d "email" →
     CustomerAPIController.create_customer req st
     = (error_response "Missing required field: password", st)) ∧
  (∀ field, d !! field = Some (PyStr "") → ¬ present d field) ∧
  (∀ pre field post,
     CustomerAPIController.required_fields = pre ++ field :: post →
     (∀ f, f ∈ pre → present d f) →
     ¬ present d field →
     CustomerAPIController.create_customer req st
     = (error_response ("Missing required field: " +:+ field), st)) ∧
  (∀ field,
     field ∈ CustomerAPIController.required_fields →
     ¬ present d field →
     ∃ pre missing post,
       CustomerAPIController.required_fields = pre ++ missing :: post ∧
       (∀ f, f ∈ pre → present d f) ∧
       ¬ present d missing ∧
       CustomerAPIController.create_customer req st
       = (error_response ("Missing required field: " +:+ missing), st)) ∧
  (¬ present d "email" ∨ ¬ present d "password" →
     CustomerAPIController.customer_login req st
     = (error_response "Email and password are required", st)).
Proof.
  intros Hd.
  assert (∀ pre field post,
            CustomerAPIController.required_fields = pre ++ field :: post →
            (∀ f, f ∈ pre → present d f) →
            ¬ present d field →
            CustomerAPIController.create_customer req st
            = (error_response ("Missing required field: " +:+ field), st)) as Hfirst.
  { intros pre field post Hfields Hpre Hfield.
    apply (create_customer_missing req st d field Hd).
    rewrite Hfields. by apply first_missing_first. }
  split_and!.
  - intros Hname%not_present_empty.
    apply (Hfirst [] "name" ["email"; "password"]); [done | | done].
    by intros f ?%elem_of_nil.
  - intros Hemail%not_present_empty Hname.
    apply (Hfirst ["name"] "email" ["password"]); [done | | done].
    by intros f ->%list_elem_of_singleton.
  - intros Hpw%not_present_empty Hname Hemail.
    apply (Hfirst ["name"; "email"] "password" []); [done | | done].
    intros f [-> | ->%list_elem_of_singleton]%elem_of_cons; done.
  - intros field. apply not_present_empty.
  - exact Hfirst.
  - intros field Hin Hfield.
    destruct (first_missing_exists d _ field Hin Hfield)
      as (pre & missing & post & Hfields & Hpre & Hmissing).
    exists pre, missing, post. split_and!; try done.
    by apply (Hfirst pre missing post).
  - intros Hmissing.
    unfold CustomerAPIController.customer_login, handle,
      CustomerAPIController.customer_login_body.
    rewrite Hd. erewrite bind_run by apply lift_run.
    unfold present in Hmissing.
    destruct (truthy (default PyNone (d !! "email"))) eqn:He.
    + destruct Hmissing as [Hmissing | Hmissing]; [done |].
      erewrite bind_run by apply lift_run.
      apply not_true_is_false in Hmissing.
      cbn [py_get py_get_default].
      by rewrite Hmissing.
    + by erewrite bind_run by apply ret_run.
Qed.

(** ** Signup *)

Lemma res_partner_search_run (email : string) (st : Store) :
  res_partner_search email st
  = (Return (take 1 (customers_with st email)), logged "res.partner" "search" st).
Proof. reflexivity. Qed.

Lemma res_users_search_run (login : string) (st : Store) :
  res_users_search login st
  = (Return (take 1 (users_with st login)), logged "res.users" "search" st).
Proof. reflexivity. Qed.

Lemma res_partner_create_run (vals : Z → Partner) (st : Store) :
  res_partner_create vals st
  = (Return (vals (next_id (partner_id <$> partners st))),
     set_partners (λ l, l ++ [vals (next_id (partner_id <$> partners st))])
       (logged "res.partner" "create" st)).
Proof. reflexivity. Qed.

Lemma res_users_create_run (vals : Z → User) (st : Store) :
  res_users_create vals st
  = (Return (vals (next_id (user_id <$> users st))),
     set_users (λ l, l ++ [vals (next_id (user_id <$> users st))])
       (logged "res.users" "create" st)).
Proof. reflexivity. Qed.

Lemma env_ref_run (xmlid : string) (id_of : Store → Z) (st : Store) :
  env_ref xmlid id_of st
  = (Return (id_of (logged "ir.model.data" xmlid st)), logged "ir.model.data" xmlid st).
Proof. reflexivity. Qed.

Lemma truthy_str (s : string) : s ≠ "" → truthy (PyStr s) = true.
Proof. intros Hs. cbn. by destruct (String.eqb_spec s ""). Qed.

Lemma str_contains_nonempty (c : ascii) (s : string) :
  str_contains c s = true → String.eqb s "" = false.
Proof. by destruct s. Qed.

(** What signup does with an accepted payload. *)
Lemma create_customer_valid (req : Request) (st : Store) (d : pydict)
    (name email : string) (password : PyVal) :
  request_data req = PyDict d →
  valid_registration d name email password →
  match customers_with st (str_lower (str_strip email)),
        users_with st (str_lower (str_strip email)) with
  | _ :: _, _ =>
      CustomerAPIController.create_customer req st
      = (error_response "Email already exists", logged "res.partner" "search" st)
  | [], _ :: _ =>
      CustomerAPIController.create_customer req st
      = (error_response "User with this email already exists",
         logged "res.users" "search" (logged "res.partner" "search" st))
  | [], [] =>
      ∃ (r : pydict) (st' : Store) (partner : Partner) (user : User),
        CustomerAPIController.create_customer req st = (r, st') ∧
        r !! "status" = Some (PyStr "success") ∧
        partners st' = partners st ++ [partner] ∧
        partner_email partner = Some (str_lower (str_strip email)) ∧
        is_company partner = false ∧
        users st' = users st ++ [user] ∧
        user_login user = str_lower (str_strip email) ∧
        user_partner user = partner_id partner
  end.
Proof.
  intros Hd (Hname & Hname' & Hemail & Hemail' & Hat & Hpw & Hpw' & Hphone).
  unfold CustomerAPIController.create_customer, handle,
    CustomerAPIController.create_customer_body.
  rewrite Hd.
  erewrite bind_run.
  2:{ unfold CustomerAPIController.required_fields,
        CustomerAPIController.first_missing, py_get, py_get_default.
      cbn [mbind outcome_bind].
      rewrite Hname, Hemail, Hpw.
      change (default PyNone (Some ?x)) with x.
      rewrite !truthy_str, Hpw' by done. apply lift_run. }
  cbn beta iota.
  erewrite bind_run by (unfold py_item; rewrite Hemail; apply lift_run).
  cbn zeta. rewrite Hat, (str_contains_nonempty _ _ Hat). cbn [negb orb].
  erewrite bind_run by apply res_partner_search_run.
  destruct (customers_with st (str_lower (str_strip email))) as [| c cs] eqn:Hc;
    [| done].
  cbn [take].
  erewrite bind_run by apply res_users_search_run.
  change (users_with (logged _ _ st) ?l) with (users_with st l).
  destruct (users_with st (str_lower (str_strip email))) as [| x xs] eqn:Hu;
    [| done].
  cbn [take].
  erewrite bind_run by (unfold py_item; rewrite Hname; apply lift_run).
  assert (∃ phone, py_get_default (PyDict d) "phone" (PyStr "") ≫= py_strip
                   = Return phone) as [phone Hph].
  { unfold py_get_default. destruct Hphone as [-> | [ph ->]]; by eexists. }
  erewrite bind_run by (rewrite Hph; apply lift_run).
  erewrite bind_run by apply res_partner_create_run.
  erewrite bind_run by (unfold py_item; rewrite Hname; apply lift_run).
  erewrite bind_run by (unfold py_item; rewrite Hpw; apply lift_run).
  erewrite bind_run by apply env_ref_run.
  erewrite bind_run by apply res_users_create_run.
  eexists _, _, _, _. split; [reflexivity |].
  by split_and!.
Qed.

(** C7: with a valid payload, signup answers "Email already exists" when a
    customer has the normalized email and "User with this email already
    exists" when only a user has it as login, and writes no record; so the
    second of two signups with the payload gets one of the two errors and
    writes no record, and gets the first of them when the first signup
    succeeded. *)
Theorem duplicate_registration_rejected (req1 req2 : Request) (st : Store)
    (d : pydict) (name email : string) (password : PyVal) :
  request_data req1 = PyDict d →
  request_data req2 = PyDict d →
  valid_registration d name email password →
  (customers_with st (str_lower (str_strip email)) ≠ [] →
     (CustomerAPIController.create_customer req1 st).1
     = error_response "Email already exists" ∧
     records (CustomerAPIController.create_customer req1 st).2 = records st) ∧
  (customers_with st (str_lower (str_strip email)) = [] →
   users_with st (str_lower (str_strip email)) ≠ [] →
     (CustomerAPIController.create_customer req1 st).1
     = error_response "User with this email already exists" ∧
     records (CustomerAPIController.create_customer req1 st).2 = records st) ∧
  ((CustomerAPIController.create_customer req2
      (CustomerAPIController.create_customer req1 st).2).1
   = error_response "Email already exists" ∨
   (CustomerAPIController.create_customer req2
      (CustomerAPIController.create_customer req1 st).2).1
   = error_response "User with this email already exists") ∧
  records (CustomerAPIController.create_customer req2
             (CustomerAPIController.create_customer req1 st).2).2
  = records (CustomerAPIController.create_customer req1 st).2 ∧
  ((CustomerAPIController.create_customer req1 st).1 !! "status"
   = Some (PyStr "success") →
   (CustomerAPIController.create_customer req2
      (CustomerAPIController.create_customer req1 st).2).1
   = error_response "Email already exists").
Proof.
  intros Hd1 Hd2 Hvalid.
  pose proof (create_customer_valid req1 st d name email password Hd1 Hvalid) as H1.
  set (login := str_lower (str_strip email)) in *.
  destruct (customers_with st login) as [| c cs] eqn:Hc.
  - destruct (users_with st login) as [| x xs] eqn:Hu.
    + destruct H1 as (r1 & st1 & partner & user & -> & Hr1 & Hp1 & He1 & Hc1 & Hu1 & Hl1 & _).
      cbn [fst snd].
      pose proof (create_customer_valid req2 st1 d name email password Hd2 Hvalid) as H2.
      fold login in H2.
      assert (customers_with st1 login = [partner]) as Hc2.
      { unfold customers_with in *. rewrite Hp1, filter_app, Hc.
        by rewrite filter_cons_True. }
      rewrite Hc2 in H2. rewrite H2. cbn [fst snd].
      split_and!; try done; auto.
    + rewrite H1. cbn [fst snd].
      pose proof (create_customer_valid req2
                    (logged "res.users" "search" (logged "res.partner" "search" st))
                    d name email password Hd2 Hvalid) as H2.
      fold login in H2.
      change (customers_with (logged _ _ (logged _ _ st)) login)
        with (customers_with st login) in H2.
      change (users_with (logged _ _ (logged _ _ st)) login)
        with (users_with st login) in H2.
      rewrite Hc, Hu in H2. rewrite H2. cbn [fst snd].
      split_and!; try done; auto.
  - rewrite H1. cbn [fst snd].
    pose proof (create_customer_valid req2 (logged "res.partner" "search" st)
                  d name email password Hd2 Hvalid) as H2.
    fold login in H2.
    change (customers_with (logged _ _ st) login)
      with (customers_with st login) in H2.
    rewrite Hc in H2. rewrite H2. cbn [fst snd].
    split_and!; try done; auto.
Qed.


(** ** Product listing *)

Lemma try_except_raise {A} (m : M A) (caught : PyExc → bool) (h : PyExc → M A)
    (st st' : Store) (e : PyExc) :
  m st = (Raise e, st') →
  try_except m caught h st = if caught e then h e st' else (Raise e, st').
Proof. intros Hm. unfold try_except. by rewrite Hm. Qed.

Lemma product_search_run (domain : list ProductAPIController.DomainItem)
    (limit offset : Z) (st : Store) :
  ProductAPIController.product_search domain limit offset st
  = (search_window limit offset (ProductAPIController.matching domain st),
     logged "product.product" "search" st).
Proof. reflexivity. Qed.

Lemma product_search_count_run (domain : list ProductAPIController.DomainItem)
    (st : Store) :
  ProductAPIController.product_search_count domain st
  = (Return (Z.of_nat (length (ProductAPIController.matching domain st))),
     logged "product.product" "search_count" st).
Proof. reflexivity. Qed.

(** The prefix domain the handler builds means the conjunction of its
    filters. *)
Lemma domain_holds_listed (categ : option Z) (term : option string) (p : Product) :
  ProductAPIController.domain_holds (domain_of categ term) p = listed categ term p.
Proof.
  unfold ProductAPIController.domain_holds, listed, domain_of.
  destruct categ as [c |], term as [t |]; cbn.
  all: destruct (sale_ok p), (active p); cbn; try done.
  all: by rewrite ?andb_true_r.
Qed.

Lemma matching_listed (categ : option Z) (term : option string) (st : Store) :
  ProductAPIController.matching (domain_of categ term) st
  = List.filter (listed categ term) (products st).
Proof.
  unfold ProductAPIController.matching. apply List.filter_ext.
  intros p. apply domain_holds_listed.
Qed.

(** Reading the search term: the two search terms join the domain when the
    trimmed text is not empty. *)
Lemma search_term_run {B} (d : pydict) (term : option string)
    (domain : list ProductAPIController.DomainItem)
    (k : list ProductAPIController.DomainItem → M B) (st : Store) :
  search_filter d term →
  (s ← lift (py_get (PyDict d) "search");
   domain ←
     (if truthy s
      then search_term ← lift (py_item (PyDict d) "search" ≫= py_strip);
           mret (if String.eqb search_term "" then domain
                 else domain ++ [ProductAPIController.OrNext;
                                 ProductAPIController.NameIlike search_term;
                                 ProductAPIController.DefaultCodeIlike search_term])
      else mret domain);
   k domain) st
  = k (domain
       ++ match term with
          | Some t => [ProductAPIController.OrNext; ProductAPIController.NameIlike t;
                       ProductAPIController.DefaultCodeIlike t]
          | None => []
          end) st.
Proof.
  intros Hsearch.
  erewrite bind_run by apply lift_run.
  destruct term as [t |].
  - destruct Hsearch as (s & Hs & Hs' & Hstrip & Hne).
    rewrite Hs. change (default PyNone (Some (PyStr s))) with (PyStr s).
    rewrite (truthy_str s Hs').
    erewrite bind_run
      by (erewrite bind_run by (unfold py_item; rewrite Hs; apply lift_run);
          apply ret_run).
    rewrite Hstrip. by destruct (String.eqb_spec t "").
  - rewrite app_nil_r.
    destruct Hsearch as [Habsent%not_true_is_false | (s & Hs & Hstrip)].
    + unfold present in Habsent. rewrite Habsent.
      by erewrite bind_run by apply ret_run.
    + rewrite Hs. change (default PyNone (Some (PyStr s))) with (PyStr s).
      destruct (truthy (PyStr s)).
      * erewrite bind_run
          by (erewrite bind_run by (unfold py_item; rewrite Hs; apply lift_run);
              apply ret_run).
        by rewrite Hstrip.
      * by erewrite bind_run by apply ret_run.
Qed.

(** Past the filters: what is left of the handler once the payload's
    category and search term are read. *)
Lemma list_products_past_filters (req : Request) (st : Store) (d : pydict)
    (categ : option Z) (term : option string) :
  request_data req = PyDict d →
  category_filter d categ →
  search_filter d term →
  ProductAPIController.list_products_body req st
  = (window ←
       try_except
         (limit ← lift (py_get_default (PyDict d) "limit" (PyInt 20) ≫= py_int);
          offset ← lift (py_get_default (PyDict d) "offset" (PyInt 0) ≫= py_int);
          mret (Some (Z.min limit 100, Z.max offset 0)))
         value_or_type_error
         (λ _, mret None);
     match window with
     | None => mret (error_response "Invalid limit or offset format")
     | Some (limit, offset) =>
         products ← ProductAPIController.product_search (domain_of categ term) limit offset;
         let base_url := str_rstrip "/" (host_url (httprequest req)) in
         st ← get_store;
         let product_list :=
           ProductAPIController.product_data base_url (company_currency st) <$> products in
         total_count ← ProductAPIController.product_search_count (domain_of categ term);
         mret (dict_of [("status", PyStr "success");
                        ("products", PyList product_list);
                        ("total_count", PyInt total_count);
                        ("limit", PyInt limit);
                        ("offset", PyInt offset);
                        ("has_more", PyBool (offset + limit <? total_count))])
     end) st.
Proof.
  intros Hd Hcat Hsearch.
  unfold ProductAPIController.list_products_body.
  rewrite Hd.
  erewrite bind_run by apply lift_run.
  destruct categ as [c |].
  - destruct Hcat as (v & Hv & Htrue & Hint).
    rewrite Hv. change (default PyNone (Some v)) with v. rewrite Htrue.
    erewrite bind_run.
    2:{ apply try_except_run.
        erewrite bind_run
          by (unfold py_item; rewrite Hv; cbn [mbind outcome_bind]; rewrite Hint;
              apply lift_run).
        apply ret_run. }
    cbn beta iota.
    by rewrite (search_term_run d term _ _ _ Hsearch).
  - apply not_true_is_false in Hcat. unfold present in Hcat. rewrite Hcat.
    erewrite bind_run by apply ret_run.
    cbn beta iota.
    by rewrite (search_term_run d term _ _ _ Hsearch).
Qed.

(** The run of a listing with readable filters and window. *)
Lemma list_products_body_run (req : Request) (st : Store) (d : pydict)
    (categ : option Z) (term : option string) (l o : Z) :
  request_data req = PyDict d →
  category_filter d categ →
  search_filter d term →
  py_int (default (PyInt 20) (d !! "limit")) = Return l →
  py_int (default (PyInt 0) (d !! "offset")) = Return o →
  ProductAPIController.list_products_body req st
  = match search_window (Z.min l 100) (Z.max o 0)
            (List.filter (listed categ term) (products st)) with
    | Return ps =>
        (Return
           (dict_of
              [("status", PyStr "success");
               ("products",
                 PyList (ProductAPIController.product_data
                           (str_rstrip "/" (host_url (httprequest req)))
                           (company_currency st) <$> ps));
               ("total_count",
                 PyInt (Z.of_nat (length (List.filter (listed categ term) (products st)))));
               ("limit", PyInt (Z.min l 100));
               ("offset", PyInt (Z.max o 0));
               ("has_more",
                 PyBool (Z.max o 0 + Z.min l 100
                         <? Z.of_nat (length (List.filter (listed categ term)
                                                (products st)))))]),
         logged "product.product" "search_count" (logged "product.product" "search" st))
    | Raise e => (Raise e, logged "product.product" "search" st)
    end.
Proof.
  intros Hd Hcat Hsearch Hl Ho.
  rewrite (list_products_past_filters req st d categ term Hd Hcat Hsearch).
  erewrite bind_run.
  2:{ apply try_except_run.
      erewrite bind_run
        by (unfold py_get_default; cbn [mbind outcome_bind]; rewrite Hl; apply lift_run).
      erewrite bind_run
        by (unfold py_get_default; cbn [mbind outcome_bind]; rewrite Ho; apply lift_run).
      apply ret_run. }
  cbn beta iota.
  destruct (search_window (Z.min l 100) (Z.max o 0)
              (List.filter (listed categ term) (products st))) as [ps | e] eqn:Hwin.
  - erewrite bind_run
      by (rewrite product_search_run, matching_listed, Hwin; reflexivity).
    erewrite bind_run by apply get_store_run.
    erewrite bind_run by apply product_search_count_run.
    by rewrite matching_listed.
  - by erewrite bind_raise
      by (rewrite product_search_run, matching_listed, Hwin; reflexivity).
Qed.

(** A window that does not convert. *)
Lemma list_products_body_window_raise (req : Request) (st : Store) (d : pydict)
    (categ : option Z) (term : option string) (e : PyExc) :
  request_data req = PyDict d →
  category_filter d categ →
  search_filter d term →
  py_int (default (PyInt 20) (d !! "limit")) = Raise e
  ∨ (∃ l, py_int (default (PyInt 20) (d !! "limit")) = Return l)
    ∧ py_int (default (PyInt 0) (d !! "offset")) = Raise e →
  ProductAPIController.list_products_body req st
  = (if value_or_type_error e
     then Return (error_response "Invalid limit or offset format")
     else Raise e, st).
Proof.
  intros Hd Hcat Hsearch Hbad.
  rewrite (list_products_past_filters req st d categ term Hd Hcat Hsearch).
  assert (try_except
            (limit ← lift (py_get_default (PyDict d) "limit" (PyInt 20) ≫= py_int);
             offset ← lift (py_get_default (PyDict d) "offset" (PyInt 0) ≫= py_int);
             mret (Some (Z.min limit 100, Z.max offset 0)))
            value_or_type_error (λ _, mret None) st
          = if value_or_type_error e then (Return None, st) else (Raise e, st)) as Htry.
  { erewrite (try_except_raise _ _ _ st st e); [reflexivity |].
    destruct Hbad as [Hl | [[l Hl] Ho]].
    - apply bind_raise. unfold py_get_default. cbn [mbind outcome_bind].
      rewrite Hl. apply lift_run.
    - erewrite bind_run
        by (unfold py_get_default; cbn [mbind outcome_bind]; rewrite Hl; apply lift_run).
      apply bind_raise. unfold py_get_default. cbn [mbind outcome_bind].
      rewrite Ho. apply lift_run. }
  destruct (value_or_type_error e).
  - by erewrite bind_run by apply Htry.
  - by erewrite bind_raise by apply Htry.
Qed.

(** A category that does not convert. *)
Lemma list_products_body_category_raise (req : Request) (st : Store) (d : pydict)
    (v : PyVal) (e : PyExc) :
  request_data req = PyDict d →
  d !! "category_id" = Some v →
  truthy v = true →
  py_int v = Raise e →
  ProductAPIController.list_products_body req st
  = (if value_or_type_error e
     then Return (error_response "Invalid category_id format")
     else Raise e, st).
Proof.
  intros Hd Hv Htrue Hint.
  unfold ProductAPIController.list_products_body.
  rewrite Hd.
  erewrite bind_run by apply lift_run.
  rewrite Hv. change (default PyNone (Some v)) with v. rewrite Htrue.
  assert (∀ h : PyExc → M (pydict + list ProductAPIController.DomainItem),
            try_except
              (category_id ← lift (py_item (PyDict d) "category_id" ≫= py_int);
               mret (inr ([ProductAPIController.SaleOkIs true;
                           ProductAPIController.ActiveIs true]
                          ++ [ProductAPIController.CategIdIs category_id])))
              value_or_type_error h st
            = if value_or_type_error e then h e st else (Raise e, st)) as Htry.
  { intros h. apply try_except_raise. apply bind_raise.
    unfold py_item. rewrite Hv. cbn [mbind outcome_bind]. rewrite Hint.
    apply lift_run. }
  destruct (value_or_type_error e).
  - by erewrite bind_run by (rewrite Htry; apply ret_run).
  - by erewrite bind_raise by apply Htry.
Qed.

(** A search entry that is not text. *)
Lemma list_products_body_search_not_text (req : Request) (st : Store) (d : pydict)
    (categ : option Z) (v : PyVal) :
  request_data req = PyDict d →
  category_filter d categ →
  d !! "search" = Some v →
  truthy v = true →
  (∀ s, v ≠ PyStr s) →
  ProductAPIController.list_products_body req st = (Raise AttributeError, st).
Proof.
  intros Hd Hcat Hv Htrue Hnot.
  unfold ProductAPIController.list_products_body.
  rewrite Hd.
  erewrite bind_run by apply lift_run.
  assert (∀ (domain : list ProductAPIController.DomainItem)
            (k : list ProductAPIController.DomainItem → M pydict),
            (s ← lift (py_get (PyDict d) "search");
             domain ←
               (if truthy s
                then search_term ← lift (py_item (PyDict d) "search" ≫= py_strip);
                     mret (if String.eqb search_term "" then domain
                           else domain ++ [ProductAPIController.OrNext;
                                           ProductAPIController.NameIlike search_term;
                                           ProductAPIController.DefaultCodeIlike search_term])
                else mret domain);
             k domain) st
            = (Raise AttributeError, st)) as Hsearch.
  { intros domain k.
    erewrite bind_run by apply lift_run.
    rewrite Hv. change (default PyNone (Some v)) with v. rewrite Htrue.
    apply bind_raise, bind_raise. unfold py_item. rewrite Hv.
    destruct v; try done. by destruct (Hnot s). }
  destruct categ as [c |].
  - destruct Hcat as (w & Hw & Hwtrue & Hint).
    rewrite Hw. change (default PyNone (Some w)) with w. rewrite Hwtrue.
    erewrite bind_run.
    2:{ apply try_except_run.
        erewrite bind_run
          by (unfold py_item; rewrite Hw; cbn [mbind outcome_bind]; rewrite Hint;
              apply lift_run).
        apply ret_run. }
    cbn beta iota. by rewrite Hsearch.
  - apply not_true_is_false in Hcat. unfold present in Hcat. rewrite Hcat.
    erewrite bind_run by apply ret_run.
    cbn beta iota. by rewrite Hsearch.
Qed.

(** A payload that is not an object. *)
Lemma list_products_body_not_object (req : Request) (st : Store) :
  (∀ d, request_data req ≠ PyDict d) →
  ProductAPIController.list_products_body req st = (Raise AttributeError, st).
Proof.
  intros Hnot. unfold ProductAPIController.list_products_body.
  apply bind_raise. unfold py_get, py_get_default.
  destruct (request_data req) as [| | | | | | d]; try done.
  by destruct (Hnot d).
Qed.

Lemma category_filter_cases (d : pydict) :
  (∃ categ, category_filter d categ)
  ∨ ∃ v e, d !! "category_id" = Some v ∧ truthy v = true ∧ py_int v = Raise e.
Proof.
  destruct (truthy (default PyNone (d !! "category_id"))) eqn:Htrue.
  - destruct (d !! "category_id") as [v |] eqn:Hv; [| done].
    change (default PyNone (Some v)) with v in Htrue.
    destruct (py_int v) as [c | e] eqn:Hint.
    + left. exists (Some c), v. by split_and!.
    + right. by exists v, e.
  - left. exists None. unfold category_filter, present. by rewrite Htrue.
Qed.

Lemma search_filter_cases (d : pydict) :
  (∃ term, search_filter d term)
  ∨ ∃ v, d !! "search" = Some v ∧ truthy v = true ∧ ∀ s, v ≠ PyStr s.
Proof.
  destruct (truthy (default PyNone (d !! "search"))) eqn:Htrue.
  - destruct (d !! "search") as [v |] eqn:Hv; [| done].
    change (default PyNone (Some v)) with v in Htrue.
    destruct v as [| | | | s | |];
      try (right; eexists; split_and!; [done | done | by intros s0]).
    left. destruct (String.eqb_spec (str_strip s) "") as [Hblank | Hterm].
    + exists None. right. by exists s.
    + exists (Some (str_strip s)), s. split_and!; try done.
      intros ->. by cbn in Htrue.
  - left. exists None. left. unfold present. by rewrite Htrue.
Qed.

Lemma error_not_success (message : string) :
  error_response message !! "status" ≠ Some (PyStr "success").
Proof. unfold error_response. cbn. by rewrite lookup_insert_eq. Qed.

(** Only a listing with readable filters and window, whose search returns,
    succeeds. *)
Lemma list_products_success_only (req : Request) (st : Store) :
  (ProductAPIController.list_products req st).1 !! "status" = Some (PyStr "success") →
  ∃ L O N, listing_of req st L O N.
Proof.
  unfold ProductAPIController.list_products, handle.
  intros Hs.
  assert ((∃ d, request_data req = PyDict d) ∨ ∀ d, request_data req ≠ PyDict d)
    as [[d Hd] | Hnot].
  { destruct (request_data req); eauto. }
  2:{ rewrite (list_products_body_not_object req st Hnot) in Hs.
      by apply error_not_success in Hs. }
  destruct (category_filter_cases d) as [[categ Hcat] | (v & e & Hv & Htrue & Hint)].
  2:{ rewrite (list_products_body_category_raise req st d v e Hd Hv Htrue Hint) in Hs.
      destruct (value_or_type_error e); by apply error_not_success in Hs. }
  destruct (search_filter_cases d) as [[term Hsearch] | (v & Hv & Htrue & Hnot)].
  2:{ rewrite (list_products_body_search_not_text req st d categ v Hd Hcat Hv Htrue Hnot)
        in Hs.
      by apply error_not_success in Hs. }
  destruct (py_int (default (PyInt 20) (d !! "limit"))) as [l | e] eqn:Hl.
  2:{ rewrite (list_products_body_window_raise req st d categ term e Hd Hcat Hsearch)
        in Hs by (by left).
      destruct (value_or_type_error e); by apply error_not_success in Hs. }
  destruct (py_int (default (PyInt 0) (d !! "offset"))) as [o | e] eqn:Ho.
  2:{ rewrite (list_products_body_window_raise req st d categ term e Hd Hcat Hsearch)
        in Hs by (right; eauto).
      destruct (value_or_type_error e); by apply error_not_success in Hs. }
  rewrite (list_products_body_run req st d categ term l o Hd Hcat Hsearch Hl Ho) in Hs.
  destruct (search_window (Z.min l 100) (Z.max o 0)
              (List.filter (listed categ term) (products st))) as [ps | e] eqn:Hwin.
  2:{ by apply error_not_success in Hs. }
  eexists _, _, _. exists d, categ, term, l, o, ps. by split_and!.
Qed.

(** C6: for a listing request with effective limit L (the limit asked for,
    20 by default, capped at 100), offset O (the offset asked for, 0 by
    default, raised to 0) and N products matching its filters in the store,
    the response is a success that reports L, O and N, and its flag
    [has_more] is true exactly when O + L < N; at O = 0 and L = N it is
    false. Every successful listing is of this kind. *)
Theorem list_products_has_more (req : Request) (st : Store) :
  (∀ L O N : Z,
     listing_of req st L O N →
     (ProductAPIController.list_products req st).1 !! "status" = Some (PyStr "success") ∧
     (ProductAPIController.list_products req st).1 !! "limit" = Some (PyInt L) ∧
     (ProductAPIController.list_products req st).1 !! "offset" = Some (PyInt O) ∧
     (ProductAPIController.list_products req st).1 !! "total_count" = Some (PyInt N) ∧
     L ≤ 100 ∧ 0 ≤ O ∧ 0 ≤ N ∧
     ∃ b : bool,
       (ProductAPIController.list_products req st).1 !! "has_more" = Some (PyBool b) ∧
       (b = true ↔ O + L < N) ∧
       (O = 0 → L = N → b = false)) ∧
  ((ProductAPIController.list_products req st).1 !! "status" = Some (PyStr "success") →
   ∃ L O N : Z, listing_of req st L O N).
Proof.
  split; [| apply list_products_success_only].
  intros L O N (d & categ & term & l & o & ps & Hd & Hcat & Hsearch & Hl & Ho
                & -> & -> & -> & Hwin).
  unfold ProductAPIController.list_products, handle.
  rewrite (list_products_body_run req st d categ term l o Hd Hcat Hsearch Hl Ho), Hwin.
  cbn [fst].
  split_and!; try reflexivity; try lia.
  eexists. split_and!; [reflexivity | apply Z.ltb_lt |].
  intros HO HL. apply Z.ltb_ge. lia.
Qed.

(** ** What add-to-cart rejects *)

(** A logged-in request gets past the gate with one lookup logged. *)
Lemma add_to_cart_past_gate (req : Request) (st : Store) (u : Z) (d : pydict) :
  logged_in req st u →
  request_data req = PyDict d →
  CartAPIController.add_to_cart req st
  = handle
      (let data := PyDict d in
       pid ← lift (py_get data "product_id");
       if negb (truthy pid) then mret (error_response "Product ID is required")
       else
         parsed ←
           try_except
             (product_id ← lift (py_item data "product_id" ≫= py_int);
              quantity ← lift (py_get_default data "quantity" (PyInt 1) ≫= py_float);
              mret (Some (product_id, quantity)))
             value_or_type_error
             (λ _, mret None);
         match parsed with
         | None => mret (error_response "Invalid product_id or quantity format")
         | Some (product_id, quantity) =>
             if PrimFloat.leb quantity 0%float
             then mret (error_response "Quantity must be greater than 0")
             else
               user ← CartAPIController.env_user req;
               let partner := user_partner user in
               product ← product_browse product_id;
               match product with
               | None => mret (error_response "Product not found or not available for sale")
               | Some product =>
                   if negb (sale_ok product) || negb (active product)
                   then mret (error_response "Product not found or not available for sale")
                   else
                     cart ← CartAPIController._get_or_create_cart req partner;
                     cart_lines ← order_line (order_id cart);
                     let existing_line :=
                       filter (λ l, line_product l = product_id) cart_lines in
                     match existing_line with
                     | l0 :: _ =>
                         sale_order_line_write_qty (line_id l0)
                           (PrimFloat.add (product_uom_qty l0) quantity)
                     | [] =>
                         sale_order_line_create (order_id cart) product_id quantity;;
                         mret tt
                     end;;
                     _amount_all (now req) (order_id cart);;
                     cart' ← sale_order_read (order_id cart);
                     cart_lines' ← order_line (order_id cart);
                     mret (dict_of [("status", PyStr "success");
                                    ("message", PyStr "Product added to cart successfully");
                                    ("cart_id", PyInt (order_id cart));
                                    ("cart_total", PyFloat (amount_total cart'));
                                    ("cart_items_count", PyInt (Z.of_nat (length cart_lines')));
                                    ("product_name", PyStr (product_name product))])
               end
         end)
      (λ _, error_response "Failed to add product to cart")
      (logged "ir.model.data" "base.public_user" st).
Proof.
  intros Hin Hd.
  unfold CartAPIController.add_to_cart, handle,
    CartAPIController.add_to_cart_body.
  erewrite bind_run by (by eapply authenticate_session_logged_in).
  cbn [negb]. by rewrite Hd.
Qed.

(** X1: a logged-in request whose [product_id] is absent or false (null, 0,
    the empty string) is answered "Product ID is required" before any record
    is read. *)
Theorem add_to_cart_requires_product_id (req : Request) (st : Store) (u : Z)
    (d : pydict) :
  logged_in req st u →
  request_data req = PyDict d →
  ¬ present d "product_id" →
  (CartAPIController.add_to_cart req st).1 = error_response "Product ID is required" ∧
  touches_no_record st (CartAPIController.add_to_cart req st).2.
Proof.
  intros Hin Hd Hpid.
  rewrite (add_to_cart_past_gate req st u d Hin Hd).
  unfold handle. cbn zeta.
  erewrite bind_run by apply lift_run.
  unfold present in Hpid.
  destruct (truthy (default PyNone (d !! "product_id"))); [done |].
  cbn. split; [done | apply touches_no_record_ref].
Qed.

(** X2: when [int(product_id)] or [float(quantity)] raises, the answer is
    "Invalid product_id or quantity format" for a ValueError or TypeError and
    "Failed to add product to cart" for any other exception (the
    OverflowError of an infinite or too large number); no record is read. *)
Theorem add_to_cart_rejects_bad_format (req : Request) (st : Store) (u : Z)
    (d : pydict) (v : PyVal) (e : PyExc) :
  logged_in req st u →
  request_data req = PyDict d →
  d !! "product_id" = Some v → truthy v = true →
  (py_int v = Raise e ∨
   (∃ p, py_int v = Return p) ∧
   py_float (default (PyInt 1) (d !! "quantity")) = Raise e) →
  (CartAPIController.add_to_cart req st).1
  = error_response (if value_or_type_error e
                    then "Invalid product_id or quantity format"
                    else "Failed to add product to cart") ∧
  touches_no_record st (CartAPIController.add_to_cart req st).2.
Proof.
  intros Hin Hd Hv Htrue Hraise.
  rewrite (add_to_cart_past_gate req st u d Hin Hd).
  unfold handle. cbn zeta.
  erewrite bind_run by apply lift_run.
  rewrite Hv. change (default PyNone (Some v)) with v. rewrite Htrue. cbn [negb].
  unfold py_item, py_get_default. rewrite Hv.
  assert ((product_id ← lift (Return v ≫= py_int);
           quantity ← lift (Return (default (PyInt 1) (d !! "quantity")) ≫= py_float);
           (mret (Some (product_id, quantity)) : M (option (Z * float))))
            (logged "ir.model.data" "base.public_user" st)
          = (Raise e, logged "ir.model.data" "base.public_user" st)) as Hparse.
  { destruct Hraise as [Hint | [[p Hint] Hfloat]].
    - erewrite bind_raise; [reflexivity |].
      cbn [mbind outcome_bind]. rewrite Hint. apply lift_run.
    - erewrite bind_run by (cbn [mbind outcome_bind]; rewrite Hint; apply lift_run).
      erewrite bind_raise; [reflexivity |].
      cbn [mbind outcome_bind]. rewrite Hfloat. apply lift_run. }
  pose proof (try_except_raise _ value_or_type_error (λ _, mret None) _ _ _ Hparse)
    as Htry.
  destruct (value_or_type_error e).
  - erewrite bind_run by apply Htry.
    split; [done | apply touches_no_record_ref].
  - erewrite bind_raise by apply Htry.
    split; [done | apply touches_no_record_ref].
Qed.

(** The payload parses to product [p] and quantity [q]. *)
Lemma add_to_cart_parsed (req : Request) (st : Store) (u : Z) (d : pydict)
    (v : PyVal) (p : Z) (q : float) :
  logged_in req st u →
  request_data req = PyDict d →
  d !! "product_id" = Some v → truthy v = true → py_int v = Return p →
  py_float (default (PyInt 1) (d !! "quantity")) = Return q →
  CartAPIController.add_to_cart req st
  = handle
      (if PrimFloat.leb q 0%float
       then mret (error_response "Quantity must be greater than 0")
       else
         user ← CartAPIController.env_user req;
         let partner := user_partner user in
         product ← product_browse p;
         match product with
         | None => mret (error_response "Product not found or not available for sale")
         | Some product =>
             if negb (sale_ok product) || negb (active product)
             then mret (error_response "Product not found or not available for sale")
             else
               cart ← CartAPIController._get_or_create_cart req partner;
               cart_lines ← order_line (order_id cart);
               let existing_line := filter (λ l, line_product l = p) cart_lines in
               match existing_line with
               | l0 :: _ =>
                   sale_order_line_write_qty (line_id l0)
                     (PrimFloat.add (product_uom_qty l0) q)
               | [] =>
                   sale_order_line_create (order_id cart) p q;;
                   mret tt
               end;;
               _amount_all (now req) (order_id cart);;
               cart' ← sale_order_read (order_id cart);
               cart_lines' ← order_line (order_id cart);
               mret (dict_of [("status", PyStr "success");
                              ("message", PyStr "Product added to cart successfully");
                              ("cart_id", PyInt (order_id cart));
                              ("cart_total", PyFloat (amount_total cart'));
                              ("cart_items_count", PyInt (Z.of_nat (length cart_lines')));
                              ("product_name", PyStr (product_name product))])
         end)
      (λ _, error_response "Failed to add product to cart")
      (logged "ir.model.data" "base.public_user" st).
Proof.
  intros Hin Hd Hv Htrue Hint Hfloat.
  rewrite (add_to_cart_past_gate req st u d Hin Hd).
  unfold handle. cbn zeta.
  erewrite bind_run by apply lift_run.
  rewrite Hv. change (default PyNone (Some v)) with v. rewrite Htrue. cbn [negb].
  erewrite bind_run;
    [| apply try_except_run;
       erewrite bind_run
         by (rewrite (parse_product_id d v p Hv Hint); apply lift_run);
       erewrite bind_run
         by (unfold py_get_default; cbn [mbind outcome_bind];
             rewrite Hfloat; apply lift_run);
       apply ret_run ].
  reflexivity.
Qed.

(** X3: a quantity that converts to a float not above zero ([q <= 0] holds)
    is answered "Quantity must be greater than 0" before any record is
    read. *)
Theorem add_to_cart_rejects_quantity (req : Request) (st : Store) (u : Z)
    (d : pydict) (v : PyVal) (p : Z) (q : float) :
  logged_in req st u →
  request_data req = PyDict d →
  d !! "product_id" = Some v → truthy v = true → py_int v = Return p →
  py_float (default (PyInt 1) (d !! "quantity")) = Return q →
  PrimFloat.leb q 0%float = true →
  (CartAPIController.add_to_cart req st).1
  = error_response "Quantity must be greater than 0" ∧
  touches_no_record st (CartAPIController.add_to_cart req st).2.
Proof.
  intros Hin Hd Hv Htrue Hint Hfloat Hneg.
  rewrite (add_to_cart_parsed req st u d v p q Hin Hd Hv Htrue Hint Hfloat).
  unfold handle. rewrite Hneg. cbn.
  split; [done | apply touches_no_record_ref].
Qed.

(** X4: a request for a product that does not exist, is not for sale or is
    archived is answered "Product not found or not available for sale"; the
    product is checked before the cart is resolved, so no cart is created and
    no table changes. *)
Theorem add_to_cart_rejects_unsellable (req : Request) (st : Store) (u : Z)
    (user : User) (p : Z) (q : float) :
  logged_in req st u →
  user_of st u = Some user →
  asks_for req p q →
  (∀ product, ¬ sellable st p product) →
  (CartAPIController.add_to_cart req st).1
  = error_response "Product not found or not available for sale" ∧
  records (CartAPIController.add_to_cart req st).2 = records st.
Proof.
  intros Hin Huser (d & v & Hd & Hv & Htrue & Hint & Hfloat & Hpos) Hno.
  rewrite (add_to_cart_parsed req st u d v p q Hin Hd Hv Htrue Hint Hfloat).
  unfold handle. rewrite Hpos.
  erewrite bind_run by (by eapply env_user_run).
  erewrite bind_run by apply product_browse_run.
  change (product_of (logged _ _ (logged _ _ st)) p) with (product_of st p).
  destruct (product_of st p) as [product |] eqn:Hp; [| done].
  destruct (sale_ok product) eqn:Hs, (active product) eqn:Ha; try done.
  exfalso. by apply (Hno product).
Qed.

(** ** What an accepted add-to-cart answers *)

Lemma sale_order_read_head (id : Z) (st : Store) :
  sale_order_read id st
  = (match head (filter (λ o, order_id o = id) (orders st)) with
     | Some o => Return o
     | None => Raise MissingError
     end, logged "sale.order" "read" st).
Proof.
  unfold sale_order_read.
  erewrite bind_run by apply log_call_run.
  erewrite bind_run by apply get_store_run.
  change (orders (logged _ _ st)) with (orders st).
  by destruct (filter (λ o, order_id o = id) (orders st)).
Qed.

Lemma head_filter_written (time cid : Z) (a : float * float * float)
    (l : list Order) (c : Order) :
  c ∈ l → order_id c = cid →
  ∃ o, head (filter (λ o, order_id o = cid) (write_amounts time cid a <$> l)) = Some o
       ∧ amount_total o = a.2.
Proof.
  intros Hc Hid. induction l as [| x l IH]; [by apply elem_of_nil in Hc |].
  rewrite fmap_cons. destruct (decide (order_id x = cid)) as [Hx | Hx].
  - rewrite filter_cons_True by (by rewrite write_amounts_id).
    eexists. split; [done |]. unfold write_amounts. by rewrite decide_True.
  - rewrite filter_cons_False by (by rewrite write_amounts_id).
    apply elem_of_cons in Hc as [-> | Hc]; [done |]. by apply IH.
Qed.

(** The totals step writes the total of the cart's lines, and the response
    reads it back. *)
Lemma cart_totals_written (time cid : Z) (k : Order → list Line → pydict)
    (st : Store) (c : Order) :
  c ∈ orders st → order_id c = cid →
  ∃ cart',
    amount_total cart' = (compute_order_amounts (lines_of cid st)).2 ∧
    (_amount_all time cid ≫= λ _,
       sale_order_read cid ≫= λ cart',
         order_line cid ≫= λ cart_lines', mret (k cart' cart_lines')) st
    = (Return (k cart' (lines_of cid st)),
       logged "sale.order.line" "read"
         (logged "sale.order" "read"
            (set_orders
               (fmap (write_amounts time cid (compute_order_amounts (lines_of cid st))))
               (logged "sale.order" "_amount_all" st)))).
Proof.
  intros Hc Hid.
  destruct (head_filter_written time cid
              (compute_order_amounts (lines_of cid st)) (orders st) c Hc Hid)
    as (cart' & Hhead & Htotal).
  exists cart'. split; [done |].
  erewrite bind_run by apply amount_all_run.
  erewrite bind_run.
  2:{ rewrite sale_order_read_head. cbn [orders set_orders].
      change (orders (logged _ _ st)) with (orders st). by rewrite Hhead. }
  erewrite bind_run by apply order_line_run.
  reflexivity.
Qed.

(** The run of an accepted request: the answer and what the order table
    holds afterwards. *)
Lemma add_to_cart_run (req : Request) (st : Store) (u : Z) (user : User)
    (p : Z) (q : float) (product : Product) :
  logged_in req st u →
  user_of st u = Some user →
  asks_for req p q →
  sellable st p product →
  ∃ st' : Store,
    CartAPIController.add_to_cart req st
    = (dict_of
         [("status", PyStr "success");
          ("message", PyStr "Product added to cart successfully");
          ("cart_id", PyInt (cart_id_for (user_partner user) st));
          ("cart_total",
            PyFloat (compute_order_amounts
                       (lines_of (cart_id_for (user_partner user) st) st')).2);
          ("cart_items_count",
            PyInt (Z.of_nat (length (lines_of (cart_id_for (user_partner user) st) st'))));
          ("product_name", PyStr (product_name product))], st') ∧
    ∀ o, o ∈ orders st' →
         order_id o = cart_id_for (user_partner user) st →
         amount_total o
         = (compute_order_amounts (lines_of (cart_id_for (user_partner user) st) st')).2
         ∧ write_date o = now req.
Proof.
  intros Hin Huser (d & v & Hd & Hv & Htrue & Hint & Hfloat & Hpos)
    (Hprod & Hsale & Hactive).
  rewrite (add_to_cart_parsed req st u d v p q Hin Hd Hv Htrue Hint Hfloat).
  unfold handle. rewrite Hpos.
  erewrite bind_run by (by eapply env_user_run).
  erewrite bind_run by apply product_browse_run.
  change (product_of (logged _ _ (logged _ _ st)) p) with (product_of st p).
  rewrite Hprod, Hsale, Hactive. cbn [negb orb].
  set (st3 := logged "product.product" "exists" _).
  destruct (get_or_create_cart_id req (user_partner user) st3)
    as (c & st4 & Hcart & Hcid & Hpa & Hus & Hpr & Hpu & Hli & Hor & Hc).
  change (cart_id_for (user_partner user) st3)
    with (cart_id_for (user_partner user) st) in *.
  erewrite bind_run by apply Hcart.
  erewrite bind_run by apply order_line_run.
  rewrite Hcid.
  set (cid := cart_id_for (user_partner user) st) in *.
  set (response := λ (cart' : Order) (cart_lines' : list Line),
         dict_of [("status", PyStr "success");
                  ("message", PyStr "Product added to cart successfully");
                  ("cart_id", PyInt cid);
                  ("cart_total", PyFloat (amount_total cart'));
                  ("cart_items_count", PyInt (Z.of_nat (length cart_lines')));
                  ("product_name", PyStr (product_name product))]).
  assert (∀ st5 : Store,
            orders st5 = orders st4 →
            ∃ cart',
              amount_total cart' = (compute_order_amounts (lines_of cid st5)).2 ∧
              (_amount_all (now req) cid ≫= λ _,
                 sale_order_read cid ≫= λ cart',
                   order_line cid ≫= λ cart_lines', mret (response cart' cart_lines')) st5
              = (Return (response cart' (lines_of cid st5)),
                 logged "sale.order.line" "read"
                   (logged "sale.order" "read"
                      (set_orders
                         (fmap (write_amounts (now req) cid
                                  (compute_order_amounts (lines_of cid st5))))
                         (logged "sale.order" "_amount_all" st5))))) as Htail.
  { intros st5 Ho. apply (cart_totals_written _ _ _ _ c); [by rewrite Ho | done]. }
  subst response. cbn beta in Htail.
  assert (∀ (st5 : Store) (a : float * float * float) o,
            o ∈ write_amounts (now req) cid a <$> orders st5 →
            order_id o = cid → amount_total o = a.2 ∧ write_date o = now req)
    as Hwritten.
  { intros st5 a o (x & -> & Hx)%list_elem_of_fmap Hid.
    rewrite write_amounts_id in Hid. unfold write_amounts.
    by rewrite decide_True. }
  destruct (filter (λ l, line_product l = p) (lines_of cid st4)) as [| l0 ls0].
  - assert (product_of (logged "sale.order.line" "read" st4) p = Some product)
      as Hprod4 by (unfold product_of in *; cbn; by rewrite Hpr).
    erewrite bind_run
      by (erewrite bind_run by (by apply sale_order_line_create_run);
          apply ret_run).
    set (st5 := set_lines _ _).
    destruct (Htail st5 eq_refl) as (cart' & Htotal & ->).
    rewrite Htotal.
    match goal with |- ∃ _, (_, ?s) = _ ∧ _ => exists s end.
    split; [done |]. intros o Ho. by apply (Hwritten st5).
  - erewrite bind_run by apply sale_order_line_write_qty_run.
    set (st5 := set_lines _ _).
    destruct (Htail st5 eq_refl) as (cart' & Htotal & ->).
    rewrite Htotal.
    match goal with |- ∃ _, (_, ?s) = _ ∧ _ => exists s end.
    split; [done |]. intros o Ho. by apply (Hwritten st5).
Qed.
(** X5: the response of an accepted request reports the cart as the store
    has it afterwards: the id of the customer's cart, the number of lines of
    that cart, and the total the pricing engine computes from those lines;
    and that total is what every order record of the cart's id now holds. *)
Theorem add_to_cart_response (req : Request) (st : Store) (u : Z) (user : User)
    (p : Z) (q : float) (product : Product) :
  logged_in req st u →
  user_of st u = Some user →
  asks_for req p q →
  sellable st p product →
  (CartAPIController.add_to_cart req st).1
  = dict_of
      [("status", PyStr "success");
       ("message", PyStr "Product added to cart successfully");
       ("cart_id", PyInt (cart_id_for (user_partner user) st));
       ("cart_total",
         PyFloat (compute_order_amounts
                    (lines_of (cart_id_for (user_partner user) st)
                       (CartAPIController.add_to_cart req st).2)).2);
       ("cart_items_count",
         PyInt (Z.of_nat (length (lines_of (cart_id_for (user_partner user) st)
                                    (CartAPIController.add_to_cart req st).2))));
       ("product_name", PyStr (product_name product))] ∧
  ∀ o, o ∈ orders (CartAPIController.add_to_cart req st).2 →
       order_id o = cart_id_for (user_partner user) st →
       amount_total o
       = (compute_order_amounts
            (lines_of (cart_id_for (user_partner user) st)
               (CartAPIController.add_to_cart req st).2)).2
       ∧ write_date o = now req.
Proof.
  intros Hin Huser Hask Hsell.
  destruct (add_to_cart_run req st u user p q product Hin Huser Hask Hsell)
    as (st' & -> & Hwritten).
  done.
Qed.

(** ** What an accepted add-to-cart leaves alone *)




Lemma draft_orders_written (time partner cid : Z) (a : float * float * float)
    (st st' : Store) (extra : list Order) :
  (∀ o, o ∈ extra → order_partner o = partner ∧ state o = "draft") →
  orders st' = write_amounts time cid a <$> (orders st ++ extra) →
  draft_orders partner st'
  = write_amounts time cid a <$> (draft_orders partner st ++ extra).
Proof.
  intros Hextra Horders. unfold draft_orders. rewrite Horders.
  rewrite filter_fmap_commute.
  - f_equal. rewrite filter_app. f_equal.
    clear Horders. induction extra as [| x xs IH]; [done |].
    rewrite filter_cons_True by (apply Hextra, list_elem_of_here).
    f_equal. apply IH. intros o Ho. apply Hextra. by apply list_elem_of_further.
  - intros o. unfold write_amounts.
    by destruct (decide (order_id o = cid)).
Qed.

Lemma draft_orders_after_add (time partner : Z) (a : float * float * float)
    (st st' : Store) :
  orders st'
  = write_amounts time (cart_id_for partner st) a
    <$> (orders st
         ++ match most_recent (draft_orders partner st) with
            | Some _ => []
            | None => [new_order time partner "draft" st]
            end) →
  draft_orders partner st'
  = write_amounts time (cart_id_for partner st) a
    <$> (draft_orders partner st
         ++ match most_recent (draft_orders partner st) with
            | Some _ => []
            | None => [new_order time partner "draft" st]
            end).
Proof.
  apply draft_orders_written. intros o Ho.
  destruct (most_recent (draft_orders partner st)); [by apply elem_of_nil in Ho |].
  by apply list_elem_of_singleton in Ho as ->.
Qed.

Lemma draft_orders_after_add_nonempty (time partner : Z) (a : float * float * float)
    (st st' : Store) :
  orders st'
  = write_amounts time (cart_id_for partner st) a
    <$> (orders st
         ++ match most_recent (draft_orders partner st) with
            | Some _ => []
            | None => [new_order time partner "draft" st]
            end) →
  draft_orders partner st' ≠ [].
Proof.
  intros Horders. rewrite (draft_orders_after_add _ _ _ _ _ Horders).
  intros Hnil%(f_equal length). rewrite length_fmap, length_app in Hnil.
  destruct (most_recent (draft_orders partner st)) as [c |] eqn:Hc.
  - apply most_recent_in in Hc.
    destruct (draft_orders partner st); [by apply elem_of_nil in Hc |].
    cbn in Hnil. lia.
  - cbn in Hnil. lia.
Qed.

(** X7: an accepted request creates a cart only for a customer without
    draft order: the order table then grows by exactly one draft order of
    that customer, and otherwise keeps its size; afterwards the customer has
    a draft order, so a further request creates none. *)
Theorem add_to_cart_creates_cart_once (req : Request) (st : Store) (u : Z)
    (user : User) (p : Z) (q : float) (product : Product) :
  logged_in req st u →
  user_of st u = Some user →
  asks_for req p q →
  sellable st p product →
  (draft_orders (user_partner user) st ≠ [] →
     length (orders (CartAPIController.add_to_cart req st).2) = length (orders st)) ∧
  (draft_orders (user_partner user) st = [] →
     length (orders (CartAPIController.add_to_cart req st).2) = S (length (orders st)) ∧
     length (draft_orders (user_partner user) (CartAPIController.add_to_cart req st).2)
     = 1%nat) ∧
  draft_orders (user_partner user) (CartAPIController.add_to_cart req st).2 ≠ [].
Proof.
  intros Hin Huser Hask Hsell.
  destruct (add_to_cart_accepts req st u user p q product Hin Huser Hask Hsell)
    as (r & st' & a & Hrun & _ & _ & _ & _ & _ & _ & _ & Horders & _).
  rewrite Hrun. cbn [snd].
  set (cid := cart_id_for (user_partner user) st) in *.
  pose proof (draft_orders_after_add _ _ _ _ _ Horders) as Hdraft.
  fold cid in Hdraft.
  rewrite Hdraft, Horders, !length_fmap, !length_app.
  destruct (most_recent (draft_orders (user_partner user) st)) as [c |] eqn:Hc.
  - apply most_recent_in in Hc.
    destruct (draft_orders (user_partner user) st) as [| x xs] eqn:Hd;
      [by apply elem_of_nil in Hc |].
    split_and!; [cbn; lia | done |].
    intros Hnil%(f_equal length). rewrite length_fmap, length_app in Hnil.
    cbn in Hnil. lia.
  - apply most_recent_None in Hc. rewrite Hc.
    split_and!; [done | intros _; cbn; lia |].
    intros Hnil%(f_equal length). rewrite length_fmap in Hnil.
    cbn in Hnil. lia.
Qed.

(** ** What a cart view shows *)

Lemma product_read_run (pid : Z) (product : Product) (st : Store) :
  product_of st pid = Some product →
  CartAPIController.product_read pid st
  = (Return product, logged "product.product" "read" st).
Proof.
  unfold product_of, CartAPIController.product_read. intros Hp.
  erewrite bind_run by apply log_call_run.
  erewrite bind_run by apply get_store_run.
  change (products (logged _ _ st)) with (products st).
  by destruct (filter _ (products st)); simplify_eq/=.
Qed.

Lemma product_of_id (st : Store) (pid : Z) (product : Product) :
  product_of st pid = Some product → product_id product = pid.
Proof.
  unfold product_of. intros Hp.
  assert (product ∈ filter (λ x, product_id x = pid) (products st)) as Hin.
  { destruct (filter _ (products st)); simplify_eq/=. apply list_elem_of_here. }
  by apply list_elem_of_filter in Hin as [? _].
Qed.

Lemma cart_lines_data_run (base_url : string) (ls : list Line) (st : Store) :
  (∀ l, l ∈ ls → is_Some (product_of st (line_product l))) →
  ∃ vs st',
    CartAPIController.cart_lines_data base_url ls st = (Return vs, st') ∧
    records st' = records st ∧
    Forall2 shows_line ls vs.
Proof.
  revert st. induction ls as [| l ls IH]; intros st Hall.
  - by eexists [], st.
  - destruct (Hall l (list_elem_of_here _ _)) as [product Hp].
    destruct (IH (logged "product.product" "read" st)) as (vs & st' & Hrun & Hrec & Hvs).
    { intros x Hx. apply Hall. by apply list_elem_of_further. }
    cbn [CartAPIController.cart_lines_data].
    unfold CartAPIController.line_data.
    erewrite bind_run
      by (erewrite bind_run by (by apply product_read_run); apply ret_run).
    erewrite bind_run by apply Hrun.
    eexists _, st'. split; [reflexivity |]. split; [done |].
    constructor; [| done].
    eexists. split; [reflexivity |].
    rewrite (product_of_id st _ _ Hp). by split_and!.
Qed.

Lemma res_partner_read_run (pid : Z) (partner : Partner) (st st' : Store) :
  partner_of st pid = Some partner →
  records st' = records st →
  res_partner_read pid st' = (Return partner, logged "res.partner" "read" st').
Proof.
  unfold partner_of, res_partner_read. intros Hp Hrec.
  assert (partners st' = partners st) as Hpa by (unfold records in Hrec; by injection Hrec).
  erewrite bind_run by apply log_call_run.
  erewrite bind_run by apply get_store_run.
  change (partners (logged _ _ st')) with (partners st'). rewrite Hpa.
  by destruct (filter _ (partners st)); simplify_eq/=.
Qed.

(** The run of the cart view on a customer's draft order. *)
Lemma view_cart_run (req : Request) (st : Store) (u : Z) (user : User)
    (partner : Partner) (c : Order) :
  logged_in req st u →
  user_of st u = Some user →
  partner_of st (user_partner user) = Some partner →
  most_recent (draft_orders (user_partner user) st) = Some c →
  (∀ l, l ∈ lines_of (order_id c) st → is_Some (product_of st (line_product l))) →
  ∃ (shown : list PyVal) (st' : Store),
    Forall2 shows_line (lines_of (order_id c) st) shown ∧
    CartAPIController.view_cart_body req st
    = (Return (dict_of
        [("status", PyStr "success");
         ("cart", PyDict (dict_of
            [("id", PyInt (order_id c));
             ("name", PyStr (order_name c));
             ("lines", PyList shown);
             ("subtotal", PyFloat (amount_untaxed c));
             ("tax_amount", PyFloat (amount_tax c));
             ("total", PyFloat (amount_total c));
             ("currency", PyStr (order_currency c));
             ("items_count", PyInt (Z.of_nat (length (lines_of (order_id c) st))));
             ("partner_name", PyStr (partner_name partner))]))]), st').
Proof.
  intros Hin Huser Hpartner Hc Hproducts.
  unfold CartAPIController.view_cart_body.
  erewrite bind_run by (by eapply authenticate_session_logged_in). cbn [negb].
  erewrite bind_run by (by eapply env_user_run).
  erewrite bind_run by apply sale_order_search_run.
  autorewrite with store. rewrite Hc.
  erewrite bind_run by apply order_line_run.
  autorewrite with store.
  set (st4 := logged "sale.order.line" "read" _).
  destruct (cart_lines_data_run (str_rstrip "/" (host_url (httprequest req)))
              (lines_of (order_id c) st) st4) as (shown & st5 & Hrun & Hrec & Hshown);
    [done |].
  erewrite bind_run by apply Hrun.
  erewrite bind_run by (by eapply res_partner_read_run).
  by eexists shown, _.
Qed.

(** X8: for a logged-in customer with a draft order, whose partner record
    and line products exist, the cart view answers with the most recently
    modified draft order: its id, name, stored totals and currency, one entry
    per line of that order, in order, with the line's product, quantity and
    prices, and the number of those lines as item count. *)
Theorem view_cart_shows_cart (req : Request) (st : Store) (u : Z) (user : User)
    (partner : Partner) (c : Order) :
  logged_in req st u →
  user_of st u = Some user →
  partner_of st (user_partner user) = Some partner →
  most_recent (draft_orders (user_partner user) st) = Some c →
  (∀ l, l ∈ lines_of (order_id c) st → is_Some (product_of st (line_product l))) →
  ∃ shown : list PyVal,
    Forall2 shows_line (lines_of (order_id c) st) shown ∧
    (CartAPIController.view_cart req st).1
    = dict_of
        [("status", PyStr "success");
         ("cart", PyDict (dict_of
            [("id", PyInt (order_id c));
             ("name", PyStr (order_name c));
             ("lines", PyList shown);
             ("subtotal", PyFloat (amount_untaxed c));
             ("tax_amount", PyFloat (amount_tax c));
             ("total", PyFloat (amount_total c));
             ("currency", PyStr (order_currency c));
             ("items_count", PyInt (Z.of_nat (length (lines_of (order_id c) st))));
             ("partner_name", PyStr (partner_name partner))]))].
Proof.
  intros Hin Huser Hpartner Hc Hproducts.
  destruct (view_cart_run req st u user partner c Hin Huser Hpartner Hc Hproducts)
    as (shown & st' & Hshown & Hrun).
  exists shown. split; [done |].
  unfold CartAPIController.view_cart, handle. by rewrite Hrun.
Qed.

(** ** Add, then view *)

Lemma lines_of_written_products (st st' : Store) (cid p id : Z) (q q' : float)
    (product : Product) (price : float) :
  products st' = products st →
  product_of st p = Some product →
  (∀ l, l ∈ lines_of cid st → is_Some (product_of st (line_product l))) →
  (lines st' = write_qty id q' <$> lines st ∨
   lines st' = lines st ++ [new_line cid p q price st]) →
  ∀ l, l ∈ lines_of cid st' → is_Some (product_of st' (line_product l)).
Proof.
  intros Hpr Hp Hall Hlines l Hl.
  assert (∀ x, product_of st' x = product_of st x) as Hsame
    by (intros x; unfold product_of; by rewrite Hpr).
  rewrite Hsame. unfold lines_of in Hl.
  destruct Hlines as [Hw | Hnew].
  - rewrite Hw, filter_write_qty in Hl by done.
    apply list_elem_of_fmap in Hl as (x & -> & Hx).
    assert (line_product (write_qty id q' x) = line_product x) as ->
      by (unfold write_qty; by destruct (decide (line_id x = id))).
    by apply Hall.
  - rewrite Hnew, filter_app in Hl. apply elem_of_app in Hl as [Hl | Hl].
    + by apply Hall.
    + apply list_elem_of_filter in Hl as [_ Hl].
      apply list_elem_of_singleton in Hl as ->.
      change (is_Some (product_of st p)). by rewrite Hp.
Qed.

(** X9: a cart view that follows an accepted add-to-cart of the same
    customer shows the cart the add answered with: the same cart id, item
    count and total, and one entry per line the cart has after the add. (The
    add is not stamped earlier than the cart's last write; the partner record
    and the products of the cart's lines exist.) *)
Theorem view_after_add (req view : Request) (st : Store) (u : Z) (user : User)
    (partner : Partner) (p : Z) (q : float) (product : Product) :
  logged_in req st u →
  logged_in view st u →
  user_of st u = Some user →
  partner_of st (user_partner user) = Some partner →
  asks_for req p q →
  sellable st p product →
  (∀ c, most_recent (draft_orders (user_partner user) st) = Some c →
        write_date c ≤ now req) →
  (∀ l, l ∈ lines_of (cart_id_for (user_partner user) st) st →
        is_Some (product_of st (line_product l))) →
  ∃ (cart : pydict) (shown : list PyVal),
    (CartAPIController.view_cart view (CartAPIController.add_to_cart req st).2).1
    = dict_of [("status", PyStr "success"); ("cart", PyDict cart)] ∧
    cart !! "id" = (CartAPIController.add_to_cart req st).1 !! "cart_id" ∧
    cart !! "items_count" = (CartAPIController.add_to_cart req st).1 !! "cart_items_count" ∧
    cart !! "total" = (CartAPIController.add_to_cart req st).1 !! "cart_total" ∧
    cart !! "lines" = Some (PyList shown) ∧
    Forall2 shows_line
      (lines_of (cart_id_for (user_partner user) st)
         (CartAPIController.add_to_cart req st).2) shown.
Proof.
  intros Hin Hview Huser Hpartner Hask Hsell Htime Hproducts.
  destruct (add_to_cart_accepts req st u user p q product Hin Huser Hask Hsell)
    as (r & st' & a & Hrun & _ & _ & _ & Hpa & Hus & Hpr & Hpu & Hor & Hli).
  destruct (add_to_cart_run req st u user p q product Hin Huser Hask Hsell)
    as (st'' & Hrun' & Htotals).
  rewrite Hrun in Hrun'. injection Hrun' as Hr Hst. subst st''.
  rewrite Hrun. cbn [fst snd]. rewrite Hr. clear Hrun Hr.
  set (cid := cart_id_for (user_partner user) st) in *.
  assert (cart_id_for (user_partner user) st' = cid) as Hcid
    by (by eapply cart_id_for_stamped).
  pose proof (draft_orders_after_add_nonempty _ _ _ _ _ Hor) as Hdraft.
  destruct (most_recent (draft_orders (user_partner user) st')) as [c' |] eqn:Hc';
    [| by apply most_recent_None in Hc'].
  assert (order_id c' = cid) as Hid
    by (unfold cart_id_for in Hcid; by rewrite Hc' in Hcid).
  assert (c' ∈ orders st') as Hc'in.
  { apply most_recent_in in Hc'. by apply list_elem_of_filter in Hc' as [_ ?]. }
  destruct (Htotals c' Hc'in Hid) as [Htotal _].
  destruct (view_cart_run view st' u user partner c')
    as (shown & st3 & Hshown & Hv).
  - destruct Hview as (? & ? & ?). split_and!; try done. by rewrite Hpu.
  - unfold user_of in *. by rewrite Hus.
  - unfold partner_of in *. by rewrite Hpa.
  - done.
  - rewrite Hid.
    destruct Hsell as (Hp & _ & _).
    fold cid in Hli.
    destruct (filter (λ l, line_product l = p) (lines_of cid st)) as [| l0 ?].
    + eapply (lines_of_written_products st st' cid p 0 q q product); try done.
      right. exact Hli.
    + eapply (lines_of_written_products st st' cid p _ q _ product q); try done.
      left. exact Hli.
  - rewrite Hid in *.
    unfold CartAPIController.view_cart, handle. rewrite Hv. cbn [fst snd].
    eexists _, shown. split; [reflexivity |]. rewrite Htotal. by split_and!.
Qed.

(** ** Product listing: the response and its errors *)

(** X10: a listing whose payload has readable filters and window answers
    with the products the search gives for that window among the products on
    sale, active and matching the filters, in the order of the search; its
    [total_count] is the number of all those products, whatever the window;
    its limit is the requested one capped at 100, by default 20, and its
    offset the requested one raised to 0, by default 0. *)
Theorem list_products_response (req : Request) (st : Store) (d : pydict)
    (categ : option Z) (term : option string) (l o : Z) (ps : list Product) :
  request_data req = PyDict d →
  category_filter d categ →
  search_filter d term →
  py_int (default (PyInt 20) (d !! "limit")) = Return l →
  py_int (default (PyInt 0) (d !! "offset")) = Return o →
  search_window (Z.min l 100) (Z.max o 0)
    (List.filter (listed categ term) (products st)) = Return ps →
  (ProductAPIController.list_products req st).1
  = dict_of
      [("status", PyStr "success");
       ("products",
         PyList (ProductAPIController.product_data
                   (str_rstrip "/" (host_url (httprequest req)))
                   (company_currency st) <$> ps));
       ("total_count",
         PyInt (Z.of_nat (length (List.filter (listed categ term) (products st)))));
       ("limit", PyInt (Z.min l 100));
       ("offset", PyInt (Z.max o 0));
       ("has_more",
         PyBool (Z.max o 0 + Z.min l 100
                 <? Z.of_nat (length (List.filter (listed categ term) (products st)))))].
Proof.
  intros Hd Hcat Hsearch Hl Ho Hwin.
  unfold ProductAPIController.list_products, handle.
  by rewrite (list_products_body_run req st d categ term l o Hd Hcat Hsearch Hl Ho), Hwin.
Qed.

(** X11: a limit or an offset that does not convert to an integer is
    answered "Invalid limit or offset format" when the conversion raises a
    ValueError or a TypeError, and "Failed to retrieve products" when it
    raises anything else (an infinite float); no search is made. *)
Theorem list_products_rejects_window (req : Request) (st : Store) (d : pydict)
    (categ : option Z) (term : option string) (e : PyExc) :
  request_data req = PyDict d →
  category_filter d categ →
  search_filter d term →
  py_int (default (PyInt 20) (d !! "limit")) = Raise e
  ∨ (∃ l, py_int (default (PyInt 20) (d !! "limit")) = Return l)
    ∧ py_int (default (PyInt 0) (d !! "offset")) = Raise e →
  ProductAPIController.list_products req st
  = (error_response (if value_or_type_error e then "Invalid limit or offset format"
                     else "Failed to retrieve products"), st).
Proof.
  intros Hd Hcat Hsearch Hbad.
  unfold ProductAPIController.list_products, handle.
  rewrite (list_products_body_window_raise req st d categ term e Hd Hcat Hsearch Hbad).
  by destruct (value_or_type_error e).
Qed.

(** X12: a true [category_id] that does not convert to an integer is
    answered "Invalid category_id format" when the conversion raises a
    ValueError or a TypeError, and "Failed to retrieve products" otherwise,
    whatever the rest of the payload; no search is made. *)
Theorem list_products_rejects_category (req : Request) (st : Store) (d : pydict)
    (v : PyVal) (e : PyExc) :
  request_data req = PyDict d →
  d !! "category_id" = Some v →
  truthy v = true →
  py_int v = Raise e →
  ProductAPIController.list_products req st
  = (error_response (if value_or_type_error e then "Invalid category_id format"
                     else "Failed to retrieve products"), st).
Proof.
  intros Hd Hv Htrue Hint.
  unfold ProductAPIController.list_products, handle.
  rewrite (list_products_body_category_raise req st d v e Hd Hv Htrue Hint).
  by destruct (value_or_type_error e).
Qed.

(** X13: a true [search] entry that is not text (a number, a list) makes
    the listing fail as a whole with "Failed to retrieve products", also when
    the other entries are fine; no search is made. *)
Theorem list_products_search_not_text (req : Request) (st : Store) (d : pydict)
    (categ : option Z) (v : PyVal) :
  request_data req = PyDict d →
  category_filter d categ →
  d !! "search" = Some v →
  truthy v = true →
  (∀ s, v ≠ PyStr s) →
  ProductAPIController.list_products req st
  = (error_response "Failed to retrieve products", st).
Proof.
  intros Hd Hcat Hv Htrue Hnot.
  unfold ProductAPIController.list_products, handle.
  by rewrite (list_products_body_search_not_text req st d categ v Hd Hcat Hv Htrue Hnot).
Qed.

Lemma read_only_try_except {A} (m : M A) (caught : PyExc → bool) (h : PyExc → M A) :
  read_only m → (∀ e, read_only (h e)) → read_only (try_except m caught h).
Proof.
  intros Hm Hh st. unfold try_except.
  specialize (Hm st). destruct (m st) as [[a | e] st1]; [done |].
  destruct (caught e); [| done]. cbn [snd] in Hm. by rewrite Hh.
Qed.

Lemma read_only_list_products_body (req : Request) :
  read_only (ProductAPIController.list_products_body req).
Proof.
  unfold ProductAPIController.list_products_body,
    ProductAPIController.product_search,
    ProductAPIController.product_search_count.
  repeat first [ read_only_step | apply read_only_try_except; [| intros ?] ].
Qed.

(** The products of a domain that starts with the two fixed terms are
    records of the store, on sale and active. *)
Lemma matching_on_sale (rest : list ProductAPIController.DomainItem) (st : Store)
    (p : Product) :
  p ∈ ProductAPIController.matching
        (ProductAPIController.SaleOkIs true :: ProductAPIController.ActiveIs true :: rest) st →
  p ∈ products st ∧ sale_ok p = true ∧ active p = true.
Proof.
  unfold ProductAPIController.matching, ProductAPIController.domain_holds.
  intros [Hp Hholds]%list_elem_of_In%List.filter_In.
  apply list_elem_of_In in Hp. split; [done |].
  cbn in Hholds.
  apply andb_prop in Hholds as [Hs Hrest].
  apply andb_prop in Hrest as [Ha _].
  by apply bool_decide_eq_true in Hs, Ha.
Qed.

(** X14: a listing writes no record, whatever the request and whatever
    the search does. *)
Theorem list_products_read_only (req : Request) (st : Store) :
  records (ProductAPIController.list_products req st).2 = records st.
Proof. apply read_only_handle, read_only_list_products_body. Qed.

(** X15: every entry of a listing is the data of a record of the store
    that is on sale and active, so that its [is_available] is always true
    (for a search that returns records among those matching its domain). *)
Theorem list_products_lists_available (req : Request) (st : Store) :
  (∀ limit offset xs ys,
     search_window limit offset xs = Return ys → ∀ y, y ∈ ys → y ∈ xs) →
  ∀ vs v,
    (ProductAPIController.list_products req st).1 !! "products" = Some (PyList vs) →
    v ∈ vs →
    ∃ (p : Product) (dp : pydict),
      p ∈ products st ∧ sale_ok p = true ∧ active p = true ∧
      v = PyDict dp ∧
      dp !! "id" = Some (PyInt (product_id p)) ∧
      dp !! "is_available" = Some (PyBool true).
Proof.
  intros Hwin vs v.
  unfold ProductAPIController.list_products, handle,
    ProductAPIController.list_products_body.
  unfold mbind, M_bind, mret, M_ret, lift, try_except,
    ProductAPIController.product_search,
    ProductAPIController.product_search_count, log_call, modify_store,
    get_store.
  intros Hvs Hv.
  repeat (case_match; simplify_eq/=); try done.
  all: rewrite (lookup_insert_ne _ "status" "products") in Hvs by done.
  all: rewrite lookup_insert_eq in Hvs; injection Hvs as <-.
  all: apply list_elem_of_fmap in Hv as (p & -> & Hp).
  all: match goal with
       | Hs : search_window _ _ _ = Return _ |- _ =>
           apply (Hwin _ _ _ _ Hs), matching_on_sale in Hp as (Hp & Hsale & Hactive)
       end.
  all: eexists p, _; split_and!; [done | done | done | reflexivity | done |].
  all: by rewrite Hsale, Hactive.
Qed.

(** ** Signup: what is created *)

Lemma first_missing_none (d : pydict) :
  present d "name" → present d "email" → present d "password" →
  CustomerAPIController.first_missing (PyDict d) CustomerAPIController.required_fields
  = Return None.
Proof.
  intros Hn He Hp. unfold CustomerAPIController.required_fields.
  by rewrite !first_missing_next.
Qed.

Lemma present_str (d : pydict) (field s : string) :
  d !! field = Some (PyStr s) → s ≠ "" → present d field.
Proof. unfold present. intros -> Hs. by apply truthy_str. Qed.

(** The run of a signup the handler accepts. *)
Lemma create_customer_run (req : Request) (st : Store) (d : pydict)
    (name email phone : string) (password : PyVal) :
  request_data req = PyDict d →
  valid_registration d name email password →
  phone_of d phone →
  customers_with st (str_lower (str_strip email)) = [] →
  users_with st (str_lower (str_strip email)) = [] →
  ∃ st' : Store,
    CustomerAPIController.create_customer req st
    = (dict_of [("status", PyStr "success");
                ("message", PyStr "Customer created successfully");
                ("customer_id", PyInt (next_id (partner_id <$> partners st)));
                ("user_id", PyInt (next_id (user_id <$> users st)));
                ("email", PyStr (str_lower (str_strip email)))], st') ∧
    partners st'
    = partners st ++ [new_partner st (str_strip name) (str_lower (str_strip email))
                        (str_strip phone)] ∧
    users st'
    = users st ++ [new_user st (str_strip name) (str_lower (str_strip email)) password] ∧
    products st' = products st ∧ orders st' = orders st ∧ lines st' = lines st ∧
    group_portal st' = group_portal st ∧ group_user st' = group_user st ∧
    public_user st' = public_user st.
Proof.
  intros Hd (Hname & Hname' & Hemail & Hemail' & Hat & Hpw & Hpw' & _) Hphone Hc Hu.
  unfold CustomerAPIController.create_customer, handle,
    CustomerAPIController.create_customer_body.
  rewrite Hd.
  erewrite bind_run.
  2:{ rewrite first_missing_none; [apply lift_run | | |].
      - by eapply present_str.
      - by eapply present_str.
      - unfold present. by rewrite Hpw. }
  cbn beta iota.
  erewrite bind_run by (unfold py_item; rewrite Hemail; apply lift_run).
  cbn zeta. rewrite Hat, (str_contains_nonempty _ _ Hat). cbn [negb orb].
  erewrite bind_run by apply res_partner_search_run.
  rewrite Hc. cbn [take].
  erewrite bind_run by apply res_users_search_run.
  change (users_with (logged _ _ st) ?l) with (users_with st l).
  rewrite Hu. cbn [take].
  erewrite bind_run by (unfold py_item; rewrite Hname; apply lift_run).
  assert (py_get_default (PyDict d) "phone" (PyStr "") ≫= py_strip
          = Return (str_strip phone)) as Hph.
  { unfold py_get_default. by destruct Hphone as [-> | [-> ->]]. }
  erewrite bind_run by (rewrite Hph; apply lift_run).
  erewrite bind_run by apply res_partner_create_run.
  erewrite bind_run by (unfold py_item; rewrite Hname; apply lift_run).
  erewrite bind_run by (unfold py_item; rewrite Hpw; apply lift_run).
  erewrite bind_run by apply env_ref_run.
  erewrite bind_run by apply res_users_create_run.
  eexists. split; [reflexivity |]. by split_and!.
Qed.

(** X16: an accepted signup creates exactly one customer and one user and
    nothing else. The customer is a person of customer rank 1 with the
    trimmed name and phone and the trimmed, lower-cased email; the user logs
    in with that email, is linked to the new customer, holds the password as
    it was sent and belongs to the portal group only. The response carries
    the ids of the two records and the normalized email. *)
Theorem create_customer_creates (req : Request) (st : Store) (d : pydict)
    (name email phone : string) (password : PyVal) :
  request_data req = PyDict d →
  valid_registration d name email password →
  phone_of d phone →
  customers_with st (str_lower (str_strip email)) = [] →
  users_with st (str_lower (str_strip email)) = [] →
  (CustomerAPIController.create_customer req st).1
  = dict_of [("status", PyStr "success");
             ("message", PyStr "Customer created successfully");
             ("customer_id", PyInt (next_id (partner_id <$> partners st)));
             ("user_id", PyInt (next_id (user_id <$> users st)));
             ("email", PyStr (str_lower (str_strip email)))] ∧
  partners (CustomerAPIController.create_customer req st).2
  = partners st ++ [new_partner st (str_strip name) (str_lower (str_strip email))
                      (str_strip phone)] ∧
  users (CustomerAPIController.create_customer req st).2
  = users st ++ [new_user st (str_strip name) (str_lower (str_strip email)) password] ∧
  products (CustomerAPIController.create_customer req st).2 = products st ∧
  orders (CustomerAPIController.create_customer req st).2 = orders st ∧
  lines (CustomerAPIController.create_customer req st).2 = lines st.
Proof.
  intros Hd Hvalid Hphone Hc Hu.
  destruct (create_customer_run req st d name email phone password Hd Hvalid Hphone Hc Hu)
    as (st' & -> & Hpa & Hus & Hpr & Hor & Hli & _).
  by split_and!.
Qed.

(** X17: a signup whose name, email and password are present, but whose
    email, once trimmed and lower-cased, has no "@" (or is blank), is
    answered "Invalid email format" before any record is searched. *)
Theorem create_customer_invalid_email (req : Request) (st : Store) (d : pydict)
    (email : string) :
  request_data req = PyDict d →
  present d "name" →
  d !! "email" = Some (PyStr email) → email ≠ "" →
  present d "password" →
  str_contains "@" (str_lower (str_strip email)) = false →
  CustomerAPIController.create_customer req st
  = (error_response "Invalid email format", st).
Proof.
  intros Hd Hname Hemail Hne Hpw Hat.
  unfold CustomerAPIController.create_customer, handle,
    CustomerAPIController.create_customer_body.
  rewrite Hd.
  erewrite bind_run
    by (rewrite first_missing_none;
        [apply lift_run | done | by eapply present_str | done]).
  cbn beta iota.
  erewrite bind_run by (unfold py_item; rewrite Hemail; apply lift_run).
  cbn zeta. rewrite Hat. cbn [negb]. by rewrite orb_true_r.
Qed.

(** X18: a signup whose email is present but is not text (a number, a
    list) is answered "Internal server error", and nothing is searched or
    created. *)
Theorem create_customer_email_not_text (req : Request) (st : Store) (d : pydict)
    (v : PyVal) :
  request_data req = PyDict d →
  present d "name" →
  d !! "email" = Some v → truthy v = true → (∀ s, v ≠ PyStr s) →
  present d "password" →
  CustomerAPIController.create_customer req st
  = (error_response "Internal server error", st).
Proof.
  intros Hd Hname Hemail Htrue Hnot Hpw.
  unfold CustomerAPIController.create_customer, handle,
    CustomerAPIController.create_customer_body.
  rewrite Hd.
  erewrite bind_run
    by (rewrite first_missing_none;
        [apply lift_run | done | unfold present; by rewrite Hemail | done]).
  cbn beta iota.
  rewrite (bind_raise _ _ st st AttributeError); [done |].
  unfold py_item. rewrite Hemail.
  destruct v; try done. by destruct (Hnot s).
Qed.

(** X19: with a fresh, well-formed email, a signup whose name is present
    but is not text, or whose phone is given and is not text, is answered
    "Internal server error" after the two uniqueness searches, and no record
    is created. *)
Theorem create_customer_name_or_phone_not_text (req : Request) (st : Store)
    (d : pydict) (email : string) (name phone : PyVal) :
  request_data req = PyDict d →
  d !! "name" = Some name → truthy name = true →
  d !! "email" = Some (PyStr email) → email ≠ "" →
  str_contains "@" (str_lower (str_strip email)) = true →
  present d "password" →
  customers_with st (str_lower (str_strip email)) = [] →
  users_with st (str_lower (str_strip email)) = [] →
  (∀ s, name ≠ PyStr s) ∨ (d !! "phone" = Some phone ∧ ∀ s, phone ≠ PyStr s) →
  (CustomerAPIController.create_customer req st).1
  = error_response "Internal server error" ∧
  records (CustomerAPIController.create_customer req st).2 = records st.
Proof.
  intros Hd Hname Htrue Hemail Hne Hat Hpw Hc Hu Hbad.
  unfold CustomerAPIController.create_customer, handle,
    CustomerAPIController.create_customer_body.
  rewrite Hd.
  erewrite bind_run
    by (rewrite first_missing_none;
        [apply lift_run | unfold present; by rewrite Hname
        | by eapply present_str | done]).
  cbn beta iota.
  erewrite bind_run by (unfold py_item; rewrite Hemail; apply lift_run).
  cbn zeta. rewrite Hat, (str_contains_nonempty _ _ Hat). cbn [negb orb].
  erewrite bind_run by apply res_partner_search_run.
  rewrite Hc. cbn [take].
  erewrite bind_run by apply res_users_search_run.
  change (users_with (logged _ _ st) ?l) with (users_with st l).
  rewrite Hu. cbn [take].
  set (st2 := logged "res.users" "search" _).
  assert ((∃ n, py_item (PyDict d) "name" ≫= py_strip = Return n)
          ∨ py_item (PyDict d) "name" ≫= py_strip = Raise AttributeError) as [[n Hn] | Hn].
  { unfold py_item. rewrite Hname. destruct name; eauto. }
  - destruct Hbad as [Hnot | [Hphone Hnot]].
    + unfold py_item in Hn. rewrite Hname in Hn.
      destruct name; try done. by destruct (Hnot s).
    + erewrite bind_run by (rewrite Hn; apply lift_run).
      rewrite (bind_raise _ _ st2 st2 AttributeError); [done |].
      unfold py_get_default. rewrite Hphone.
      change (default (PyStr "") (Some phone)) with phone.
      destruct phone; try done. by destruct (Hnot s).
  - by rewrite (bind_raise _ _ st2 st2 AttributeError) by (rewrite Hn; apply lift_run).
Qed.

(** ** Login: who is let in *)

(** The run of a login the authenticator accepts. *)
Lemma customer_login_run (req : Request) (st : Store) (d : pydict)
    (email : string) (password : PyVal) (u : Z) (user : User) (partner : Partner) :
  request_data req = PyDict d →
  d !! "email" = Some (PyStr email) → email ≠ "" →
  d !! "password" = Some password → truthy password = true →
  authenticate (session req) st (db req) (str_lower (str_strip email)) password
  = Return (Some u) →
  u ≠ 0 →
  user_of st u = Some user →
  partner_of st (user_partner user) = Some partner →
  ∃ st' : Store,
    CustomerAPIController.customer_login req st
    = (if has_group user (group_portal st) || has_group user (group_user st)
       then dict_of [("status", PyStr "success");
                     ("message", PyStr "Login successful");
                     ("user_id", PyInt u);
                     ("customer_id", PyInt (partner_id partner));
                     ("customer_name", PyStr (partner_name partner));
                     ("customer_email", py_opt_str (partner_email partner));
                     ("session_token", PyStr (token_hex req));
                     ("session_id", PyStr (sid (session req)))]
       else error_response "Access denied", st') ∧
    records st' = records st.
Proof.
  intros Hd Hemail Hne Hpw Htrue Hauth Hu Huser Hpartner.
  unfold CustomerAPIController.customer_login, handle,
    CustomerAPIController.customer_login_body.
  rewrite Hd.
  erewrite bind_run by apply lift_run.
  cbn [py_get py_get_default]. rewrite Hemail.
  change (default PyNone (Some (PyStr email))) with (PyStr email).
  rewrite (truthy_str email Hne).
  erewrite bind_run by apply lift_run.
  cbn [py_get py_get_default]. rewrite Hpw.
  change (default PyNone (Some password)) with password.
  rewrite Htrue. cbn [negb orb].
  erewrite bind_run by (unfold py_item; rewrite Hemail; apply lift_run).
  erewrite bind_run by (unfold py_item; rewrite Hpw; apply lift_run).
  erewrite bind_run by (by apply authenticate_returns).
  apply Z.eqb_neq in Hu. cbn beta iota. rewrite Hu.
  erewrite bind_run by (by apply res_users_read_run).
  erewrite bind_run by apply get_store_run.
  change (group_portal (logged _ _ (logged _ _ st))) with (group_portal st).
  change (group_user (logged _ _ (logged _ _ st))) with (group_user st).
  rewrite <- negb_orb.
  destruct (has_group user (group_portal st) || has_group user (group_user st)).
  - cbn [negb].
    erewrite bind_run by (by eapply res_partner_read_run).
    by eexists.
  - by eexists.
Qed.

(** X20: when the authenticator accepts the credentials of a login, the
    user found is let in exactly when it belongs to the portal group or to
    the internal users: then the response carries the user id, the id, name
    and email of the user's customer record, the token drawn for the request
    and the session id; otherwise it is "Access denied". *)
Theorem customer_login_granted (req : Request) (st : Store) (d : pydict)
    (email : string) (password : PyVal) (u : Z) (user : User) (partner : Partner) :
  request_data req = PyDict d →
  d !! "email" = Some (PyStr email) → email ≠ "" →
  d !! "password" = Some password → truthy password = true →
  authenticate (session req) st (db req) (str_lower (str_strip email)) password
  = Return (Some u) →
  u ≠ 0 →
  user_of st u = Some user →
  partner_of st (user_partner user) = Some partner →
  (CustomerAPIController.customer_login req st).1
  = if has_group user (group_portal st) || has_group user (group_user st)
    then dict_of [("status", PyStr "success");
                  ("message", PyStr "Login successful");
                  ("user_id", PyInt u);
                  ("customer_id", PyInt (partner_id partner));
                  ("customer_name", PyStr (partner_name partner));
                  ("customer_email", py_opt_str (partner_email partner));
                  ("session_token", PyStr (token_hex req));
                  ("session_id", PyStr (sid (session req)))]
    else error_response "Access denied".
Proof.
  intros Hd Hemail Hne Hpw Htrue Hauth Hu Huser Hpartner.
  destruct (customer_login_run req st d email password u user partner
              Hd Hemail Hne Hpw Htrue Hauth Hu Huser Hpartner) as (st' & -> & _).
  done.
Qed.

(** ** Signup, then login *)

Lemma next_id_above (ids : list Z) (x : Z) : x ∈ ids → x < next_id ids.
Proof.
  unfold next_id. induction ids as [| y ids IH]; [by intros ?%elem_of_nil |].
  intros [-> | Hx]%elem_of_cons; cbn [foldr]; [lia |].
  specialize (IH Hx). lia.
Qed.

Lemma next_id_positive (ids : list Z) : 0 < next_id ids.
Proof.
  unfold next_id. induction ids as [| y ids IH]; cbn [foldr]; lia.
Qed.

(** A record created under the next id is the one its id finds. *)
Lemma head_filter_created {A} (f : A → Z) (l : list A) (a : A) :
  f a = next_id (f <$> l) →
  head (filter (λ x, f x = next_id (f <$> l)) (l ++ [a])) = Some a.
Proof.
  intros Ha. rewrite filter_app.
  assert (filter (λ x, f x = next_id (f <$> l)) l = []) as ->.
  { destruct (filter (λ x, f x = next_id (f <$> l)) l) as [| x xs] eqn:Hfilter;
      [done |].
    assert (x ∈ filter (λ x, f x = next_id (f <$> l)) l) as Hx
      by (rewrite Hfilter; apply list_elem_of_here).
    apply list_elem_of_filter in Hx as [Hid Hx].
    assert (f x ∈ f <$> l) as Hin by (by apply list_elem_of_fmap_2).
    apply next_id_above in Hin. lia. }
  by rewrite filter_cons_True.
Qed.

(** X21: a customer who has just signed up is let in: a login with the same
    email (up to blanks and case) that the authenticator accepts for the new
    user is answered with success, and with the ids the signup answered, the
    trimmed name and the normalized email. *)
Theorem signup_then_login (req login : Request) (st : Store) (d dl : pydict)
    (name email phone email' : string) (password password' : PyVal) :
  request_data req = PyDict d →
  valid_registration d name email password →
  phone_of d phone →
  customers_with st (str_lower (str_strip email)) = [] →
  users_with st (str_lower (str_strip email)) = [] →
  request_data login = PyDict dl →
  dl !! "email" = Some (PyStr email') → email' ≠ "" →
  str_lower (str_strip email') = str_lower (str_strip email) →
  dl !! "password" = Some password' → truthy password' = true →
  authenticate (session login) (CustomerAPIController.create_customer req st).2
    (db login) (str_lower (str_strip email)) password'
  = Return (Some (next_id (user_id <$> users st))) →
  (CustomerAPIController.customer_login login
     (CustomerAPIController.create_customer req st).2).1
  = dict_of [("status", PyStr "success");
             ("message", PyStr "Login successful");
             ("user_id", PyInt (next_id (user_id <$> users st)));
             ("customer_id", PyInt (next_id (partner_id <$> partners st)));
             ("customer_name", PyStr (str_strip name));
             ("customer_email", PyStr (str_lower (str_strip email)));
             ("session_token", PyStr (token_hex login));
             ("session_id", PyStr (sid (session login)))] ∧
  (CustomerAPIController.create_customer req st).1 !! "user_id"
  = Some (PyInt (next_id (user_id <$> users st))) ∧
  (CustomerAPIController.create_customer req st).1 !! "customer_id"
  = Some (PyInt (next_id (partner_id <$> partners st))).
Proof.
  intros Hd Hvalid Hphone Hc Hu Hdl Hemail Hne Hnorm Hpw Htrue.
  destruct (create_customer_run req st d name email phone password Hd Hvalid Hphone Hc Hu)
    as (st' & -> & Hpa & Hus & _ & _ & _ & Hgp & _).
  cbn [fst snd]. intros Hauth.
  set (partner := new_partner st (str_strip name) (str_lower (str_strip email))
                    (str_strip phone)) in *.
  set (user := new_user st (str_strip name) (str_lower (str_strip email)) password) in *.
  destruct (customer_login_run login st' dl email' password'
              (next_id (user_id <$> users st)) user partner) as (st'' & -> & _);
    try done.
  - by rewrite Hnorm.
  - pose proof (next_id_positive (user_id <$> users st)). lia.
  - unfold user_of. rewrite Hus. by apply (head_filter_created user_id).
  - unfold partner_of. rewrite Hpa. by apply (head_filter_created partner_id).
  - cbn [fst]. rewrite Hgp.
    assert (has_group user (group_portal st) = true) as ->.
    { unfold has_group. apply bool_decide_eq_true. apply list_elem_of_here. }
    by split_and!.
Qed.

(** ** Payloads that cannot be used *)

Lemma body_unreadable_empty (req : Request) :
  body_unreadable req → _get_json_data req = PyDict ∅.
Proof.
  unfold body_unreadable, _get_json_data.
  destruct (get_json_data req) as [r |].
  - by intros [e ->].
  - intros [-> Hbody].
    destruct (is_json (httprequest req)).
    + by destruct Hbody as [e ->].
    + destruct Hbody as [[e ->] | (raw & e & -> & Hraw & Hloads)]; [done |].
      destruct (String.eqb_spec raw ""); [done |]. by rewrite Hloads.
Qed.

(** X22: a body that cannot be read is no error of its own: the handlers
    then work on the keyword arguments of the route, so that with none of
    them signup asks for the name, login for email and password, and a
    logged-in add-to-cart for the product id. *)
Theorem unreadable_body_is_empty_payload (req : Request) (st : Store) :
  body_unreadable req →
  request_data req = PyDict (kw req) ∧
  (kw req = ∅ →
     CustomerAPIController.create_customer req st
     = (error_response "Missing required field: name", st) ∧
     CustomerAPIController.customer_login req st
     = (error_response "Email and password are required", st) ∧
     ∀ u, logged_in req st u →
          (CartAPIController.add_to_cart req st).1
          = error_response "Product ID is required").
Proof.
  intros Hbody.
  assert (request_data req = PyDict (kw req)) as Hd.
  { unfold request_data. by rewrite (body_unreadable_empty req Hbody). }
  split; [done |]. intros Hkw. rewrite Hkw in Hd. split_and!.
  - apply (create_customer_missing req st ∅ "name" Hd).
    by apply first_missing_here.
  - unfold CustomerAPIController.customer_login, handle,
      CustomerAPIController.customer_login_body.
    by rewrite Hd.
  - intros u Hin.
    by rewrite (add_to_cart_past_gate req st u ∅ Hin Hd).
Qed.

(** X23: a payload that is not an object (a list, a text, a number) gives
    the generic failure of each handler that reads it, and no record is read
    or written. *)
Theorem payload_not_an_object (req : Request) (st : Store) :
  (∀ d, request_data req ≠ PyDict d) →
  CustomerAPIController.create_customer req st
  = (error_response "Internal server error", st) ∧
  CustomerAPIController.customer_login req st
  = (error_response "Login failed", st) ∧
  ProductAPIController.list_products req st
  = (error_response "Failed to retrieve products", st) ∧
  ∀ u, logged_in req st u →
       (CartAPIController.add_to_cart req st).1
       = error_response "Failed to add product to cart" ∧
       touches_no_record st (CartAPIController.add_to_cart req st).2.
Proof.
  intros Hnot.
  assert (∀ k dflt, py_get_default (request_data req) k dflt = Raise AttributeError)
    as Hget.
  { intros k dflt. destruct (request_data req) as [| | | | | | d]; try done.
    by destruct (Hnot d). }
  split_and!.
  - unfold CustomerAPIController.create_customer, handle,
      CustomerAPIController.create_customer_body.
    rewrite (bind_raise _ _ st st AttributeError); [done |].
    unfold CustomerAPIController.required_fields,
      CustomerAPIController.first_missing, py_get.
    rewrite !Hget. reflexivity.
  - unfold CustomerAPIController.customer_login, handle,
      CustomerAPIController.customer_login_body.
    rewrite (bind_raise _ _ st st AttributeError); [done |].
    unfold py_get. rewrite !Hget. reflexivity.
  - unfold ProductAPIController.list_products, handle.
    by rewrite (list_products_body_not_object req st Hnot).
  - intros u Hin.
    unfold CartAPIController.add_to_cart, handle,
      CartAPIController.add_to_cart_body.
    erewrite bind_run by (by eapply authenticate_session_logged_in).
    cbn [negb].
    erewrite bind_raise by (unfold py_get; rewrite Hget; apply lift_run).
    split; [done | apply touches_no_record_ref].
Qed.

(** X24: the check [quantity <= 0] lets a quantity that is not a number
    through: a logged-in request for a sellable product with quantity NaN is
    accepted, and when the cart has no line of the product, a line of
    quantity NaN is created. *)
Theorem add_to_cart_accepts_nan (req : Request) (st : Store) (u : Z) (user : User)
    (d : pydict) (v : PyVal) (p : Z) (product : Product) :
  logged_in req st u →
  user_of st u = Some user →
  request_data req = PyDict d →
  d !! "product_id" = Some v → truthy v = true → py_int v = Return p →
  d !! "quantity" = Some (PyFloat nan) →
  sellable st p product →
  (CartAPIController.add_to_cart req st).1 !! "status" = Some (PyStr "success") ∧
  (filter (λ l, line_product l = p)
     (lines_of (cart_id_for (user_partner user) st) st) = [] →
   lines (CartAPIController.add_to_cart req st).2
   = lines st
     ++ [new_line (cart_id_for (user_partner user) st) p nan (list_price product) st]).
Proof.
  intros Hin Huser Hd Hv Htrue Hint Hq Hsell.
  assert (asks_for req p nan) as Hask.
  { exists d, v. split_and!; try done. by rewrite Hq. }
  destruct (add_to_cart_accepts req st u user p nan product Hin Huser Hask Hsell)
    as (r & st' & a & -> & Hstatus & _ & _ & _ & _ & _ & _ & _ & Hlines).
  split; [done |]. intros Hnone. cbn [snd]. by rewrite Hlines, Hnone.
Qed.
End Properties.

(** * The test script *)

Section TestScript.
Import TestApi.
Context `{APITester}.

Lemma script_bind_run {A B} (m : Script tester A) (k : A → Script tester B)
    (ts ts' : tester) (a : A) :
  m ts = (Return a, ts') → (m ≫= k) ts = k a ts'.
Proof. intros Hm. unfold mbind, Script_bind. by rewrite Hm. Qed.

Lemma login_credentials_run (timestamp : Z) (ts : tester) :
  login_credentials timestamp ts = (Return (credentials_of timestamp), ts).
Proof. reflexivity. Qed.

(** X25: when the login test fails, the script stops there and reports
    failure (exit status 1), whatever the health check and the signup gave:
    no later test is run. *)
Theorem main_fails_without_login (timestamp : Z) (ts s1 s2 s3 : tester)
    (health : bool) (created login : PyVal) :
  test_health_check ts = (Return health, s1) →
  test_create_customer (customer_data timestamp) s1 = (Return created, s2) →
  test_login (credentials_of timestamp) s2 = (Return login, s3) →
  truthy login = false →
  main timestamp ts = (Return false, s3) ∧ exit_status timestamp ts = 1.
Proof.
  intros Hhealth Hcreate Hlogin Hfalse.
  assert (main timestamp ts = (Return false, s3)) as Hmain.
  { unfold main.
    erewrite script_bind_run by apply Hhealth.
    erewrite script_bind_run by apply Hcreate.
    erewrite script_bind_run by apply login_credentials_run.
    erewrite script_bind_run by apply Hlogin.
    by rewrite Hfalse. }
  split; [done |]. unfold exit_status. by rewrite Hmain.
Qed.

(** X26: when the health check, the signup and the login pass, the script
    reports success (exit status 0) whatever the later tests give, even when
    the listing, the add-to-cart and the cart view all fail, provided they
    return and the listing is usable. *)
Theorem main_passes_on_core (timestamp : Z) (ts s1 s2 s3 : tester)
    (created login : PyVal) :
  test_health_check ts = (Return true, s1) →
  test_create_customer (customer_data timestamp) s1 = (Return created, s2) →
  truthy created = true →
  test_login (credentials_of timestamp) s2 = (Return login, s3) →
  truthy login = true →
  (∀ s, ∃ v s', test_list_categories s = (Return v, s')) →
  (∀ f s, ∃ v s', test_list_products f s = (Return v, s') ∧ usable_listing v) →
  (∀ p q s, ∃ v s', test_add_to_cart p q s = (Return v, s')) →
  (∀ s, ∃ v s', test_view_cart s = (Return v, s')) →
  (main timestamp ts).1 = Return true ∧ exit_status timestamp ts = 0.
Proof.
  intros Hhealth Hcreate Hcreated Hlogin Hlogged Hcat Hlist Hadd Hview.
  assert ((main timestamp ts).1 = Return true) as Hmain.
  { unfold main.
    erewrite script_bind_run by apply Hhealth.
    erewrite script_bind_run by apply Hcreate.
    erewrite script_bind_run by apply login_credentials_run.
    erewrite script_bind_run by apply Hlogin.
    rewrite Hcreated, Hlogged. cbn [negb].
    destruct (Hcat s3) as (cats & s4 & Hcats).
    erewrite script_bind_run by apply Hcats.
    destruct (Hlist (PyDict (dict_of [("limit", PyInt 10)])) s4)
      as (listing & s5 & Hlisting & Hshape).
    erewrite script_bind_run by apply Hlisting.
    assert (∀ (passed total : Z) (s : tester),
              3 ≤ passed →
              ((cart ← test_view_cart;
                let tests_passed := if truthy cart then passed + 1 else passed in
                if tests_passed =? total + 1 then mret true
                else if 3 <=? tests_passed then mret true
                else mret false) s).1 = Return true) as Hend.
    { intros passed total s Hp.
      destruct (Hview s) as (cart & s' & Hcart).
      erewrite script_bind_run by apply Hcart.
      cbn zeta.
      destruct (truthy cart); cbn beta iota zeta.
      - destruct (passed + 1 =? total + 1); [done |].
        destruct (Z.leb_spec 3 (passed + 1)); [done | lia].
      - destruct (passed =? total + 1); [done |].
        destruct (Z.leb_spec 3 passed); [done | lia]. }
    destruct Hshape as [Hfalsy | (d & -> & [Hnone | (first & rest & Hproducts & [pid Hpid])])].
    - rewrite Hfalsy.
      erewrite script_bind_run by reflexivity.
      erewrite script_bind_run by reflexivity.
      apply Hend. cbn [fst snd]. destruct (truthy cats); lia.
    - apply not_true_is_false in Hnone. unfold present in Hnone.
      destruct (truthy (PyDict d)).
      + erewrite script_bind_run
          by (erewrite script_bind_run by reflexivity; reflexivity).
        cbn [py_get py_get_default]. rewrite Hnone.
        erewrite script_bind_run by reflexivity.
        apply Hend. cbn [fst snd]. destruct (truthy cats); lia.
      + erewrite script_bind_run by reflexivity.
        erewrite script_bind_run by reflexivity.
        apply Hend. cbn [fst snd]. destruct (truthy cats); lia.
    - destruct (truthy (PyDict d)).
      + erewrite script_bind_run
          by (erewrite script_bind_run by reflexivity; reflexivity).
        cbn [py_get py_get_default]. rewrite Hproducts.
        change (truthy (default PyNone (Some (PyList (PyDict first :: rest)))))
          with true.
        destruct (Hadd pid (PyInt 2) s5) as (added & s6 & Hadded).
        erewrite script_bind_run.
        2:{ erewrite script_bind_run
              by (unfold py_item; rewrite Hproducts; reflexivity).
            erewrite script_bind_run by (unfold py_item; rewrite Hpid; reflexivity).
            erewrite script_bind_run by apply Hadded.
            reflexivity. }
        apply Hend. cbn [fst snd]. destruct (truthy cats), (truthy added); cbn [fst snd]; lia.
      + erewrite script_bind_run by reflexivity.
        erewrite script_bind_run by reflexivity.
        apply Hend. cbn [fst snd]. destruct (truthy cats); lia. }
  split; [done |]. unfold exit_status. by rewrite Hmain.
Qed.

End TestScript.

(** * The theorems at the example requests *)

#[local] Existing Instances Example.runtime Example.orm.

Lemma cart_requires_authentication_witness :
  (CartAPIController.add_to_cart Scenario.public_view Example.shop).1
  = error_response "Authentication required" ∧
  touches_no_record Example.shop
    (CartAPIController.add_to_cart Scenario.public_view Example.shop).2 ∧
  (CartAPIController.view_cart Scenario.public_view Example.shop).1
  = error_response "Authentication required" ∧
  touches_no_record Example.shop
    (CartAPIController.view_cart Scenario.public_view Example.shop).2.
Proof.
  apply (cart_requires_authentication).
  right. right. reflexivity.
Defined.

Lemma list_products_has_more_witness :
  (ProductAPIController.list_products Cases.bolts Example.shop).1 !! "status"
  = Some (PyStr "success") ∧
  (ProductAPIController.list_products Cases.bolts Example.shop).1 !! "limit"
  = Some (PyInt 2) ∧
  (ProductAPIController.list_products Cases.bolts Example.shop).1 !! "offset"
  = Some (PyInt 0) ∧
  (ProductAPIController.list_products Cases.bolts Example.shop).1 !! "total_count"
  = Some (PyInt 1) ∧
  2 ≤ 100 ∧ 0 ≤ 0 ∧ 0 ≤ 1 ∧
  ∃ b : bool,
    (ProductAPIController.list_products Cases.bolts Example.shop).1 !! "has_more"
    = Some (PyBool b) ∧
    (b = true ↔ 0 + 2 < 1) ∧
    (0 = 0 → 2 = 1 → b = false).
Proof.
  apply (proj1 (list_products_has_more Cases.bolts Example.shop) 2 0 1).
  exists (dict_of Cases.bolts_body), (Some 1), (Some "bolt"), 2, 0,
    [Example.widget 2 "Bolt" 0.5%float].
  split_and!; try reflexivity.
  - exists (PyInt 1). split_and!; reflexivity.
  - exists " bolt ". split_and!; [reflexivity | discriminate | reflexivity | discriminate].
Defined.

Lemma view_cart_never_creates_witness :
  (CartAPIController.view_cart Scenario.alice_view Example.shop).1 !! "status"
  = Some (PyStr "success") ∧
  (CartAPIController.view_cart Scenario.alice_view Example.shop).1 !! "cart"
  = Some PyNone.
Proof.
  apply (proj2 (view_cart_never_creates Scenario.alice_view Example.shop) 5 Example.alice_user).
  - split_and!; [reflexivity | discriminate | discriminate].
  - reflexivity.
  - reflexivity.
Defined.

Lemma scenario_logged_in (req : Request) :
  uid req = Some 5 → logged_in req Example.shop 5.
Proof. intros Hu. split_and!; [exact Hu | discriminate | discriminate]. Defined.

Lemma scenario_asks_bolt :
  asks_for Scenario.add_bolt 2 1.5%float.
Proof.
  eexists _, _. split_and!; [reflexivity | reflexivity | reflexivity ..].
Defined.

Lemma scenario_asks_bolt_again :
  asks_for Scenario.add_bolt_again 2 1%float.
Proof.
  eexists _, _. split_and!; [reflexivity | reflexivity | reflexivity ..].
Defined.

Lemma scenario_bolt_sellable : sellable Example.shop 2 Scenario.bolt.
Proof. split_and!; reflexivity. Defined.

Lemma one_line_per_product_kept_witness :
  ∃ l : Line,
    lines_of 1 (add_all [Scenario.add_bolt; Scenario.add_bolt_again] Example.shop) = [l] ∧
    line_product l = 2 ∧
    product_uom_qty l = PrimFloat.add 1.5%float 1%float ∧
    cart_id_for 7 (add_all [Scenario.add_bolt] Example.shop)
    = 1.
Proof.
  apply (proj2 (proj2 one_line_per_product_kept)
           Scenario.add_bolt Scenario.add_bolt_again Example.shop 5
           Example.alice_user 2 1.5%float 1%float Scenario.bolt).
  - by apply scenario_logged_in.
  - by apply scenario_logged_in.
  - reflexivity.
  - apply scenario_asks_bolt.
  - apply scenario_asks_bolt_again.
  - apply scenario_bolt_sellable.
  - reflexivity.
  - intros c Hc. discriminate Hc.
Defined.

Lemma add_to_cart_new_line_witness :
  ∃ l : Line,
    lines (CartAPIController.add_to_cart Scenario.add_bolt Example.shop).2
    = lines Example.shop ++ [l] ∧
    line_order l = 1 ∧
    line_product l = 2 ∧
    product_uom_qty l = 1.5%float ∧
    price_unit l = 0.5%float.
Proof.
  apply (add_to_cart_new_line Scenario.add_bolt
           Example.shop 5 Example.alice_user 2 1.5%float Scenario.bolt).
  - by apply scenario_logged_in.
  - reflexivity.
  - apply scenario_asks_bolt.
  - apply scenario_bolt_sellable.
  - reflexivity.
Defined.

Lemma add_to_cart_default_quantity_witness :
  CartAPIController.add_to_cart Scenario.add_bolt_default Example.shop
  = CartAPIController.add_to_cart Scenario.add_bolt_again Example.shop.
Proof.
  apply (proj1 (add_to_cart_default_quantity Scenario.add_bolt_default Example.shop
                  (dict_of [("product_id", PyInt 2)]) eq_refl eq_refl)
           Scenario.add_bolt_again); reflexivity.
Defined.

Lemma scenario_wrong_password (s : Session) :
  login_attempt (Cases.wrong_password s) "alice@example.com" (PyStr "wrong").
Proof.
  exists (dict_of Scenario.login_body), "alice@example.com".
  split_and!; [reflexivity | reflexivity | discriminate | reflexivity
               | reflexivity | reflexivity].
Defined.

Lemma scenario_wrong_password_only (s : Session) (login : string) (password : PyVal) :
  login_attempt (Cases.wrong_password s) login password →
  login = "alice@example.com" ∧ password = PyStr "wrong".
Proof.
  intros (d & email & Hd & Hemail & _ & Hpw & _ & ->).
  change (PyDict (dict_of Scenario.login_body) = PyDict d) in Hd.
  injection Hd as <-.
  change (Some (PyStr "alice@example.com") = Some (PyStr email)) in Hemail.
  change (Some (PyStr "wrong") = Some password) in Hpw.
  injection Hemail as <-. injection Hpw as <-. split; reflexivity.
Defined.

Lemma login_failure_indistinguishable_witness :
  CustomerAPIController.customer_login (Cases.wrong_password Cases.strict_raising)
    Example.shop
  = CustomerAPIController.customer_login (Cases.wrong_password Cases.strict_refusing)
      Example.shop ∧
  (CustomerAPIController.customer_login (Cases.wrong_password Cases.strict_raising)
     Example.shop).1
  = error_response "Invalid email or password".
Proof.
  destruct (login_failure_indistinguishable
              (Cases.wrong_password Cases.strict_raising)
              (Cases.wrong_password Cases.strict_refusing) Example.shop)
    as [Hsame Herror].
  - reflexivity.
  - intros login password [-> ->]%scenario_wrong_password_only.
    exists AccessDenied. reflexivity.
  - intros login password [-> ->]%scenario_wrong_password_only.
    left. reflexivity.
  - split; [exact Hsame |].
    apply (Herror "alice@example.com" (PyStr "wrong")), scenario_wrong_password.
Defined.

Lemma empty_required_field_witness :
  CustomerAPIController.create_customer Scenario.signup_without_email Example.shop
  = (error_response "Missing required field: email", Example.shop).
Proof.
  apply (proj1 (proj2 (empty_required_field Scenario.signup_without_email
                         Example.shop _ eq_refl))); reflexivity.
Defined.

Lemma duplicate_registration_rejected_witness :
  (CustomerAPIController.create_customer Scenario.signup
     (CustomerAPIController.create_customer Scenario.signup Example.shop).2).1
  = error_response "Email already exists".
Proof.
  apply (duplicate_registration_rejected Scenario.signup Scenario.signup
           Example.shop (dict_of Scenario.signup_body) "Bob" " Bob@Example.com "
           (PyStr "x")).
  - reflexivity.
  - reflexivity.
  - split_and!; [reflexivity | discriminate | reflexivity | discriminate
                 | reflexivity | reflexivity | reflexivity | left; reflexivity].
  - reflexivity.
Defined.

(** C10, as the claim states it, fails: with the email empty and the name
    absent, the message names the name, not the empty email. *)
Lemma empty_field_not_always_named :
  ¬ (∀ `{PyRuntime} (req : Request) (st : Store) (d : pydict) (field : string),
       field ∈ CustomerAPIController.required_fields →
       request_data req = PyDict d →
       d !! field = Some (PyStr "") →
       (CustomerAPIController.create_customer req st).1 !! "message"
       = Some (PyStr ("Missing required field: " +:+ field))).
Proof.
  intros Hclaim.
  specialize (Hclaim Example.runtime Scenario.signup_without_name Example.shop
                (dict_of [("email", PyStr ""); ("password", PyStr "x")]) "email").
  assert ((CustomerAPIController.create_customer Scenario.signup_without_name
             Example.shop).1 !! "message"
          = Some (PyStr "Missing required field: name")) as Hcode
    by reflexivity.
  rewrite Hcode in Hclaim.
  assert (Some (PyStr "Missing required field: name")
          = Some (PyStr ("Missing required field: " +:+ "email"))) as Hbad.
  { apply Hclaim; [| reflexivity | reflexivity].
    unfold CustomerAPIController.required_fields.
    apply list_elem_of_further, list_elem_of_here. }
  discriminate Hbad.
Qed.

(** ** The further properties at the example requests *)

Lemma add_to_cart_requires_product_id_witness :
  (CartAPIController.add_to_cart Scenario.alice_view Example.shop).1
  = error_response "Product ID is required" ∧
  touches_no_record Example.shop
    (CartAPIController.add_to_cart Scenario.alice_view Example.shop).2.
Proof.
  apply (add_to_cart_requires_product_id Scenario.alice_view Example.shop 5 ∅).
  - by apply scenario_logged_in.
  - reflexivity.
  - unfold present. vm_compute. discriminate.
Defined.

Lemma add_to_cart_rejects_bad_format_witness :
  (CartAPIController.add_to_cart Cases.add_unparsable Example.shop).1
  = error_response "Invalid product_id or quantity format" ∧
  touches_no_record Example.shop
    (CartAPIController.add_to_cart Cases.add_unparsable Example.shop).2.
Proof.
  apply (add_to_cart_rejects_bad_format Cases.add_unparsable Example.shop 5
           (dict_of [("product_id", PyStr "abc")]) (PyStr "abc") ValueError).
  - by apply scenario_logged_in.
  - reflexivity.
  - reflexivity.
  - reflexivity.
  - left. reflexivity.
Defined.

Lemma add_to_cart_rejects_quantity_witness :
  (CartAPIController.add_to_cart Cases.add_nothing Example.shop).1
  = error_response "Quantity must be greater than 0" ∧
  touches_no_record Example.shop
    (CartAPIController.add_to_cart Cases.add_nothing Example.shop).2.
Proof.
  apply (add_to_cart_rejects_quantity Cases.add_nothing Example.shop 5
           (dict_of [("product_id", PyInt 2); ("quantity", PyInt 0)])
           (PyInt 2) 2 0%float).
  - by apply scenario_logged_in.
  - reflexivity.
  - reflexivity.
  - reflexivity.
  - reflexivity.
  - reflexivity.
  - reflexivity.
Defined.

Lemma scenario_asks_unknown : asks_for Cases.add_unknown 99 1%float.
Proof.
  eexists _, _. split_and!; [reflexivity | reflexivity | reflexivity ..].
Defined.

Lemma add_to_cart_rejects_unsellable_witness :
  (CartAPIController.add_to_cart Cases.add_unknown Example.shop).1
  = error_response "Product not found or not available for sale" ∧
  records (CartAPIController.add_to_cart Cases.add_unknown Example.shop).2
  = records Example.shop.
Proof.
  apply (add_to_cart_rejects_unsellable Cases.add_unknown Example.shop 5
           Example.alice_user 99 1%float).
  - by apply scenario_logged_in.
  - reflexivity.
  - apply scenario_asks_unknown.
  - intros product [Hp _]. discriminate Hp.
Defined.

Lemma add_to_cart_response_witness :
  (CartAPIController.add_to_cart Scenario.add_bolt Example.shop).1 !! "cart_items_count"
  = Some (PyInt 1) ∧
  (CartAPIController.add_to_cart Scenario.add_bolt Example.shop).1 !! "cart_total"
  = Some (PyFloat 0.75%float).
Proof.
  rewrite (proj1 (add_to_cart_response Scenario.add_bolt Example.shop 5
                    Example.alice_user 2 1.5%float Scenario.bolt
                    (scenario_logged_in Scenario.add_bolt eq_refl) eq_refl
                    scenario_asks_bolt scenario_bolt_sellable)).
  split; reflexivity.
Defined.

Lemma scenario_logged_in_cart (req : Request) :
  uid req = Some 5 → logged_in req Cases.shop_with_cart 5.
Proof. intros Hu. split_and!; [exact Hu | discriminate | discriminate]. Defined.


Lemma add_to_cart_creates_cart_once_witness :
  length (orders (CartAPIController.add_to_cart Scenario.add_bolt Example.shop).2)
  = S (length (orders Example.shop)) ∧
  length (draft_orders 7 (CartAPIController.add_to_cart Scenario.add_bolt Example.shop).2)
  = 1%nat.
Proof.
  apply (proj1 (proj2 (add_to_cart_creates_cart_once Scenario.add_bolt Example.shop 5
                         Example.alice_user 2 1.5%float Scenario.bolt
                         (scenario_logged_in Scenario.add_bolt eq_refl) eq_refl
                         scenario_asks_bolt scenario_bolt_sellable))).
  reflexivity.
Defined.

Lemma view_cart_shows_cart_witness :
  (CartAPIController.view_cart Scenario.alice_view Cases.shop_with_cart).1 !! "status"
  = Some (PyStr "success").
Proof.
  destruct (most_recent (draft_orders 7 Cases.shop_with_cart)) as [c |] eqn:Hc;
    [| vm_compute in Hc; discriminate Hc].
  destruct (view_cart_shows_cart Scenario.alice_view Cases.shop_with_cart 5
              Example.alice_user Example.alice c) as (shown & _ & ->).
  - by apply scenario_logged_in_cart.
  - reflexivity.
  - reflexivity.
  - exact Hc.
  - vm_compute in Hc. injection Hc as <-.
    apply Forall_forall. repeat constructor. by eexists.
  - reflexivity.
Defined.

Lemma view_after_add_witness :
  ∃ (cart : pydict) (shown : list PyVal),
    (CartAPIController.view_cart Scenario.alice_view
       (CartAPIController.add_to_cart Scenario.add_bolt Example.shop).2).1
    = dict_of [("status", PyStr "success"); ("cart", PyDict cart)] ∧
    cart !! "id"
    = (CartAPIController.add_to_cart Scenario.add_bolt Example.shop).1 !! "cart_id" ∧
    cart !! "items_count"
    = (CartAPIController.add_to_cart Scenario.add_bolt Example.shop).1
      !! "cart_items_count" ∧
    cart !! "total"
    = (CartAPIController.add_to_cart Scenario.add_bolt Example.shop).1 !! "cart_total" ∧
    cart !! "lines" = Some (PyList shown) ∧
    Forall2 shows_line
      (lines_of (cart_id_for (user_partner Example.alice_user) Example.shop)
         (CartAPIController.add_to_cart Scenario.add_bolt Example.shop).2) shown.
Proof.
  apply (view_after_add Scenario.add_bolt Scenario.alice_view Example.shop 5
           Example.alice_user Example.alice 2 1.5%float Scenario.bolt).
  - by apply scenario_logged_in.
  - by apply scenario_logged_in.
  - reflexivity.
  - reflexivity.
  - apply scenario_asks_bolt.
  - apply scenario_bolt_sellable.
  - intros c Hc. discriminate Hc.
  - intros l Hl. change (l ∈ []) in Hl. by apply elem_of_nil in Hl.
Defined.

Lemma scenario_no_category (body : list (string * PyVal)) :
  dict_of body !! "category_id" = None → category_filter (dict_of body) None.
Proof. intros Hnone. unfold category_filter, present. rewrite Hnone. discriminate. Defined.

Lemma scenario_no_search (body : list (string * PyVal)) :
  dict_of body !! "search" = None → search_filter (dict_of body) None.
Proof.
  intros Hnone. left. unfold present. rewrite Hnone. discriminate.
Defined.

Lemma list_products_response_witness :
  (ProductAPIController.list_products Cases.bolts Example.shop).1 !! "total_count"
  = Some (PyInt 1) ∧
  (ProductAPIController.list_products Cases.bolts Example.shop).1 !! "has_more"
  = Some (PyBool false).
Proof.
  rewrite (list_products_response Cases.bolts Example.shop (dict_of Cases.bolts_body)
             (Some 1) (Some "bolt") 2 0 [Example.widget 2 "Bolt" 0.5%float]).
  - split; reflexivity.
  - reflexivity.
  - exists (PyInt 1). split_and!; reflexivity.
  - exists " bolt ". split_and!; [reflexivity | discriminate | reflexivity | discriminate].
  - reflexivity.
  - reflexivity.
  - reflexivity.
Defined.

Lemma list_products_rejects_window_witness :
  ProductAPIController.list_products Cases.many Example.shop
  = (error_response "Invalid limit or offset format", Example.shop).
Proof.
  apply (list_products_rejects_window Cases.many Example.shop
           (dict_of [("limit", PyStr "many")]) None None ValueError).
  - reflexivity.
  - by apply scenario_no_category.
  - by apply scenario_no_search.
  - left. reflexivity.
Defined.

Lemma list_products_rejects_category_witness :
  ProductAPIController.list_products Cases.tools Example.shop
  = (error_response "Invalid category_id format", Example.shop).
Proof.
  apply (list_products_rejects_category Cases.tools Example.shop
           (dict_of [("category_id", PyStr "tools")]) (PyStr "tools") ValueError);
    reflexivity.
Defined.

Lemma list_products_search_not_text_witness :
  ProductAPIController.list_products Cases.search_five Example.shop
  = (error_response "Failed to retrieve products", Example.shop).
Proof.
  apply (list_products_search_not_text Cases.search_five Example.shop
           (dict_of [("search", PyInt 5)]) None (PyInt 5)).
  - reflexivity.
  - by apply scenario_no_category.
  - reflexivity.
  - reflexivity.
  - intros s. discriminate.
Defined.

(** The example search returns records of the list it is given. *)
Lemma insert_by_name_elem_of (p y : Product) (l : list Product) :
  y ∈ Example.insert_by_name p l → y = p ∨ y ∈ l.
Proof.
  induction l as [| q l IH]; cbn.
  - intros ->%list_elem_of_singleton. by left.
  - destruct (String.leb (product_name p) (product_name q)).
    + intros [-> | Hy]%elem_of_cons; [by left | by right].
    + intros [-> | Hy]%elem_of_cons; [right; apply list_elem_of_here |].
      destruct (IH Hy) as [-> | Hl]; [by left | right; by apply list_elem_of_further].
Qed.

Lemma window_sound (limit offset : Z) (xs ys : list Product) :
  search_window limit offset xs = Return ys → ∀ y, y ∈ ys → y ∈ xs.
Proof.
  change (Example.window limit offset xs = Return ys → ∀ y, y ∈ ys → y ∈ xs).
  unfold Example.window. destruct (limit <? 0); [discriminate |].
  intros Hys y Hy. injection Hys as <-.
  assert (y ∈ foldr Example.insert_by_name [] xs) as Hsorted.
  { destruct (limit =? 0).
    - by apply (subseteq_drop (Z.to_nat offset)).
    - by apply (subseteq_drop (Z.to_nat offset)), (subseteq_take (Z.to_nat limit)). }
  clear Hy. induction xs as [| x xs IH]; [done |].
  cbn [foldr] in Hsorted. apply insert_by_name_elem_of in Hsorted as [-> | Hsorted].
  - apply list_elem_of_here.
  - apply list_elem_of_further. by apply IH.
Qed.

Lemma list_products_lists_available_witness :
  ∃ (p : Product) (dp : pydict),
    p ∈ products Example.shop ∧ sale_ok p = true ∧ active p = true ∧
    ProductAPIController.product_data "http://localhost:8097" "USD"
      (Example.widget 1 "Anvil" 10%float)
    = PyDict dp ∧
    dp !! "id" = Some (PyInt (product_id p)) ∧
    dp !! "is_available" = Some (PyBool true).
Proof.
  apply (list_products_lists_available Scenario.first_page Example.shop window_sound
           (ProductAPIController.product_data "http://localhost:8097" "USD"
              <$> [Example.widget 1 "Anvil" 10%float; Example.widget 2 "Bolt" 0.5%float])).
  - reflexivity.
  - apply list_elem_of_here.
Defined.

Lemma scenario_valid_signup :
  valid_registration (dict_of Scenario.signup_body) "Bob" " Bob@Example.com " (PyStr "x").
Proof.
  split_and!; [reflexivity | discriminate | reflexivity | discriminate
               | reflexivity | reflexivity | reflexivity | left; reflexivity].
Defined.

Lemma create_customer_creates_witness :
  (CustomerAPIController.create_customer Scenario.signup Example.shop).1 !! "email"
  = Some (PyStr "bob@example.com") ∧
  length (users (CustomerAPIController.create_customer Scenario.signup Example.shop).2)
  = 2%nat.
Proof.
  destruct (create_customer_creates Scenario.signup Example.shop
              (dict_of Scenario.signup_body) "Bob" " Bob@Example.com " "" (PyStr "x"))
    as (Hresponse & _ & Husers & _).
  - reflexivity.
  - apply scenario_valid_signup.
  - right. split; reflexivity.
  - reflexivity.
  - reflexivity.
  - rewrite Hresponse, Husers. split; reflexivity.
Defined.

Lemma create_customer_invalid_email_witness :
  CustomerAPIController.create_customer Cases.signup_no_at Example.shop
  = (error_response "Invalid email format", Example.shop).
Proof.
  apply (create_customer_invalid_email Cases.signup_no_at Example.shop
           (dict_of [("name", PyStr "Bob"); ("email", PyStr "bob.example.com");
                     ("password", PyStr "x")]) "bob.example.com").
  - reflexivity.
  - reflexivity.
  - reflexivity.
  - discriminate.
  - reflexivity.
  - reflexivity.
Defined.

Lemma create_customer_email_not_text_witness :
  CustomerAPIController.create_customer Cases.signup_email_number Example.shop
  = (error_response "Internal server error", Example.shop).
Proof.
  apply (create_customer_email_not_text Cases.signup_email_number Example.shop
           (dict_of [("name", PyStr "Bob"); ("email", PyInt 5); ("password", PyStr "x")])
           (PyInt 5)).
  - reflexivity.
  - reflexivity.
  - reflexivity.
  - reflexivity.
  - intros s. discriminate.
  - reflexivity.
Defined.

Lemma create_customer_name_or_phone_not_text_witness :
  (CustomerAPIController.create_customer Cases.signup_name_number Example.shop).1
  = error_response "Internal server error" ∧
  records (CustomerAPIController.create_customer Cases.signup_name_number Example.shop).2
  = records Example.shop.
Proof.
  apply (create_customer_name_or_phone_not_text Cases.signup_name_number Example.shop
           (dict_of [("name", PyInt 5); ("email", PyStr "bob@example.com");
                     ("password", PyStr "x")]) "bob@example.com" (PyInt 5) PyNone).
  - reflexivity.
  - reflexivity.
  - reflexivity.
  - reflexivity.
  - discriminate.
  - reflexivity.
  - reflexivity.
  - reflexivity.
  - reflexivity.
  - left. intros s. discriminate.
Defined.

Lemma customer_login_granted_witness :
  (CustomerAPIController.customer_login (Cases.login_as "alice@example.com")
     Example.shop).1 !! "status"
  = Some (PyStr "success").
Proof.
  rewrite (customer_login_granted (Cases.login_as "alice@example.com") Example.shop
             (dict_of [("email", PyStr "alice@example.com"); ("password", PyStr "x")])
             "alice@example.com" (PyStr "x") 5 Example.alice_user Example.alice).
  - reflexivity.
  - reflexivity.
  - reflexivity.
  - discriminate.
  - reflexivity.
  - reflexivity.
  - reflexivity.
  - discriminate.
  - reflexivity.
  - reflexivity.
Defined.

Lemma signup_then_login_witness :
  (CustomerAPIController.customer_login (Cases.login_as " BOB@example.com")
     (CustomerAPIController.create_customer Scenario.signup Example.shop).2).1
  !! "user_id"
  = Some (PyInt 6).
Proof.
  destruct (signup_then_login Scenario.signup (Cases.login_as " BOB@example.com")
              Example.shop (dict_of Scenario.signup_body)
              (dict_of [("email", PyStr " BOB@example.com"); ("password", PyStr "x")])
              "Bob" " Bob@Example.com " "" " BOB@example.com" (PyStr "x") (PyStr "x"))
    as (Hlogin & _).
  - reflexivity.
  - apply scenario_valid_signup.
  - right. split; reflexivity.
  - reflexivity.
  - reflexivity.
  - reflexivity.
  - reflexivity.
  - discriminate.
  - reflexivity.
  - reflexivity.
  - reflexivity.
  - vm_compute. reflexivity.
  - rewrite Hlogin. reflexivity.
Defined.

Lemma unreadable_body_is_empty_payload_witness :
  request_data Cases.garbled = PyDict (kw Cases.garbled).
Proof.
  apply (proj1 (unreadable_body_is_empty_payload Cases.garbled Example.shop
                  (ex_intro _ ValueError eq_refl))).
Defined.

Lemma payload_not_an_object_witness :
  CustomerAPIController.create_customer Cases.list_body Example.shop
  = (error_response "Internal server error", Example.shop).
Proof.
  apply (payload_not_an_object Cases.list_body Example.shop).
  intros d Hd. change (PyList [PyInt 1] = PyDict d) in Hd. discriminate Hd.
Defined.

Lemma add_to_cart_accepts_nan_witness :
  (CartAPIController.add_to_cart Cases.add_nan Example.shop).1 !! "status"
  = Some (PyStr "success").
Proof.
  apply (add_to_cart_accepts_nan Cases.add_nan Example.shop 5 Example.alice_user
           (dict_of [("product_id", PyInt 2); ("quantity", PyFloat nan)])
           (PyInt 2) 2 Scenario.bolt).
  - by apply scenario_logged_in.
  - reflexivity.
  - reflexivity.
  - reflexivity.
  - reflexivity.
  - reflexivity.
  - reflexivity.
  - apply scenario_bolt_sellable.
Defined.

Lemma main_fails_without_login_witness :
  @TestApi.main NoLogin.no_login 0 0%nat = (Return false, 3%nat) ∧
  @TestApi.exit_status NoLogin.no_login 0 0%nat = 1.
Proof.
  apply (@main_fails_without_login NoLogin.no_login 0 0%nat 1%nat 2%nat 3%nat
           true (PyDict (dict_of [("status", PyStr "success")])) PyNone);
    reflexivity.
Defined.

Lemma main_passes_on_core_witness :
  (@TestApi.main CoreOnly.core_only 0 0%nat).1 = Return true ∧
  @TestApi.exit_status CoreOnly.core_only 0 0%nat = 0.
Proof.
  apply (@main_passes_on_core CoreOnly.core_only 0 0%nat 1%nat 2%nat 3%nat
           (PyDict (dict_of [("status", PyStr "success")]))
           (PyDict (dict_of [("status", PyStr "success")]))).
  - reflexivity.
  - reflexivity.
  - reflexivity.
  - reflexivity.
  - reflexivity.
  - intros s. eexists _, _. reflexivity.
  - intros f s. eexists _, _. split; [reflexivity | left; reflexivity].
  - intros p q s. eexists _, _. reflexivity.
  - intros s. eexists _, _. reflexivity.
Defined.
